(** * Tag co-occurrence graph and rising-edge analysis

    A shallow embedding of [src/graph/builder.py]
    ([TagCooccurrenceGraph.build_graph]) and [src/graph/analytics.py]
    ([GraphAnalytics.find_rising_edges], [_fallback_top_edges]), followed by
    the properties of the specification that concern them.

    Conventions of the embedding:
    - Python [int] is [Z]; the float [growth] is the exact rational [Q]
      (the quotient of two small integers), the float literal [0.0] is [0%Q].
    - a [str] is a [string], ordered byte-wise, which for UTF-8 text is the
      code-point order Python uses.
    - a [Counter] (a [dict], hence insertion ordered) is an association list
      without repeated keys, new keys appended at the end.
    - a record is the pair of fields the graph code reads: ["tags"] and what
      [datetime.fromisoformat] yields for ["time"].  [Dated] has the records
      with their [datetime] values, naive or with a UTC offset, and the
      method [find_rising_edges] on them: with the [TypeError] that [max]
      raises on times of both kinds, and with the anchor printed as the wall
      clock of the record that [max] returns.  [item] is a record on the
      time line, and [Analytics] is the computation on the time line,
      which the method follows whenever it returns
      ([DatedFacts.find_rising_edges_comparable]).
    - the iteration order of a Python [set] depends on the hashes of its
      elements, which for strings change from one process to the next; it
      is a parameter [set_iter] of the analysis. *)

From Stdlib Require Import List String Ascii ZArith QArith Bool Lia.
From Stdlib Require Import Permutation Sorted OrdersEx RelationClasses.
Import ListNotations.

Close Scope Q_scope.
Open Scope string_scope.
Open Scope list_scope.
Open Scope Z_scope.

Set Implicit Arguments.

Definition tag := string.
Definition edge := (tag * tag)%type.

(** ** Python primitives used by the graph code *)
Module Py.

(** [len(l)] *)
Definition len {A : Type} (l : list A) : Z := Z.of_nat (List.length l).

(** Order on [str]. *)
Definition str_ltb (a b : string) : bool :=
  match String_as_OT.compare a b with Lt => true | _ => false end.

Definition edge_eqb (e1 e2 : edge) : bool :=
  String.eqb (fst e1) (fst e2) && String.eqb (snd e1) (snd e2).

Section StableSort.
Context {A : Type}.
(** [before y x]: [y] has to come strictly before [x]. *)
Variable before : A -> A -> bool.

Fixpoint insert (x : A) (l : list A) : list A :=
  match l with
  | [] => [x]
  | y :: t => if before y x then y :: insert x t else x :: y :: t
  end.

(** A stable sort: elements that [before] does not separate keep the
    order they have in [l], as [sorted] and [list.sort] guarantee (also
    with [reverse=True]). *)
Definition sort (l : list A) : list A := fold_right insert [] l.

(** [ordered a b]: nothing forces [b] before [a]. *)
Definition ordered (a b : A) : Prop := before b a = false.
End StableSort.

(** [sorted(tags)] on a list of strings. *)
Definition sorted (l : list string) : list string := sort str_ltb l.

(** [itertools.combinations(l, 2)]: pairs of positions [i < j], in
    lexicographic order of the positions. *)
Fixpoint combinations2 {A : Type} (l : list A) : list (A * A) :=
  match l with
  | [] => []
  | x :: t => map (pair x) t ++ combinations2 t
  end.

(** [l[:n]] *)
Definition slice_to {A : Type} (n : Z) (l : list A) : list A :=
  if n <? 0 then firstn (List.length l - Z.to_nat (- n)) l
  else firstn (Z.to_nat n) l.

Section Counter.
Context {K : Type}.
Variable keq : K -> K -> bool.

Definition counter := list (K * Z).

(** [c[k] += 1] *)
Fixpoint incr (c : counter) (k : K) : counter :=
  match c with
  | [] => [(k, 1)]
  | (k', n) :: t => if keq k k' then (k', n + 1) :: t else (k', n) :: incr t k
  end.

(** [c.get(k, 0)] *)
Fixpoint get (c : counter) (k : K) : Z :=
  match c with
  | [] => 0
  | (k', n) :: t => if keq k k' then n else get t k
  end.

(** [for k in ks: c[k] += 1] *)
Definition incr_all (c : counter) (ks : list K) : counter :=
  fold_left incr ks c.

Definition keys (c : counter) : list K := map fst c.

(** How often [k] occurs in a list of keys. *)
Definition occurrences (k : K) (ks : list K) : Z := len (filter (keq k) ks).

(** An item goes strictly before another one when its count is
    strictly larger. *)
Definition by_count_desc (y x : K * Z) : bool := snd x <? snd y.

(** [c.most_common(n)] for an integer [n]: [heapq.nlargest(n, c.items(),
    key=count)], that is the first [n] items of the stable descending
    sort, and nothing when [n <= 0]. *)
Definition most_common (n : Z) (c : counter) : list (K * Z) :=
  if n <=? 0 then []
  else firstn (Z.to_nat n) (sort by_count_desc c).
End Counter.

End Py.

(** ** Records *)

(** A record on the time line.  [time]: the instant of the time parsed
    from [item.get("time")], in microseconds: the wall clock of a time
    without offset, the UTC time of a time with one; [None] when the field
    is missing, empty or rejected by [datetime.fromisoformat].
    [tags]: [item.get("tags", [])].  The records with their times as parsed
    are [Dated.record]. *)
Record item := mk_item { time : option Z; tags : list tag }.

(** The pair counting both modules share:
    [for pair in combinations(sorted(tags), 2): c[pair] += 1]. *)
Definition tag_pairs (ts : list tag) : list edge :=
  Py.combinations2 (Py.sorted ts).

Definition count_pairs (c : Py.counter (K:=edge)) (ts : list tag) : Py.counter :=
  Py.incr_all Py.edge_eqb c (tag_pairs ts).

(** ** Vocabulary of the specification *)

(** The name under which the code stores the unordered pair of [a] and
    [b]: smaller tag first. *)
Definition edge_key (a b : tag) : edge :=
  if Py.str_ltb b a then (b, a) else (a, b).

(** The co-occurrence weight a counter holds for an unordered pair. *)
Definition pair_weight (c : Py.counter (K:=edge)) (a b : tag) : Z :=
  Py.get Py.edge_eqb c (edge_key a b).

Definition has_tag (t : tag) (it : item) : bool :=
  existsb (String.eqb t) (tags it).

(** Number of records that carry both tags. *)
Definition co_records (its : list item) (a b : tag) : Z :=
  Py.len (filter (fun it => has_tag a it && has_tag b it) its).

(** No tag is repeated within the record, as the cleaning stage leaves it. *)
Definition unique_tags (it : item) : Prop := NoDup (tags it).

(** The pairs a record adds to an edge counter, and the tags it adds to the
    node counter: none when it has fewer than two tags. *)
Definition paired_tags (it : item) : list edge :=
  if Py.len (tags it) <? 2 then [] else tag_pairs (tags it).

Definition counted_tags (it : item) : list tag :=
  if Py.len (tags it) <? 2 then [] else tags it.

(** How often a tag is counted as a node, and how many of the counted
    records carry it. *)
Definition tag_occurrences (its : list item) (t : tag) : Z :=
  Py.occurrences String.eqb t (flat_map counted_tags its).

Definition records_with_tag (its : list item) (t : tag) : Z :=
  Py.len (filter (fun it => has_tag t it && (2 <=? Py.len (tags it))) its).

(** ** builder.py *)
Module Builder.

(** The views of an [nx.Graph] the code uses: its nodes with their
    [weight] attribute (absent for a node that only [add_edge] created) and
    its undirected edges with their [weight].  [edges] holds one entry for
    each undirected edge, under the pair that created it; the order and the
    direction in which networkx lists the edges are not modelled, and an
    edge is read by [edge_weight], which finds it in either direction. *)
Record graph := mk_graph {
  nodes : list (tag * option Z);
  edges : list (edge * Z)
}.

Definition empty_graph : graph := mk_graph [] [].

(** Two pairs name the same undirected edge. *)
Definition same_edge (e1 e2 : edge) : bool :=
  Py.edge_eqb e1 e2 || Py.edge_eqb e1 (snd e2, fst e2).

Fixpoint set_node (ns : list (tag * option Z)) (t : tag) (a : option Z)
  : list (tag * option Z) :=
  match ns with
  | [] => [(t, a)]
  | (t', a') :: r => if String.eqb t t' then (t', a) :: r
                     else (t', a') :: set_node r t a
  end.

Fixpoint set_edge (es : list (edge * Z)) (e : edge) (w : Z) : list (edge * Z) :=
  match es with
  | [] => [(e, w)]
  | (e', w') :: r => if same_edge e e' then (e', w) :: r
                     else (e', w') :: set_edge r e w
  end.

(** [graph.add_node(t, weight=count)] *)
Definition add_node (g : graph) (t : tag) (count : Z) : graph :=
  mk_graph (set_node (nodes g) t (Some count)) (edges g).

(** A node that [add_edge] meets for the first time gets no attribute. *)
Definition touch_node (ns : list (tag * option Z)) (t : tag) :=
  if existsb (fun p => String.eqb t (fst p)) ns then ns else ns ++ [(t, None)].

(** [graph.add_edge(u, v, weight=w)] *)
Definition add_edge (g : graph) (u v : tag) (w : Z) : graph :=
  mk_graph (touch_node (touch_node (nodes g) u) v) (set_edge (edges g) (u, v) w).

(** The two counters after the loop over [self.items]. *)
Definition count_item (acc : Py.counter (K:=edge) * Py.counter (K:=tag)) (it : item) :=
  let ts := tags it in
  if (Py.len ts =? 0) || (Py.len ts <? 2) then acc
  else (count_pairs (fst acc) ts, Py.incr_all String.eqb (snd acc) ts).

Definition count_items (items : list item) :=
  fold_left count_item items ([], []).

Definition edge_weights (items : list item) := fst (count_items items).
Definition node_occurrences (items : list item) := snd (count_items items).

Definition build_graph (items : list item) : graph :=
  let g1 := fold_left (fun g p => add_node g (fst p) (snd p))
                      (node_occurrences items) empty_graph in
  fold_left (fun g p => add_edge g (fst (fst p)) (snd (fst p)) (snd p))
            (edge_weights items) g1.

Definition node_names (g : graph) : list tag := map fst (nodes g).

(** The node that [add_node] makes of an item of the node counter. *)
Definition as_node (p : tag * Z) : tag * option Z := (fst p, Some (snd p)).

(** A simple graph: no edge from a node to itself, and no two edges
    between the same two nodes. *)
Definition no_self_loops (g : graph) : Prop :=
  forall a b w, In ((a, b), w) (edges g) -> a <> b.

Definition no_parallel_edges (g : graph) : Prop :=
  ForallOrdPairs (fun p q => same_edge (fst p) (fst q) = false) (edges g).

(** [graph.get_edge_data(a, b)]: the weight of the edge between [a] and
    [b], in either direction; [None] when the graph has no such edge. *)
Fixpoint edge_weight (es : list (edge * Z)) (a b : tag) : option Z :=
  match es with
  | [] => None
  | (e', w) :: r => if same_edge (a, b) e' then Some w else edge_weight r a b
  end.

(** [graph.nodes[t].get("weight")] *)
Fixpoint node_weight (ns : list (tag * option Z)) (t : tag) : option Z :=
  match ns with
  | [] => None
  | (t', a) :: r => if String.eqb t t' then a else node_weight r t
  end.

End Builder.

(** ** analytics.py *)
Module Analytics.

Definition edge_counter := Py.counter (K:=edge).

(** [window_stats["mode"]] *)
Inductive run_mode := Rising | Fallback.

(** The [details] mapping of an entry: the keys [recent_count],
    [historical_count], [growth_rate] of a rising edge, or [total_count],
    [fallback_reason] of a fallback edge. *)
Inductive details :=
| RisingDetails (recent_weight historical_weight : Z) (growth_rate : Q)
| FallbackDetails (total : Z) (fallback_reason : string).

(** [(tag1, tag2, score, details)] *)
Definition entry := (tag * tag * Q * details)%type.

Definition entry_edge (e : entry) : edge := (fst (fst (fst e)), snd (fst (fst e))).
Definition score (e : entry) : Q := snd (fst e).
Definition entry_details (e : entry) : details := snd e.

(** [anchor_now] is reported as text: ["N/A"], or the anchor formatted by
    [strftime('%Y-%m-%d %H:%M:%S')], which keeps whole seconds. *)
Inductive anchor_text := NotAvailable | Formatted (seconds : Z).

(** The text of an anchor whose wall clock is its instant: a time without
    offset, or at the offset 0.  [Clock.strftime] prints any time. *)
Definition strftime (t : Z) : anchor_text := Formatted (t / 1000000).

(** The two edge counts are keys the dictionary has only when the windows
    were computed. *)
Record window_stats := mk_stats {
  anchor_now : anchor_text;
  recent_count : Z;
  historical_count : Z;
  total_count : Z;
  recent_edges_count : option Z;
  historical_edges_count : option Z;
  mode : run_mode
}.

(** [window_stats["mode"] = m] *)
Definition set_mode (s : window_stats) (m : run_mode) : window_stats :=
  mk_stats (anchor_now s) (recent_count s) (historical_count s) (total_count s)
           (recent_edges_count s) (historical_edges_count s) m.

(** The recount of [_fallback_top_edges] over all of [self.items]. *)
Definition recount_step (c : edge_counter) (it : item) : edge_counter :=
  if Py.len (tags it) >=? 2 then count_pairs c (tags it) else c.

Definition recount (items : list item) : edge_counter :=
  fold_left recount_step items [].

Definition fallback_entry (p : edge * Z) : entry :=
  (fst (fst p), snd (fst p), 0%Q,
   FallbackDetails (snd p) "insufficient_window_samples").

Definition _fallback_top_edges (items : list item) (top_n : Z)
    (all_edges : option edge_counter) (stats : option window_stats)
  : list entry * window_stats :=
  let all_edges := match all_edges with
                   | None => recount items
                   | Some c => c
                   end in
  let top_edges := map fallback_entry (Py.most_common top_n all_edges) in
  let stats := match stats with
               | None => mk_stats NotAvailable 0 0 (Py.len items) None None Fallback
               | Some s => s
               end in
  (top_edges, stats).

(** The records that have a time the parser accepts, with that time. *)
Definition items_with_time (items : list item) : list (item * Z) :=
  flat_map (fun it => match time it with
                      | Some t => [(it, t)]
                      | None => []
                      end) items.

(** [timedelta(days=d)], in microseconds *)
Definition timedelta_days (d : Z) : Z := d * 86400000000.

(** [max(t for _, t in items_with_time)] on a list that is not empty, for
    instants, which can always be ordered.  [Clock.max_from] is [max] on
    the times as parsed, which cannot. *)
Definition max_time (l : list (item * Z)) : Z :=
  match l with
  | [] => 0
  | p :: r => fold_left Z.max (map snd r) (snd p)
  end.

Definition anchor_of (items : list item) : Z := max_time (items_with_time items).

Definition recent_threshold (items : list item) (recent_days : Z) : Z :=
  anchor_of items - timedelta_days recent_days.

Definition historical_threshold (items : list item) (recent_days historical_days : Z) : Z :=
  anchor_of items - timedelta_days (recent_days + historical_days).

(** The five accumulators of the window loop. *)
Record windows := mk_windows {
  recent_edges : edge_counter;
  historical_edges : edge_counter;
  recent_items : list item;
  historical_items : list item;
  all_edges : edge_counter
}.

Definition empty_windows : windows := mk_windows [] [] [] [] [].

(** The [if] / [elif] on the time of a record. *)
Inductive window := InRecent | InHistorical | InNeither.

Definition window_of (recent_thr historical_thr t : Z) : window :=
  if t >=? recent_thr then InRecent
  else if t >=? historical_thr then InHistorical
  else InNeither.

(** One turn of the loop over [items_with_time]. *)
Definition window_step (recent_thr historical_thr : Z) (w : windows) (p : item * Z)
  : windows :=
  let ts := tags (fst p) in
  if Py.len ts <? 2 then w
  else
    let all' := count_pairs (all_edges w) ts in
    match window_of recent_thr historical_thr (snd p) with
    | InRecent =>
        mk_windows (count_pairs (recent_edges w) ts) (historical_edges w)
                   (recent_items w ++ [fst p]) (historical_items w) all'
    | InHistorical =>
        mk_windows (recent_edges w) (count_pairs (historical_edges w) ts)
                   (recent_items w) (historical_items w ++ [fst p]) all'
    | InNeither =>
        mk_windows (recent_edges w) (historical_edges w)
                   (recent_items w) (historical_items w) all'
    end.

Definition windows_of (items : list item) (recent_days historical_days : Z) : windows :=
  fold_left (window_step (recent_threshold items recent_days)
                         (historical_threshold items recent_days historical_days))
            (items_with_time items) empty_windows.

(** [window_stats] as first built, with [mode] at its default. *)
Definition initial_stats (items : list item) (recent_days historical_days : Z)
  : window_stats :=
  let w := windows_of items recent_days historical_days in
  mk_stats (strftime (anchor_of items))
           (Py.len (recent_items w))
           (Py.len (historical_items w))
           (Py.len (items_with_time items))
           (Some (Py.len (recent_edges w)))
           (Some (Py.len (historical_edges w)))
           Rising.

Definition Qlt_bool (a b : Q) : bool := negb (Qle_bool b a).

(** [(recent_weight - historical_weight) / (historical_weight + 1)] *)
Definition growth (recent_weight historical_weight : Z) : Q :=
  (inject_Z (recent_weight - historical_weight) / inject_Z (historical_weight + 1))%Q.

(** [growth > 0 and recent_weight >= 2] *)
Definition qualifies (recent_weight historical_weight : Z) : bool :=
  Qlt_bool 0%Q (growth recent_weight historical_weight) && (recent_weight >=? 2).

(** The body of the loop over the edges of either window. *)
Definition rising_entry (re he : edge_counter) (e : edge) : list entry :=
  let recent_weight := Py.get Py.edge_eqb re e in
  let historical_weight := Py.get Py.edge_eqb he e in
  let g := growth recent_weight historical_weight in
  if qualifies recent_weight historical_weight
  then [(fst e, snd e, g, RisingDetails recent_weight historical_weight g)]
  else [].

(** [key=lambda x: x[2], reverse=True]: an entry goes strictly before
    another one when its score is strictly larger. *)
Definition by_score_desc (y x : entry) : bool := Qlt_bool (score x) (score y).

Section SetOrder.
(** The order in which [set(l)] yields its elements. *)
Variable set_iter : list edge -> list edge.

(** [rising_edges] after [rising_edges.sort(...)]. *)
Definition rising_edges (re he : edge_counter) : list entry :=
  Py.sort by_score_desc
          (flat_map (rising_entry re he) (set_iter (Py.keys re ++ Py.keys he))).

Definition find_rising_edges (items : list item)
    (recent_days historical_days top_n : Z) : list entry * window_stats :=
  match items_with_time items with
  | [] => _fallback_top_edges items top_n None None
  | _ :: _ =>
      let w := windows_of items recent_days historical_days in
      let stats := initial_stats items recent_days historical_days in
      if (recent_count stats <? 5) || (historical_count stats <? 5)
      then _fallback_top_edges items top_n (Some (all_edges w))
                               (Some (set_mode stats Fallback))
      else
        match rising_edges (recent_edges w) (historical_edges w) with
        | [] => _fallback_top_edges items top_n (Some (all_edges w))
                                    (Some (set_mode stats Fallback))
        | r :: rs => (Py.slice_to top_n (r :: rs), stats)
        end
  end.
End SetOrder.



(** The records with a time that the window loop does not skip, by window. *)
Definition counted_recent (recent_thr : Z) (p : item * Z) : bool :=
  (2 <=? Py.len (tags (fst p))) && (recent_thr <=? snd p).

Definition counted_historical (recent_thr historical_thr : Z) (p : item * Z) : bool :=
  (2 <=? Py.len (tags (fst p))) && (snd p <? recent_thr) && (historical_thr <=? snd p).

(** The records whose pairs a fallback ranks: those with a time, or all of
    them when none has a time. *)
Definition fallback_population (items : list item) : list item :=
  match items_with_time items with
  | [] => items
  | _ :: _ => map fst (items_with_time items)
  end.

Definition global_edges (items : list item) : edge_counter :=
  Py.incr_all Py.edge_eqb [] (flat_map paired_tags (fallback_population items)).

(** What every iteration order of a set has: each element once. *)
Definition set_iteration (set_iter : list edge -> list edge) : Prop :=
  forall l, NoDup (set_iter l) /\ (forall e, In e (set_iter l) <-> In e l).

(** Two iteration orders: by first occurrence, and the reverse. *)
Fixpoint first_seen (l : list edge) : list edge :=
  match l with
  | [] => []
  | e :: r => e :: filter (fun x => negb (Py.edge_eqb x e)) (first_seen r)
  end.

Definition last_seen (l : list edge) : list edge := rev (first_seen l).

End Analytics.

(** The order the specification asks of rising edges: growth descending,
    then recent weight descending, then tag pair ascending. *)
Module TieBreak.
Import Analytics.

Definition recent_of (en : entry) : Z :=
  match entry_details en with
  | RisingDetails r _ _ => r
  | FallbackDetails _ _ => 0
  end.

Definition pair_leb (e1 e2 : edge) : bool :=
  Py.str_ltb (fst e1) (fst e2)
  || (String.eqb (fst e1) (fst e2) && negb (Py.str_ltb (snd e2) (snd e1))).

Definition tie_break_order (x y : entry) : Prop :=
  (score y < score x)%Q \/
  ((score x == score y)%Q /\
   (recent_of y < recent_of x \/
    (recent_of x = recent_of y /\ pair_leb (entry_edge x) (entry_edge y) = true))).

End TieBreak.

(** ** Sample record collections *)
Module Samples.

Definition day : Z := 86400000000.

(** One record that repeats a tag. *)
Definition repeated_tag : list item := [mk_item (Some 0) ["a"; "a"; "b"]].

(** A record with a single tag next to a record with two. *)
Definition with_single : list item :=
  [mk_item None ["solo"]; mk_item None ["b"; "a"]].

(** The only record with a pair of tags has no time; another record has. *)
Definition untimed_pair : list item :=
  [mk_item (Some 0) ["x"]; mk_item None ["a"; "b"]].

(** Five recent and five historical records, all with the same pair. *)
Definition steady : list item :=
  repeat (mk_item (Some (100 * day)) ["a"; "b"]) 5
  ++ repeat (mk_item (Some (90 * day)) ["b"; "a"]) 5.

(** Two edges of growth 2: (a,b) goes from 0 to 2, (c,d) from 1 to 5. *)
Definition tied : list item :=
  repeat (mk_item (Some (100 * day)) ["a"; "b"]) 2
  ++ repeat (mk_item (Some (100 * day)) ["c"; "d"]) 5
  ++ [mk_item (Some (90 * day)) ["c"; "d"]]
  ++ repeat (mk_item (Some (90 * day)) ["x"; "y"]) 4.

(** A record with one tag, dated seven days before the latest record. *)
Definition on_boundary : item := mk_item (Some (93 * day)) ["c"].

Definition boundary : list item :=
  [mk_item (Some (100 * day)) ["a"; "b"]; on_boundary].

(** Three recent and three historical records. *)
Definition sparse : list item :=
  repeat (mk_item (Some (100 * day)) ["a"; "b"]) 3
  ++ repeat (mk_item (Some (90 * day)) ["a"; "c"]) 3.

End Samples.

(** ** analytics.py: the times as [datetime.fromisoformat] yields them *)
Module Clock.

(** A [datetime]: the reading of its wall clock, in microseconds, and its
    UTC offset, in microseconds.  [utcoffset] is [None] for a naive value
    (a text without offset); a text that ends in Z gets the offset 0. *)
Record datetime := mk_datetime { wall : Z; utcoffset : option Z }.

Definition aware (d : datetime) : bool :=
  match utcoffset d with
  | Some _ => true
  | None => false
  end.

(** The point of the time line by which values of one kind are ordered:
    the wall clock of a naive value, the UTC time of an aware one. *)
Definition instant (d : datetime) : Z :=
  match utcoffset d with
  | Some offset => wall d - offset
  | None => wall d
  end.

(** What an operation on [datetime] values gives: Python raises
    [TypeError] when it has to order a naive and an aware value. *)
Inductive result (A : Type) : Type :=
| TypeError
| Ok (a : A).

Arguments TypeError {A}.

(** [a > b] *)
Definition gt (a b : datetime) : result bool :=
  if Bool.eqb (aware a) (aware b) then Ok (instant a >? instant b) else TypeError.

(** [a >= b] *)
Definition ge (a b : datetime) : result bool :=
  if Bool.eqb (aware a) (aware b) then Ok (instant a >=? instant b) else TypeError.

(** [d - timedelta(days=n)]: the wall clock moves, the offset stays. *)
Definition minus_days (d : datetime) (n : Z) : datetime :=
  mk_datetime (wall d - Analytics.timedelta_days n) (utcoffset d).

(** [max(...)] after its first element: the running maximum gives way
    to an element that is strictly larger, so of several largest values the
    first one is returned. *)
Fixpoint max_from (best : datetime) (l : list datetime) : result datetime :=
  match l with
  | [] => Ok best
  | d :: r =>
      match gt d best with
      | TypeError => TypeError
      | Ok true => max_from d r
      | Ok false => max_from best r
      end
  end.

(** [d.strftime('%Y-%m-%d %H:%M:%S')] prints the wall clock, to the
    second, without the offset. *)
Definition strftime (d : datetime) : Analytics.anchor_text :=
  Analytics.Formatted (wall d / 1000000).

End Clock.

(** ** analytics.py: [find_rising_edges] on the records as parsed *)
Module Dated.
Import Analytics.

(** A record as [find_rising_edges] reads it: what the parser makes of
    [item.get("time")] ([None] when the field is missing, empty or
    rejected) and [item.get("tags", [])]. *)
Record record := mk_record {
  parsed_time : option Clock.datetime;
  record_tags : list tag
}.

(** The record on the time line. *)
Definition as_item (r : record) : item :=
  mk_item (option_map Clock.instant (parsed_time r)) (record_tags r).

(** The record whose time text has no offset. *)
Definition naive (it : item) : record :=
  mk_record (option_map (fun t => Clock.mk_datetime t None) (time it)) (tags it).

Definition items_with_time (records : list record) : list (record * Clock.datetime) :=
  flat_map (fun r => match parsed_time r with
                     | Some d => [(r, d)]
                     | None => []
                     end) records.

(** A record with its time, on the time line. *)
Definition on_time_line (p : record * Clock.datetime) : item * Z :=
  (as_item (fst p), Clock.instant (snd p)).

(** One turn of the loop over [items_with_time]; the comparisons with the
    thresholds are those of [datetime]. *)
Definition window_step (recent_threshold historical_threshold : Clock.datetime)
    (acc : Clock.result windows) (p : record * Clock.datetime)
  : Clock.result windows :=
  match acc with
  | Clock.TypeError => Clock.TypeError
  | Clock.Ok w =>
      let ts := record_tags (fst p) in
      if Py.len ts <? 2 then Clock.Ok w
      else
        let all' := count_pairs (all_edges w) ts in
        match Clock.ge (snd p) recent_threshold with
        | Clock.TypeError => Clock.TypeError
        | Clock.Ok true =>
            Clock.Ok (mk_windows (count_pairs (recent_edges w) ts) (historical_edges w)
                                 (recent_items w ++ [as_item (fst p)])
                                 (historical_items w) all')
        | Clock.Ok false =>
            match Clock.ge (snd p) historical_threshold with
            | Clock.TypeError => Clock.TypeError
            | Clock.Ok true =>
                Clock.Ok (mk_windows (recent_edges w)
                                     (count_pairs (historical_edges w) ts)
                                     (recent_items w)
                                     (historical_items w ++ [as_item (fst p)]) all')
            | Clock.Ok false =>
                Clock.Ok (mk_windows (recent_edges w) (historical_edges w)
                                     (recent_items w) (historical_items w) all')
            end
        end
  end.

Section SetOrder.
Variable set_iter : list edge -> list edge.

(** [find_rising_edges(recent_days, historical_days, top_n)] on
    [self.items]: the edges and [window_stats] it returns, or the
    [TypeError] it raises. *)
Definition find_rising_edges (records : list record)
    (recent_days historical_days top_n : Z)
  : Clock.result (list entry * window_stats) :=
  let items := map as_item records in
  match items_with_time records with
  | [] => Clock.Ok (_fallback_top_edges items top_n None None)
  | p :: l =>
      match Clock.max_from (snd p) (map snd l) with
      | Clock.TypeError => Clock.TypeError
      | Clock.Ok anchor_now =>
          let recent_threshold := Clock.minus_days anchor_now recent_days in
          let historical_threshold :=
            Clock.minus_days anchor_now (recent_days + historical_days) in
          match fold_left (window_step recent_threshold historical_threshold)
                          (p :: l) (Clock.Ok empty_windows) with
          | Clock.TypeError => Clock.TypeError
          | Clock.Ok w =>
              let stats := mk_stats (Clock.strftime anchor_now)
                                    (Py.len (recent_items w))
                                    (Py.len (historical_items w))
                                    (Py.len (p :: l))
                                    (Some (Py.len (recent_edges w)))
                                    (Some (Py.len (historical_edges w)))
                                    Rising in
              if (recent_count stats <? 5) || (historical_count stats <? 5)
              then Clock.Ok (_fallback_top_edges items top_n (Some (all_edges w))
                                                 (Some (set_mode stats Fallback)))
              else
                match rising_edges set_iter (recent_edges w) (historical_edges w) with
                | [] => Clock.Ok (_fallback_top_edges items top_n (Some (all_edges w))
                                                      (Some (set_mode stats Fallback)))
                | r :: rs => Clock.Ok (Py.slice_to top_n (r :: rs), stats)
                end
          end
      end
  end.
End SetOrder.

(** The parsed times can be ordered: all are naive, or all are aware. *)
Definition comparable (records : list record) : bool :=
  match items_with_time records with
  | [] => true
  | p :: l => forallb (fun q => Bool.eqb (Clock.aware (snd q)) (Clock.aware (snd p))) l
  end.

(** The text of the anchor: ["N/A"] without a parsed time. *)
Definition anchor_text_of (records : list record) : anchor_text :=
  match items_with_time records with
  | [] => NotAvailable
  | p :: l =>
      match Clock.max_from (snd p) (map snd l) with
      | Clock.Ok anchor_now => Clock.strftime anchor_now
      | Clock.TypeError => NotAvailable
      end
  end.

(** [window_stats["anchor_now"] = text] *)
Definition set_anchor (s : window_stats) (text : anchor_text) : window_stats :=
  mk_stats text (recent_count s) (historical_count s) (total_count s)
           (recent_edges_count s) (historical_edges_count s) (mode s).

(** A result of the analysis on the time line, with the anchor as the
    records print it. *)
Definition printed (records : list record) (res : list entry * window_stats)
  : list entry * window_stats :=
  (fst res, set_anchor (snd res) (anchor_text_of records)).

End Dated.

(** Two records as parsed that differ in the order of their tags only. *)
Definition reordered_records (r r' : Dated.record) : Prop :=
  Dated.parsed_time r = Dated.parsed_time r'
  /\ Permutation (Dated.record_tags r) (Dated.record_tags r').

(** ** Sample records with their parsed times *)
Module DatedSamples.

(** A naive time next to a time with the offset Z. *)
Definition mixed : list Dated.record :=
  [Dated.mk_record (Some (Clock.mk_datetime 0 None)) ["a"];
   Dated.mk_record (Some (Clock.mk_datetime 0 (Some 0))) ["b"]].

(** 10:00 at +08:00 and 02:00 at +00:00 of the same day: one instant. *)
Definition hour : Z := 3600000000.

Definition east : Dated.record :=
  Dated.mk_record (Some (Clock.mk_datetime (10 * hour) (Some (8 * hour)))) ["a"; "b"].

Definition utc : Dated.record :=
  Dated.mk_record (Some (Clock.mk_datetime (2 * hour) (Some 0))) ["a"; "b"].


(** One recent record lists a twice, next to b; four more recent records
    and five older ones fill the windows. *)
Definition one_record_twice : list Dated.record :=
  map Dated.naive
      ([mk_item (Some (100 * Samples.day)) ["a"; "a"; "b"]]
       ++ repeat (mk_item (Some (100 * Samples.day)) ["p"; "q"]) 4
       ++ repeat (mk_item (Some (90 * Samples.day)) ["x"; "y"]) 5).

Definition steady : list Dated.record := map Dated.naive Samples.steady.
Definition tied : list Dated.record := map Dated.naive Samples.tied.
Definition sparse : list Dated.record := map Dated.naive Samples.sparse.
Definition untimed_pair : list Dated.record := map Dated.naive Samples.untimed_pair.
Definition boundary : list Dated.record := map Dated.naive Samples.boundary.

End DatedSamples.

(** ** builder.py: the queries on the graph *)
Module BuilderQueries.
Import Builder.

(** [data.get("weight", 0)] *)
Definition weight_or_zero (a : option Z) : Z :=
  match a with
  | Some w => w
  | None => 0
  end.

(** [(node, data.get("weight", 0)) for node, data in graph.nodes(data=True)] *)
Definition node_weights (g : graph) : list (tag * Z) :=
  map (fun p => (fst p, weight_or_zero (snd p))) (nodes g).

(** [get_top_nodes(n)]: nothing for a graph without nodes, else the
    nodes sorted by weight, largest first, cut by [[:n]]. *)
Definition get_top_nodes (g : graph) (n : Z) : list (tag * Z) :=
  match nodes g with
  | [] => []
  | _ :: _ => Py.slice_to n (Py.sort Py.by_count_desc (node_weights g))
  end.

End BuilderQueries.

(** Two records that differ in the order of their tags only. *)
Definition reordered_tags (it it' : item) : Prop :=
  time it = time it' /\ Permutation (tags it) (tags it').

(** The same, for records paired with their time. *)
Definition reordered_timed (p p' : item * Z) : Prop :=
  snd p = snd p' /\ reordered_tags (fst p) (fst p').

(** ** app/components/insights.py: the data quality note *)
Module Insights.
Import Analytics.

(** The three warning texts of [get_data_quality_info], with the counts
    they print. *)
Inductive quality_warning :=
| BothWindowsShort (recent historical : Z)
| RecentWindowShort (recent : Z)
| HistoricalWindowShort (historical : Z).

Record quality_info := mk_quality {
  total : Z;
  recent : Z;
  historical : Z;
  anchor : anchor_text;
  quality_mode : run_mode;
  warning : option quality_warning
}.

(** [get_data_quality_info], on the [window_stats] that
    [find_rising_edges] returned (every key it reads is present). *)
Definition get_data_quality_info (window_stats : window_stats) : quality_info :=
  let mode := mode window_stats in
  let total := total_count window_stats in
  let recent := recent_count window_stats in
  let historical := historical_count window_stats in
  let anchor := anchor_now window_stats in
  let warning :=
    match mode with
    | Fallback =>
        if (recent <? 5) && (historical <? 5)
        then Some (BothWindowsShort recent historical)
        else if recent <? 5 then Some (RecentWindowShort recent)
        else if historical <? 5 then Some (HistoricalWindowShort historical)
        else None
    | Rising => None
    end in
  mk_quality total recent historical anchor mode warning.

End Insights.

(** ** analytics.py: the PageRank ranking *)
Module Ranking.

(** [key=lambda x: x[1], reverse=True] on (tag, score) pairs. *)
Definition by_rank_desc (y x : tag * Q) : bool := Analytics.Qlt_bool (snd x) (snd y).

Section PageRank.
(** [nx.pagerank(graph, weight="weight").items()]: the library's scores,
    in the order of its dictionary. *)
Variable pagerank : Builder.graph -> list (tag * Q).

(** [compute_pagerank(top_n)], on [self.graph] ([None] when the analyzer
    was built without a graph). *)
Definition compute_pagerank (graph : option Builder.graph) (top_n : Z)
  : list (tag * Q) :=
  match graph with
  | None => []
  | Some g =>
      match Builder.nodes g with
      | [] => []
      | _ :: _ => Py.slice_to top_n (Py.sort by_rank_desc (pagerank g))
      end
  end.
End PageRank.

End Ranking.

(** ** visualizer.py: the colours of the communities *)
Module Visualizer.

Definition palette : list string :=
  ["#FF6B6B"; "#4ECDC4"; "#45B7D1"; "#FFA07A"; "#98D8C8";
   "#F7DC6F"; "#BB8FCE"; "#F8B739"; "#85C1E2"; "#F1948A"].

(** [while len(palette) < n: palette.extend(palette)], with a bound on
    the number of turns. *)
Fixpoint extend_palette (fuel : nat) (colours : list string) (n : Z) : list string :=
  match fuel with
  | O => colours
  | S fuel' =>
      if Py.len colours <? n then extend_palette fuel' (colours ++ colours) n
      else colours
  end.

(** [_generate_colors(n)]; [n] turns are more than the loop ever takes. *)
Definition _generate_colors (n : Z) : list string :=
  Py.slice_to n (extend_palette (Z.to_nat n) palette n).

End Visualizer.

(** [sum(c.values())] *)
Definition counter_total {K : Type} (c : Py.counter (K:=K)) : Z :=
  fold_right (fun p s => snd p + s) 0 c.

(** ** pipeline/cleaner.py *)
Module Cleaner.

(** [re.sub(r'#', '', tag)] *)
Fixpoint remove_hash (s : string) : string :=
  match s with
  | EmptyString => EmptyString
  | String c r => if Ascii.eqb c "#"%char then remove_hash r
                  else String c (remove_hash r)
  end.

(** [re.sub(pattern, '', s)] for a literal pattern: the occurrences are
    found from left to right and do not overlap; [skip] characters of a
    match are still to be dropped. *)
Fixpoint remove_literal (pattern : string) (skip : nat) (s : string) : string :=
  match s with
  | EmptyString => EmptyString
  | String c r =>
      match skip with
      | S k => remove_literal pattern k r
      | O => if String.prefix pattern s
             then remove_literal pattern (String.length pattern - 1) r
             else String c (remove_literal pattern 0 r)
      end
  end.

(** [re.sub(r'\[话题\]', '', tag)] *)
Definition remove_topic (s : string) : string := remove_literal "[话题]" 0 s.

(** A raw record and a cleaned one.  A field of the raw record holds what
    [item.get(key, default)] returns: the default of the code when the key is
    missing ([""] for the texts, ["xhs"] for the source, [[]] for the tags and
    the images).  A raw tag is [Some s] for a string and [None] for any other
    JSON value; [raw_time] is [None] when the key is missing or null. *)
Record raw_item := mk_raw {
  raw_item_id : string;
  raw_source : string;
  raw_url : option string;
  raw_time : option string;
  raw_title : string;
  raw_desc : string;
  raw_text : string;
  raw_tags : list (option string);
  raw_images : list string
}.

Record clean_item := mk_clean {
  item_id : string;
  source : string;
  url : option string;
  time_text : option string;
  title : string;
  desc : string;
  text : string;
  clean_tags : list string;
  images : list string
}.

Inductive outcome :=
| Passed (c : clean_item)
| Dropped (reason : string).

(** [self.stats["tag_stats"]] *)
Record tag_stats := mk_tag_stats {
  before_clean : Z;
  after_clean : Z;
  duplicates_removed : Z
}.

(** [self.stats] after [clean()] *)
Record stats := mk_stats {
  raw_count : Z;
  clean_count : Z;
  dropped_count : Z;
  drop_reasons : Py.counter (K:=string);
  tags_seen : tag_stats
}.

Section Strings.
(** Three methods of [str] that work on Unicode text: [s.strip()],
    [s.lower()] and [len(s)] in characters. *)
Variable strip : string -> string.
Variable lower : string -> string.
Variable char_len : string -> Z.

(** [x in seen] *)
Definition in_set (x : string) (seen : list string) : bool :=
  existsb (String.eqb x) seen.

(** What the loop of [_clean_tags] does to a string tag that is not
    empty, before the filters. *)
Definition normalise (tag : string) : string :=
  strip (remove_topic (remove_hash tag)).

(** One turn of the loop of [_clean_tags], on [(cleaned, seen)]. *)
Definition clean_tag (acc : list string * list string) (raw : option string)
  : list string * list string :=
  match raw with
  | None => acc
  | Some tag0 =>
      if String.eqb tag0 "" then acc
      else
        let tag := normalise tag0 in
        if String.eqb tag "" then acc
        else if char_len tag >? 20 then acc
        else if in_set (lower tag) (snd acc) then acc
        else (fst acc ++ [tag], lower tag :: snd acc)
  end.

(** A tag that passes the filters of the loop: the normal form of a
    string of the input that is not empty, itself not empty and of at most
    20 characters. *)
Definition kept (tags : list (option string)) (t : string) : Prop :=
  t <> "" /\ char_len t <= 20 /\
  exists raw, In (Some raw) tags /\ raw <> "" /\ t = normalise raw.

Definition _clean_tags (tags : list (option string)) : list string :=
  match tags with
  | [] => []
  | _ :: _ => fst (fold_left clean_tag tags ([], []))
  end.

(** [_clean_item], with the tag statistics it updates. *)
Definition _clean_item (ts : tag_stats) (item : raw_item) : outcome * tag_stats :=
  if String.eqb (strip (raw_title item)) "" then (Dropped "missing_title", ts)
  else
    match raw_time item with
    | None => (Dropped "missing_time", ts)
    | Some t =>
        if String.eqb t "" then (Dropped "missing_time", ts)
        else
          let desc := strip (raw_desc item) in
          if char_len desc <? 10 then (Dropped "desc_too_short", ts)
          else
            let tags := _clean_tags (raw_tags item) in
            let ts' :=
              mk_tag_stats
                (before_clean ts + Py.len (raw_tags item))
                (after_clean ts + Py.len tags)
                (duplicates_removed ts + (Py.len (raw_tags item) - Py.len tags)) in
            (Passed (mk_clean (raw_item_id item) (raw_source item) (raw_url item)
                              (raw_time item) (strip (raw_title item)) desc
                              (strip (raw_text item)) tags (raw_images item)),
             ts')
    end.

(** The three checks of [_clean_item] taken together, and the record it
    builds when they pass. *)
Definition passes (item : raw_item) : bool :=
  negb (String.eqb (strip (raw_title item)) "")
  && match raw_time item with
     | Some t => negb (String.eqb t "")
     | None => false
     end
  && negb (char_len (strip (raw_desc item)) <? 10).

Definition cleaned (item : raw_item) : clean_item :=
  mk_clean (raw_item_id item) (raw_source item) (raw_url item) (raw_time item)
           (strip (raw_title item)) (strip (raw_desc item)) (strip (raw_text item))
           (_clean_tags (raw_tags item)) (raw_images item).

(** One turn of the loop of [clean], on the cleaned records and the
    statistics. *)
Definition clean_step (acc : list clean_item * stats) (item : raw_item)
  : list clean_item * stats :=
  let st := snd acc in
  match _clean_item (tags_seen st) item with
  | (Passed c, ts) =>
      (fst acc ++ [c],
       mk_stats (raw_count st) (clean_count st) (dropped_count st)
                (drop_reasons st) ts)
  | (Dropped reason, ts) =>
      (fst acc,
       mk_stats (raw_count st) (clean_count st) (dropped_count st + 1)
                (Py.incr String.eqb (drop_reasons st) reason) ts)
  end.

(** [clean()] on the raw records that [_load_raw_data] read: the records
    it saves and the statistics of its report. *)
Definition clean (raw_items : list raw_item) : list clean_item * stats :=
  let start := mk_stats (Py.len raw_items) 0 0 [] (mk_tag_stats 0 0 0) in
  let done := fold_left clean_step raw_items ([], start) in
  (fst done,
   mk_stats (raw_count (snd done)) (Py.len (fst done)) (dropped_count (snd done))
            (drop_reasons (snd done)) (tags_seen (snd done))).

(** The record that the graph code reads from a cleaned record;
    [parse_time] is what [find_rising_edges] makes of a time text. *)
Definition as_record (parse_time : string -> option Z) (c : clean_item) : item :=
  mk_item (match time_text c with
           | Some t => parse_time t
           | None => None
           end)
          (clean_tags c).
End Strings.

End Cleaner.

(** ** app/components/insights.py: the creation suggestions *)
Module Suggestions.

(** [{"type": ..., "suggestion": ...}] *)
Record suggestion := mk_suggestion {
  kind : string;
  suggestion_text : string
}.

(** The two topic suggestions: from the first two rising edges when there
    are two, else from the first two PageRank tags when there are three,
    else none. *)
Definition topic_suggestions (pagerank_top : list (tag * Q))
    (rising_edges : list Analytics.entry) : list suggestion :=
  match rising_edges with
  | (tag1_a, tag1_b, _, _) :: (tag2_a, tag2_b, _, _) :: _ =>
      [mk_suggestion "选题" ("结合「" ++ tag1_a ++ "」和「" ++ tag1_b ++ "」的对比测评");
       mk_suggestion "选题" ("围绕「" ++ tag2_a ++ "」和「" ++ tag2_b ++ "」的组合教程")]
  | _ =>
      match pagerank_top with
      | (tag1, _) :: (tag2, _) :: _ :: _ =>
          [mk_suggestion "选题" ("聚焦「" ++ tag1 ++ "」的深度解析");
           mk_suggestion "选题" ("「" ++ tag1 ++ "」与「" ++ tag2 ++ "」的对比分析")]
      | _ => []
      end
  end.

Definition structure_suggestions : list suggestion :=
  [mk_suggestion "结构" "清单型：N个工具推荐 + 简短点评 + 适用场景";
   mk_suggestion "结构" "对比型：横向评测 + 优缺点表格 + 选择建议"].

(** The tag suggestion: the first PageRank tag and the three after it
    when there are five, else the keyword. *)
Definition tag_suggestion (keyword : string) (pagerank_top : list (tag * Q))
  : suggestion :=
  match pagerank_top with
  | (main_tag, _) :: (aux0, _) :: (aux1, _) :: (aux2, _) :: _ :: _ =>
      mk_suggestion "标签" ("主标签「" ++ main_tag ++ "」+ 辅助标签「" ++ aux0 ++ "、"
                            ++ aux1 ++ "、" ++ aux2 ++ "」")
  | _ => mk_suggestion "标签" ("主标签「" ++ keyword ++ "」+ 相关热门标签")
  end.

Definition title_suggestion (pagerank_top : list (tag * Q)) : suggestion :=
  match pagerank_top with
  | (top_tag, _) :: _ =>
      mk_suggestion "标题" ("标题公式：N个" ++ top_tag ++ " + 实测/避坑/必备 + 收藏")
  | [] => mk_suggestion "标题" "标题公式：数字 + 关键词 + 行动词 + 情感词"
  end.

(** [generate_creation_suggestions] *)
Definition generate_creation_suggestions (keyword : string)
    (pagerank_top : list (tag * Q)) (rising_edges : list Analytics.entry)
  : list suggestion :=
  topic_suggestions pagerank_top rising_edges
  ++ structure_suggestions
  ++ [tag_suggestion keyword pagerank_top]
  ++ [title_suggestion pagerank_top].

End Suggestions.

(** * Proofs *)
(** ** Facts about the Python primitives *)
Module PyFacts.
Import Py.

Lemma str_ltb_lt a b : str_ltb a b = true <-> String_as_OT.lt a b.
Proof.
  unfold str_ltb, String_as_OT.lt.
  destruct (String_as_OT.compare a b); split; congruence.
Qed.

Lemma str_ltb_irrefl a : str_ltb a a = false.
Proof.
  destruct (str_ltb a a) eqn:E; [|reflexivity].
  apply str_ltb_lt in E. exfalso. exact (irreflexivity E).
Qed.

Lemma str_ltb_asym a b : str_ltb a b = true -> str_ltb b a = false.
Proof.
  intros H. destruct (str_ltb b a) eqn:E; [|reflexivity].
  apply str_ltb_lt in H, E. exfalso.
  exact (irreflexivity (transitivity H E)).
Qed.

Lemma str_ltb_total a b : a <> b -> str_ltb a b = true \/ str_ltb b a = true.
Proof.
  intros Hne.
  destruct (String_as_OT.compare_spec a b) as [E|L|L].
  - contradiction.
  - left. now apply str_ltb_lt.
  - right. now apply str_ltb_lt.
Qed.

Lemma str_geb_trans a b c :
  str_ltb b a = false -> str_ltb c b = false -> str_ltb c a = false.
Proof.
  intros Hab Hbc.
  destruct (str_ltb c a) eqn:E; [|reflexivity].
  destruct (String.string_dec a b) as [->|Nab]; [congruence|].
  destruct (str_ltb_total Nab) as [L|L]; [|congruence].
  apply str_ltb_lt in E, L.
  assert (Hcb : str_ltb c b = true) by (apply str_ltb_lt; exact (transitivity E L)).
  congruence.
Qed.

Lemma edge_eqb_eq e1 e2 : edge_eqb e1 e2 = true <-> e1 = e2.
Proof.
  destruct e1 as [a b], e2 as [c d]. unfold edge_eqb. simpl.
  rewrite andb_true_iff, !String.eqb_eq. split.
  - intros [-> ->]. reflexivity.
  - intros E. inversion E. auto.
Qed.

Lemma edge_eqb_refl e : edge_eqb e e = true.
Proof. now apply edge_eqb_eq. Qed.

Section SortFacts.
Context {A : Type}.
Variable before : A -> A -> bool.

Lemma insert_perm x l : Permutation (insert before x l) (x :: l).
Proof.
  induction l as [|y t IH]; simpl.
  - apply Permutation_refl.
  - destruct (before y x).
    + eapply perm_trans; [apply perm_skip, IH | apply perm_swap].
    + apply Permutation_refl.
Qed.

Lemma sort_perm l : Permutation (sort before l) l.
Proof.
  induction l as [|x t IH]; simpl.
  - constructor.
  - eapply perm_trans; [apply insert_perm | apply perm_skip, IH].
Qed.

Lemma sort_In l x : In x (sort before l) <-> In x l.
Proof.
  split; apply Permutation_in;
    [apply sort_perm | apply Permutation_sym, sort_perm].
Qed.

Lemma sort_NoDup l : NoDup l -> NoDup (sort before l).
Proof.
  intros H. eapply Permutation_NoDup; [apply Permutation_sym, sort_perm | exact H].
Qed.

Lemma sort_length l : List.length (sort before l) = List.length l.
Proof. apply Permutation_length, sort_perm. Qed.

Hypothesis before_asym : forall a b, before a b = true -> before b a = false.
Hypothesis ordered_trans :
  forall a b c, ordered before a b -> ordered before b c -> ordered before a c.

Lemma insert_sorted x l :
  StronglySorted (ordered before) l -> StronglySorted (ordered before) (insert before x l).
Proof.
  induction 1 as [|y t Hs IH Hall]; simpl.
  - repeat constructor.
  - destruct (before y x) eqn:E.
    + constructor; [exact IH|].
      apply Forall_forall. intros z Hz.
      apply (Permutation_in _ (insert_perm x t)) in Hz.
      destruct Hz as [<-|Hz].
      * apply before_asym, E.
      * rewrite Forall_forall in Hall. now apply Hall.
    + constructor; [constructor; assumption|].
      constructor; [exact E|].
      apply Forall_forall. intros z Hz.
      rewrite Forall_forall in Hall.
      apply ordered_trans with y; [exact E | now apply Hall].
Qed.

Lemma sort_sorted l : StronglySorted (ordered before) (sort before l).
Proof.
  induction l as [|x t IH]; simpl; [constructor | now apply insert_sorted].
Qed.
End SortFacts.

Lemma sorted_strings l : StronglySorted (fun a b => str_ltb b a = false) (sorted l).
Proof.
  apply (sort_sorted (before:=str_ltb)).
  - apply str_ltb_asym.
  - intros a b c. unfold ordered. apply str_geb_trans.
Qed.

Section CombinationFacts.
Context {A : Type}.

Lemma combinations2_In (l : list A) a b :
  In (a, b) (combinations2 l) -> In a l /\ In b l.
Proof.
  induction l as [|x t IH]; simpl; [tauto|].
  rewrite in_app_iff, in_map_iff.
  intros [[y [E Hy]]|H].
  - inversion E; subst. auto.
  - destruct (IH H). auto.
Qed.

Lemma combinations2_sorted (R : A -> A -> Prop) (l : list A) a b :
  StronglySorted R l -> In (a, b) (combinations2 l) -> R a b.
Proof.
  induction 1 as [|x t Hs IH Hall]; simpl; [tauto|].
  rewrite in_app_iff, in_map_iff.
  intros [[y [E Hy]]|H].
  - inversion E; subst. rewrite Forall_forall in Hall. now apply Hall.
  - now apply IH.
Qed.

Lemma combinations2_NoDup (l : list A) : NoDup l -> NoDup (combinations2 l).
Proof.
  induction 1 as [|x t Hx Hnd IH]; simpl; [constructor|].
  apply NoDup_app.
  - apply Finite.Injective_map_NoDup; [|exact Hnd].
    intros u v E. now inversion E.
  - exact IH.
  - intros [u v] H1 H2.
    apply in_map_iff in H1. destruct H1 as [y [E _]]. inversion E; subst.
    apply combinations2_In in H2. tauto.
Qed.

Lemma combinations2_distinct (l : list A) a b :
  NoDup l -> In (a, b) (combinations2 l) -> a <> b.
Proof.
  induction 1 as [|x t Hx Hnd IH]; simpl; [tauto|].
  rewrite in_app_iff, in_map_iff.
  intros [[y [E Hy]]|H].
  - inversion E; subst. intros ->. contradiction.
  - now apply IH.
Qed.

Lemma combinations2_complete (l : list A) a b :
  In a l -> In b l -> a <> b ->
  In (a, b) (combinations2 l) \/ In (b, a) (combinations2 l).
Proof.
  induction l as [|x t IH]; simpl; [tauto|].
  intros Ha Hb Hne. rewrite !in_app_iff, !in_map_iff.
  destruct Ha as [->|Ha], Hb as [->|Hb].
  - contradiction.
  - left. left. eauto.
  - right. left. eauto.
  - destruct (IH Ha Hb Hne); tauto.
Qed.
End CombinationFacts.

Section CounterFacts.
Context {K : Type}.
Variable keq : K -> K -> bool.
Hypothesis keq_eq : forall a b, keq a b = true <-> a = b.

Lemma keq_refl a : keq a a = true.
Proof. now apply keq_eq. Qed.

(** How often [k] occurs in [ks]. *)
Lemma get_incr c k k' :
  get keq (incr keq c k) k' = get keq c k' + (if keq k' k then 1 else 0).
Proof.
  induction c as [|[k0 n] t IH]; simpl.
  - destruct (keq k' k); lia.
  - destruct (keq k k0) eqn:E; simpl.
    + apply keq_eq in E. subst k0.
      destruct (keq k' k); lia.
    + destruct (keq k' k0) eqn:E'; [|exact IH].
      destruct (keq k' k) eqn:E''; [|lia].
      apply keq_eq in E', E''. subst. rewrite keq_refl in E. discriminate.
Qed.

Lemma get_incr_all ks c k :
  get keq (incr_all keq c ks) k = get keq c k + occurrences keq k ks.
Proof.
  unfold incr_all, occurrences, len. revert c.
  induction ks as [|x t IH]; intros c; simpl; [lia|].
  rewrite IH, get_incr. destruct (keq k x); simpl; lia.
Qed.

Lemma keys_incr c k :
  keys (incr keq c k) = if existsb (keq k) (keys c) then keys c else keys c ++ [k].
Proof.
  unfold keys. induction c as [|[k0 n] t IH]; simpl; [reflexivity|].
  destruct (keq k k0) eqn:E; simpl; [reflexivity|].
  rewrite IH. now destruct (existsb (keq k) (map fst t)).
Qed.

Lemma existsb_keq k l : existsb (keq k) l = true <-> In k l.
Proof.
  rewrite existsb_exists. split.
  - intros [x [Hx E]]. apply keq_eq in E. now subst.
  - intros H. exists k. split; [exact H | apply keq_refl].
Qed.

Lemma In_keys_incr c k k' :
  In k' (keys (incr keq c k)) <-> k' = k \/ In k' (keys c).
Proof.
  rewrite keys_incr. destruct (existsb (keq k) (keys c)) eqn:E.
  - apply existsb_keq in E. split; [tauto|]. intros [->|H]; assumption.
  - rewrite in_app_iff. simpl. intuition.
Qed.

Lemma NoDup_keys_incr c k : NoDup (keys c) -> NoDup (keys (incr keq c k)).
Proof.
  intros H. rewrite keys_incr. destruct (existsb (keq k) (keys c)) eqn:E; [exact H|].
  apply NoDup_app; [exact H | repeat constructor; simpl; tauto |].
  intros x Hx [<-|[]].
  apply existsb_keq in Hx. congruence.
Qed.

Lemma In_keys_incr_all ks c k :
  In k (keys (incr_all keq c ks)) <-> In k ks \/ In k (keys c).
Proof.
  unfold incr_all. revert c. induction ks as [|x t IH]; intros c; simpl; [tauto|].
  rewrite IH, In_keys_incr. intuition.
Qed.

Lemma NoDup_keys_incr_all ks c : NoDup (keys c) -> NoDup (keys (incr_all keq c ks)).
Proof.
  unfold incr_all. revert c. induction ks as [|x t IH]; intros c H; simpl; [exact H|].
  apply IH, NoDup_keys_incr, H.
Qed.

Lemma incr_all_app c l1 l2 :
  incr_all keq c (l1 ++ l2) = incr_all keq (incr_all keq c l1) l2.
Proof. unfold incr_all. apply fold_left_app. Qed.

Lemma get_In_keys c k n : NoDup (keys c) -> In (k, n) c -> get keq c k = n.
Proof.
  unfold keys. induction c as [|[k0 m] t IH]; simpl; [tauto|].
  intros Hnd [E|H].
  - inversion E; subst. now rewrite keq_refl.
  - inversion Hnd; subst.
    destruct (keq k k0) eqn:E.
    + apply keq_eq in E. subst. exfalso. apply H2.
      change k0 with (fst (k0, n)). now apply in_map.
    + now apply IH.
Qed.
End CounterFacts.

End PyFacts.

(** ** Pair counting, shared by the builder and the analysis *)
Module PairFacts.
Import Py PyFacts.

Lemma filter_none {A : Type} (f : A -> bool) (l : list A) :
  (forall x, In x l -> f x = false) -> filter f l = [].
Proof.
  induction l as [|x t IH]; intros H; simpl; [reflexivity|].
  rewrite (H x) by (now left). apply IH. intros y Hy. apply H. now right.
Qed.

Lemma occurrences_once {K : Type} (keq : K -> K -> bool) (l : list K) k :
  (forall a b, keq a b = true <-> a = b) ->
  NoDup l -> In k l -> occurrences keq k l = 1.
Proof.
  intros Hk. unfold occurrences, len.
  induction 1 as [|x t Hx Hnd IH]; simpl; [tauto|].
  intros [->|Hin].
  - replace (keq k k) with true by (symmetry; now apply Hk). simpl.
    rewrite filter_none; [reflexivity|]. intros y Hy.
    destruct (keq k y) eqn:E; [|reflexivity].
    apply Hk in E. subst. contradiction.
  - destruct (keq k x) eqn:E.
    + apply Hk in E. subst. contradiction.
    + now apply IH.
Qed.

Lemma occurrences_none {K : Type} (keq : K -> K -> bool) (l : list K) k :
  (forall a b, keq a b = true <-> a = b) ->
  ~ In k l -> occurrences keq k l = 0.
Proof.
  intros Hk Hn. unfold occurrences, len.
  rewrite filter_none; [reflexivity|]. intros y Hy.
  destruct (keq k y) eqn:E; [|reflexivity].
  apply Hk in E. subst. contradiction.
Qed.

Lemma occurrences_app {K : Type} (keq : K -> K -> bool) (l1 l2 : list K) k :
  occurrences keq k (l1 ++ l2) = occurrences keq k l1 + occurrences keq k l2.
Proof. unfold occurrences, len. rewrite filter_app, length_app. lia. Qed.

Lemma has_tag_In t it : has_tag t it = true <-> In t (tags it).
Proof. unfold has_tag. apply existsb_keq, String.eqb_eq. Qed.

Lemma two_distinct_members {A : Type} (l : list A) a b :
  In a l -> In b l -> a <> b -> 2 <= len l.
Proof.
  unfold len. destruct l as [|x [|y t]]; simpl; try tauto; try lia.
  intros [->|[]] [->|[]]. congruence.
Qed.

Lemma edge_key_ordered a b : str_ltb (snd (edge_key a b)) (fst (edge_key a b)) = false.
Proof.
  unfold edge_key. destruct (str_ltb b a) eqn:E; simpl; [|exact E].
  now apply str_ltb_asym.
Qed.

Lemma edge_key_sym a b : edge_key a b = edge_key b a.
Proof.
  unfold edge_key.
  destruct (str_ltb b a) eqn:E1, (str_ltb a b) eqn:E2; try reflexivity.
  - apply str_ltb_asym in E1. congruence.
  - destruct (String.string_dec a b) as [->|N]; [reflexivity|].
    destruct (str_ltb_total N); congruence.
Qed.

(** In the pairs of a record the smaller tag comes first. *)
Lemma tag_pairs_ordered ts a b : In (a, b) (tag_pairs ts) -> str_ltb b a = false.
Proof.
  intros H.
  apply (@combinations2_sorted _ (fun x y => str_ltb y x = false) (sorted ts));
    [apply sorted_strings | exact H].
Qed.

Lemma tag_pairs_members ts a b : In (a, b) (tag_pairs ts) -> In a ts /\ In b ts.
Proof.
  intros H. apply combinations2_In in H. unfold sorted in H.
  now rewrite !sort_In in H.
Qed.

(** A record without repeated tags yields each unordered pair of its tags
    once, and nothing else. *)
Lemma tag_pairs_key_iff ts a b :
  a <> b -> (In (edge_key a b) (tag_pairs ts) <-> In a ts /\ In b ts).
Proof.
  intros Hne. split.
  - unfold edge_key. destruct (str_ltb b a); intros H;
      apply tag_pairs_members in H; tauto.
  - intros [Ha Hb].
    assert (Hs : forall x y, x <> y -> In x ts -> In y ts -> str_ltb y x = false ->
                             In (x, y) (tag_pairs ts)).
    { intros x y N Hx Hy L.
      destruct (@combinations2_complete _ (sorted ts) x y) as [H|H]; auto.
      - unfold sorted. now rewrite sort_In.
      - unfold sorted. now rewrite sort_In.
      - apply tag_pairs_ordered in H.
        destruct (str_ltb_total N); congruence. }
    unfold edge_key. destruct (str_ltb b a) eqn:E.
    + apply Hs; auto. now apply str_ltb_asym.
    + apply Hs; auto.
Qed.

Lemma tag_pairs_NoDup ts : NoDup ts -> NoDup (tag_pairs ts).
Proof. intros H. apply combinations2_NoDup, sort_NoDup, H. Qed.

Lemma tag_pairs_distinct ts a b : NoDup ts -> In (a, b) (tag_pairs ts) -> a <> b.
Proof. intros H. apply combinations2_distinct, sort_NoDup, H. Qed.

Lemma paired_tags_once it a b :
  unique_tags it -> a <> b ->
  occurrences edge_eqb (edge_key a b) (paired_tags it)
  = if has_tag a it && has_tag b it then 1 else 0.
Proof.
  intros Hu Hne. unfold paired_tags.
  destruct (has_tag a it && has_tag b it) eqn:E.
  - apply andb_true_iff in E. destruct E as [Ha Hb].
    apply has_tag_In in Ha, Hb.
    pose proof (two_distinct_members _ Ha Hb Hne) as H2.
    replace (len (tags it) <? 2) with false by (symmetry; apply Z.ltb_ge; lia).
    apply occurrences_once.
    + apply edge_eqb_eq.
    + now apply tag_pairs_NoDup.
    + apply tag_pairs_key_iff; auto.
  - apply occurrences_none; [apply edge_eqb_eq|].
    destruct (len (tags it) <? 2); [simpl; tauto|].
    rewrite tag_pairs_key_iff by assumption.
    rewrite <- !has_tag_In. intros [Ha Hb]. rewrite Ha, Hb in E. discriminate.
Qed.

(** Over records without repeated tags, the pair is counted once per
    record that carries both tags. *)
Lemma paired_tags_co_records its a b :
  Forall unique_tags its -> a <> b ->
  occurrences edge_eqb (edge_key a b) (flat_map paired_tags its) = co_records its a b.
Proof.
  intros Hall Hne. induction Hall as [|it t Hu _ IH]; [reflexivity|].
  simpl flat_map. rewrite occurrences_app, IH, paired_tags_once by assumption.
  unfold co_records, len. simpl filter.
  destruct (has_tag a it && has_tag b it); [|lia].
  change (List.length (it :: ?l)) with (S (List.length l)). lia.
Qed.

(** [count_pairs] adds the pairs of the record whether or not it is short;
    the callers guard it. *)
Lemma count_pairs_guarded c it :
  (if len (tags it) <? 2 then c else count_pairs c (tags it))
  = incr_all edge_eqb c (paired_tags it).
Proof. unfold paired_tags, count_pairs. now destruct (len (tags it) <? 2). Qed.

Lemma pair_weight_counted its a b :
  Forall unique_tags its -> a <> b ->
  pair_weight (incr_all edge_eqb [] (flat_map paired_tags its)) a b = co_records its a b.
Proof.
  intros Hall Hne. unfold pair_weight.
  rewrite (get_incr_all edge_eqb edge_eqb_eq). simpl.
  now apply paired_tags_co_records.
Qed.

End PairFacts.

(** ** The graph builder *)
Module BuilderFacts.
Import Py PyFacts PairFacts Builder.

Lemma builder_guard (ts : list tag) : (len ts =? 0) || (len ts <? 2) = (len ts <? 2).
Proof.
  destruct (len ts =? 0) eqn:E; [|reflexivity].
  apply Z.eqb_eq in E. simpl. symmetry. apply Z.ltb_lt. lia.
Qed.

Lemma count_items_from acc items :
  fold_left count_item items acc
  = (incr_all edge_eqb (fst acc) (flat_map paired_tags items),
     incr_all String.eqb (snd acc) (flat_map counted_tags items)).
Proof.
  revert acc. induction items as [|it t IH]; intros [ec nc]; [reflexivity|].
  simpl fold_left. rewrite IH. simpl flat_map. rewrite !incr_all_app.
  unfold count_item, paired_tags, counted_tags, count_pairs.
  rewrite builder_guard. now destruct (len (tags it) <? 2).
Qed.

Lemma edge_weights_counted items :
  edge_weights items = incr_all edge_eqb [] (flat_map paired_tags items).
Proof. unfold edge_weights, count_items. now rewrite count_items_from. Qed.

Lemma node_occurrences_counted items :
  node_occurrences items = incr_all String.eqb [] (flat_map counted_tags items).
Proof. unfold node_occurrences, count_items. now rewrite count_items_from. Qed.

Lemma In_paired_tags items e :
  In e (flat_map paired_tags items) <->
  exists it, In it items /\ 2 <= len (tags it) /\ In e (tag_pairs (tags it)).
Proof.
  rewrite in_flat_map. unfold paired_tags. split; intros [it [Hit H]]; exists it.
  - destruct (len (tags it) <? 2) eqn:E; [destruct H|].
    apply Z.ltb_ge in E. auto.
  - destruct H as [H2 H]. split; [exact Hit|].
    replace (len (tags it) <? 2) with false by (symmetry; apply Z.ltb_ge; lia).
    exact H.
Qed.

Lemma In_counted_tags items t :
  In t (flat_map counted_tags items) <->
  exists it, In it items /\ 2 <= len (tags it) /\ In t (tags it).
Proof.
  rewrite in_flat_map. unfold counted_tags. split; intros [it [Hit H]]; exists it.
  - destruct (len (tags it) <? 2) eqn:E; [destruct H|].
    apply Z.ltb_ge in E. auto.
  - destruct H as [H2 H]. split; [exact Hit|].
    replace (len (tags it) <? 2) with false by (symmetry; apply Z.ltb_ge; lia).
    exact H.
Qed.

(** *** Nodes *)

Lemma set_node_fresh ns t a :
  ~ In t (map fst ns) -> set_node ns t a = ns ++ [(t, a)].
Proof.
  induction ns as [|[t' a'] r IH]; simpl; [reflexivity|].
  intros H. destruct (String.eqb t t') eqn:E.
  - apply String.eqb_eq in E. subst. tauto.
  - rewrite IH by tauto. reflexivity.
Qed.

Lemma add_nodes_fresh (c : list (tag * Z)) ns es :
  NoDup (map fst ns ++ keys c) ->
  fold_left (fun g p => add_node g (fst p) (snd p)) c (mk_graph ns es)
  = mk_graph (ns ++ map as_node c) es.
Proof.
  revert ns. induction c as [|[t n] r IH]; intros ns Hnd; simpl.
  - now rewrite app_nil_r.
  - unfold add_node at 2. simpl.
    unfold keys in Hnd. simpl in Hnd.
    rewrite set_node_fresh.
    + rewrite IH.
      * now rewrite <- app_assoc.
      * rewrite map_app. simpl. rewrite <- app_assoc. exact Hnd.
    + apply NoDup_remove_2 in Hnd. rewrite in_app_iff in Hnd. tauto.
Qed.

Lemma touch_node_present ns t : In t (map fst ns) -> touch_node ns t = ns.
Proof.
  intros H. unfold touch_node.
  replace (existsb (fun p => String.eqb t (fst p)) ns) with true; [reflexivity|].
  symmetry. apply existsb_exists.
  apply in_map_iff in H. destruct H as [p [E Hp]].
  exists p. split; [exact Hp|]. subst. apply String.eqb_refl.
Qed.

(** *** Edges *)

Lemma same_edge_sym e1 e2 : same_edge e1 e2 = same_edge e2 e1.
Proof.
  destruct e1 as [a b], e2 as [c d]. unfold same_edge, edge_eqb. simpl.
  rewrite (String.eqb_sym a c), (String.eqb_sym b d),
          (String.eqb_sym a d), (String.eqb_sym b c).
  now rewrite (andb_comm (String.eqb d a) (String.eqb c b)).
Qed.

(** Two distinct keys that have their smaller tag first never name the same
    undirected edge. *)
Lemma ordered_keys_differ e1 e2 :
  str_ltb (snd e1) (fst e1) = false -> str_ltb (snd e2) (fst e2) = false ->
  e1 <> e2 -> same_edge e1 e2 = false.
Proof.
  destruct e1 as [a b], e2 as [c d]. simpl. intros H1 H2 Hne.
  unfold same_edge. apply orb_false_iff. split.
  { destruct (edge_eqb (a, b) (c, d)) eqn:E; [|reflexivity].
    apply edge_eqb_eq in E. contradiction. }
  simpl fst. simpl snd.
  match goal with |- ?x = false => destruct x eqn:E' end; [|reflexivity].
  apply edge_eqb_eq in E'. inversion E'; subst.
  destruct (String.string_dec d c) as [->|N]; [contradiction|].
  destruct (str_ltb_total N); congruence.
Qed.

Lemma set_edge_fresh es e w :
  (forall p, In p es -> same_edge e (fst p) = false) ->
  set_edge es e w = es ++ [(e, w)].
Proof.
  induction es as [|[e' w'] r IH]; simpl; intros H; [reflexivity|].
  pose proof (H (e', w') (or_introl eq_refl)) as H0. simpl in H0.
  rewrite H0, IH; [reflexivity|].
  intros p Hp. apply H. now right.
Qed.

Lemma In_set_edge es e w p :
  In p (set_edge es e w) ->
  (fst p = e \/ In (fst p) (map fst es)).
Proof.
  induction es as [|[e' w'] r IH]; simpl.
  - intros [<-|[]]. now left.
  - destruct (same_edge e e').
    + intros [<-|H]; simpl; [tauto|]. right. right. now apply in_map.
    + intros [<-|H]; simpl; [tauto|]. apply IH in H. tauto.
Qed.

Lemma set_edge_keeps_apart es e w :
  ForallOrdPairs (fun p q => same_edge (fst p) (fst q) = false) es ->
  ForallOrdPairs (fun p q => same_edge (fst p) (fst q) = false) (set_edge es e w).
Proof.
  induction 1 as [|[e' w'] r Hall Hr IH]; simpl.
  - constructor; constructor.
  - destruct (same_edge e e') eqn:E.
    + constructor; [|exact Hr]. exact Hall.
    + constructor; [|exact IH].
      apply Forall_forall. intros q Hq. rewrite Forall_forall in Hall.
      destruct (In_set_edge _ _ _ _ Hq) as [Eq|Hin].
      * simpl. rewrite Eq, same_edge_sym. exact E.
      * clear IH Hr. revert Hq.
        induction r as [|[e2 w2] r2 IHr]; simpl.
        -- intros [<-|[]]. simpl. rewrite same_edge_sym. exact E.
        -- destruct (same_edge e e2).
           ++ intros [<-|Hq]; [apply (Hall (e2, w2)); now left | apply Hall; now right].
           ++ intros [<-|Hq]; [apply (Hall (e2, w2)); now left|].
              destruct (In_set_edge _ _ _ _ Hq) as [Eq|Hin2].
              ** simpl. rewrite Eq, same_edge_sym. exact E.
              ** apply IHr; auto. intros x Hx. apply Hall. now right.
Qed.

Lemma add_edges_keep_apart (l : list (edge * Z)) g :
  no_parallel_edges g ->
  no_parallel_edges
    (fold_left (fun g p => add_edge g (fst (fst p)) (snd (fst p)) (snd p)) l g).
Proof.
  revert g. induction l as [|p r IH]; intros g H; simpl; [exact H|].
  apply IH. unfold no_parallel_edges, add_edge. simpl.
  now apply set_edge_keeps_apart.
Qed.

Lemma add_edges_fresh (l : list (edge * Z)) ns es :
  (forall e, In e (keys l) -> In (fst e) (map fst ns) /\ In (snd e) (map fst ns)) ->
  ForallOrdPairs (fun p q => same_edge (fst p) (fst q) = false) (es ++ l) ->
  fold_left (fun g p => add_edge g (fst (fst p)) (snd (fst p)) (snd p)) l
            (mk_graph ns es)
  = mk_graph ns (es ++ l).
Proof.
  revert es. induction l as [|[[u v] w] r IH]; intros es Hn Hp; simpl.
  - now rewrite app_nil_r.
  - unfold add_edge at 2. simpl.
    destruct (Hn (u, v)) as [Hu Hv]; [now left|]. simpl in Hu, Hv.
    rewrite (touch_node_present _ _ Hu), (touch_node_present _ _ Hv).
    rewrite set_edge_fresh.
    + rewrite IH.
      * now rewrite <- app_assoc.
      * intros e He. apply Hn. now right.
      * now rewrite <- app_assoc.
    + intros p Hp'. rewrite same_edge_sym.
      clear IH Hn. induction es as [|q es' IHes]; [destruct Hp'|].
      simpl in Hp. inversion Hp as [|? ? Hq Hrest]; subst.
      destruct Hp' as [->|Hp'].
      * rewrite Forall_forall in Hq. apply (Hq ((u, v), w)).
        apply in_or_app. right. now left.
      * now apply IHes.
Qed.


Lemma ordered_keys_apart (l : list (edge * Z)) :
  NoDup (keys l) ->
  (forall e, In e (keys l) -> str_ltb (snd e) (fst e) = false) ->
  ForallOrdPairs (fun p q => same_edge (fst p) (fst q) = false) l.
Proof.
  unfold keys. induction l as [|p r IH]; simpl; intros Hnd Ho; [constructor|].
  inversion Hnd as [|? ? Hp Hr]; subst.
  constructor.
  - apply Forall_forall. intros q Hq.
    apply ordered_keys_differ.
    + apply Ho. now left.
    + apply Ho. right. now apply in_map.
    + intros E. apply Hp. rewrite E. now apply in_map.
  - apply IH; [exact Hr|]. intros e He. apply Ho. now right.
Qed.

Lemma edge_weights_keys items e :
  In e (keys (edge_weights items)) <->
  exists it, In it items /\ 2 <= len (tags it) /\ In e (tag_pairs (tags it)).
Proof.
  rewrite edge_weights_counted, (In_keys_incr_all edge_eqb edge_eqb_eq).
  rewrite In_paired_tags. simpl. tauto.
Qed.

Lemma node_occurrences_keys items t :
  In t (keys (node_occurrences items)) <->
  exists it, In it items /\ 2 <= len (tags it) /\ In t (tags it).
Proof.
  rewrite node_occurrences_counted, (In_keys_incr_all String.eqb String.eqb_eq).
  rewrite In_counted_tags. simpl. tauto.
Qed.

Lemma edge_weights_NoDup items : NoDup (keys (edge_weights items)).
Proof.
  rewrite edge_weights_counted.
  apply (NoDup_keys_incr_all edge_eqb edge_eqb_eq). constructor.
Qed.

Lemma node_occurrences_NoDup items : NoDup (keys (node_occurrences items)).
Proof.
  rewrite node_occurrences_counted.
  apply (NoDup_keys_incr_all String.eqb String.eqb_eq). constructor.
Qed.

(** The graph is the two counters: one node per counted tag, one edge per
    counted pair. *)
Lemma build_graph_counters items :
  build_graph items
  = mk_graph (map as_node (node_occurrences items)) (edge_weights items).
Proof.
  unfold build_graph, empty_graph.
  rewrite add_nodes_fresh by (simpl; apply node_occurrences_NoDup).
  simpl app. rewrite add_edges_fresh; [reflexivity| |].
  - intros [a b] He. apply edge_weights_keys in He.
    destruct He as [it [Hit [H2 Hp]]]. apply tag_pairs_members in Hp.
    rewrite map_map. simpl.
    change (map (fun x : tag * Z => fst x) (node_occurrences items))
      with (keys (node_occurrences items)).
    rewrite !node_occurrences_keys. split; exists it; tauto.
  - simpl. apply ordered_keys_apart; [apply edge_weights_NoDup|].
    intros [a b] He. apply edge_weights_keys in He.
    destruct He as [it [_ [_ Hp]]]. simpl. now apply tag_pairs_ordered in Hp.
Qed.

Lemma node_weight_as_node (c : list (tag * Z)) t :
  In t (keys c) -> node_weight (map as_node c) t = Some (get String.eqb c t).
Proof.
  unfold keys. induction c as [|[t' n] r IH]; simpl; [tauto|].
  destruct (String.eqb t t') eqn:E; [reflexivity|].
  intros [->|H]; [|now apply IH].
  rewrite String.eqb_refl in E. discriminate.
Qed.

Lemma tag_occurrences_unique its t :
  Forall unique_tags its -> tag_occurrences its t = records_with_tag its t.
Proof.
  unfold tag_occurrences, records_with_tag.
  induction 1 as [|it r Hu _ IH]; [reflexivity|].
  simpl flat_map. rewrite occurrences_app, IH. simpl filter.
  unfold counted_tags. rewrite (Z.leb_antisym (len (tags it)) 2).
  destruct (len (tags it) <? 2); simpl negb.
  - rewrite andb_false_r. reflexivity.
  - rewrite andb_true_r. destruct (has_tag t it) eqn:E.
    + rewrite occurrences_once;
        [|apply String.eqb_eq|exact Hu|now apply has_tag_In].
      unfold len. change (List.length (it :: ?l)) with (S (List.length l)). lia.
    + rewrite occurrences_none; [lia|apply String.eqb_eq|].
      rewrite <- has_tag_In. congruence.
Qed.

(** *** The weight of an undirected edge *)

Lemma same_edge_key a b e' :
  str_ltb (snd e') (fst e') = false ->
  same_edge (a, b) e' = edge_eqb (edge_key a b) e'.
Proof.
  destruct e' as [c d]. simpl. intros Hc.
  apply eq_true_iff_eq. unfold same_edge. cbn [fst snd].
  rewrite orb_true_iff, !edge_eqb_eq. unfold edge_key.
  destruct (str_ltb b a) eqn:E; split.
  - intros [H|H]; inversion H; subst; [congruence | reflexivity].
  - intros H. inversion H; subst. now right.
  - intros [H|H]; inversion H; subst; [reflexivity|].
    destruct (String.string_dec c d) as [->|N]; [reflexivity|].
    destruct (str_ltb_total N); congruence.
  - intros H. now left.
Qed.

Lemma edge_weight_ordered_keys (c : list (edge * Z)) a b :
  (forall e, In e (keys c) -> str_ltb (snd e) (fst e) = false) ->
  edge_weight c a b
  = if existsb (edge_eqb (edge_key a b)) (keys c)
    then Some (get edge_eqb c (edge_key a b)) else None.
Proof.
  unfold keys. induction c as [|[e' w] r IH]; intros Ho; [reflexivity|].
  cbn [edge_weight get map existsb fst].
  rewrite same_edge_key by (apply Ho; now left).
  destruct (edge_eqb (edge_key a b) e'); [reflexivity|].
  simpl. apply IH. intros e He. apply Ho. now right.
Qed.

Lemma occurrences_member {K : Type} (keq : K -> K -> bool) (l : list K) k :
  (forall x y, keq x y = true <-> x = y) -> In k l -> 1 <= occurrences keq k l.
Proof.
  intros Hk. unfold occurrences, len. induction l as [|x t IH]; simpl; [tauto|].
  intros [->|Hin].
  - replace (keq k k) with true by (symmetry; now apply Hk).
    change (List.length (k :: ?l)) with (S (List.length l)). lia.
  - specialize (IH Hin). destruct (keq k x); [|exact IH].
    change (List.length (x :: ?l)) with (S (List.length l)). lia.
Qed.

(** The graph has an edge between two tags exactly when some counted
    record yields their pair, and its weight is how often that happens. *)
Lemma build_graph_edge_weight items a b :
  let n := occurrences edge_eqb (edge_key a b) (flat_map paired_tags items) in
  edge_weight (edges (build_graph items)) a b = if n =? 0 then None else Some n.
Proof.
  intros n. rewrite build_graph_counters. cbn [edges].
  rewrite edge_weight_ordered_keys.
  2:{ intros [x y] He. apply edge_weights_keys in He.
      destruct He as [it [_ [_ Hp]]]. simpl. now apply tag_pairs_ordered in Hp. }
  rewrite edge_weights_counted, (get_incr_all edge_eqb edge_eqb_eq). simpl get.
  rewrite Z.add_0_l. fold n.
  destruct (existsb _ _) eqn:E.
  - apply (existsb_keq edge_eqb edge_eqb_eq) in E.
    apply (In_keys_incr_all edge_eqb edge_eqb_eq) in E. simpl in E.
    destruct E as [E|[]].
    pose proof (occurrences_member edge_eqb _ _ edge_eqb_eq E) as H1. fold n in H1.
    replace (n =? 0) with false by (symmetry; apply Z.eqb_neq; lia). reflexivity.
  - assert (Hn : ~ In (edge_key a b) (flat_map paired_tags items)).
    { intros Hin. apply Bool.not_true_iff_false in E. apply E.
      apply (existsb_keq edge_eqb edge_eqb_eq).
      apply (In_keys_incr_all edge_eqb edge_eqb_eq). now left. }
    pose proof (@occurrences_none _ edge_eqb _ _ edge_eqb_eq Hn) as H0. fold n in H0.
    now rewrite H0.
Qed.

End BuilderFacts.

(** ** The window analysis *)
Module AnalyticsFacts.
Import Py PyFacts PairFacts Analytics.

Lemma recount_counted items :
  recount items = incr_all edge_eqb [] (flat_map paired_tags items).
Proof.
  unfold recount. generalize (@nil (edge * Z)).
  induction items as [|it r IH]; intros c; [reflexivity|].
  simpl. rewrite IH, incr_all_app. f_equal.
  unfold recount_step. rewrite <- count_pairs_guarded.
  rewrite Z.geb_leb, (Z.leb_antisym (len (tags it)) 2).
  now destruct (len (tags it) <? 2).
Qed.

(** The accumulators after the loop, from any start. *)
Lemma window_loop rt ht (l : list (item * Z)) w :
  fold_left (window_step rt ht) l w
  = mk_windows
      (incr_all edge_eqb (recent_edges w)
         (flat_map paired_tags (map fst (filter (counted_recent rt) l))))
      (incr_all edge_eqb (historical_edges w)
         (flat_map paired_tags (map fst (filter (counted_historical rt ht) l))))
      (recent_items w ++ map fst (filter (counted_recent rt) l))
      (historical_items w ++ map fst (filter (counted_historical rt ht) l))
      (incr_all edge_eqb (all_edges w) (flat_map paired_tags (map fst l))).
Proof.
  revert w. induction l as [|[it t] r IH]; intros w.
  - simpl. rewrite !app_nil_r. now destruct w.
  - simpl fold_left. rewrite IH. clear IH.
    unfold window_step, window_of, counted_recent, counted_historical.
    cbn [fst snd filter map flat_map].
    rewrite (Z.leb_antisym (len (tags it)) 2), !Z.geb_leb.
    rewrite (Z.ltb_antisym rt t).
    rewrite incr_all_app.
    destruct (len (tags it) <? 2) eqn:E2; cbn [negb andb].
    + replace (paired_tags it) with (@nil edge)
        by (unfold paired_tags; now rewrite E2).
      cbv iota. reflexivity.
    + assert (Hp : paired_tags it = tag_pairs (tags it))
        by (unfold paired_tags; now rewrite E2).
      unfold count_pairs. rewrite <- Hp.
      destruct (rt <=? t) eqn:Er; cbn [negb andb].
      * cbn [recent_edges historical_edges recent_items historical_items
             all_edges map flat_map fst].
        rewrite !incr_all_app, <- !app_assoc. reflexivity.
      * destruct (ht <=? t) eqn:Eh;
          cbn [recent_edges historical_edges recent_items historical_items
               all_edges map flat_map fst].
        -- rewrite !incr_all_app, <- !app_assoc. reflexivity.
        -- reflexivity.
Qed.

Lemma windows_of_eq items rd hd :
  let rt := recent_threshold items rd in
  let ht := historical_threshold items rd hd in
  let l := items_with_time items in
  windows_of items rd hd
  = mk_windows
      (incr_all edge_eqb [] (flat_map paired_tags (map fst (filter (counted_recent rt) l))))
      (incr_all edge_eqb [] (flat_map paired_tags (map fst (filter (counted_historical rt ht) l))))
      (map fst (filter (counted_recent rt) l))
      (map fst (filter (counted_historical rt ht) l))
      (incr_all edge_eqb [] (flat_map paired_tags (map fst l))).
Proof. intros rt ht l. unfold windows_of. now rewrite window_loop. Qed.

Lemma In_items_with_time items it t :
  In (it, t) (items_with_time items) <-> In it items /\ time it = Some t.
Proof.
  unfold items_with_time. rewrite in_flat_map. split.
  - intros [x [Hx H]]. destruct (time x) eqn:E; [|destruct H].
    destruct H as [H|[]]. inversion H; subst. auto.
  - intros [Hin Ht]. exists it. split; [exact Hin|]. rewrite Ht. now left.
Qed.

Lemma filter_length_le {A : Type} (f g : A -> bool) (l : list A) :
  (forall x, f x = true -> g x = true) ->
  (List.length (filter f l) <= List.length (filter g l))%nat.
Proof.
  intros H. induction l as [|x t IH]; simpl; [lia|].
  destruct (f x) eqn:E.
  - rewrite (H x E). simpl. lia.
  - destruct (g x); simpl; lia.
Qed.




(** *** Ranking by count, and slices *)

Lemma sorted_prefix_dominates {A : Type} (R : A -> A -> Prop) (s : list A) k p q :
  StronglySorted R s -> In p (firstn k s) -> In q (skipn k s) -> R p q.
Proof.
  intros Hs. revert k. induction Hs as [|x t Hs IH Hall]; intros k.
  - rewrite firstn_nil. simpl. tauto.
  - destruct k as [|k]; simpl; [tauto|].
    intros [<-|Hp] Hq.
    + rewrite Forall_forall in Hall. apply Hall.
      rewrite <- (firstn_skipn k t). apply in_or_app. now right.
    + now apply (IH k).
Qed.

Lemma sorted_firstn {A : Type} (R : A -> A -> Prop) (s : list A) k :
  StronglySorted R s -> StronglySorted R (firstn k s).
Proof.
  intros Hs. revert k. induction Hs as [|x t Hs IH Hall]; intros k.
  - rewrite firstn_nil. constructor.
  - destruct k as [|k]; simpl; constructor; [apply IH|].
    rewrite Forall_forall in *. intros y Hy. apply Hall.
    rewrite <- (firstn_skipn k t). apply in_or_app. now left.
Qed.

Lemma In_firstn {A : Type} (l : list A) k x : In x (firstn k l) -> In x l.
Proof.
  intros H. rewrite <- (firstn_skipn k l). apply in_or_app. now left.
Qed.

Lemma slice_to_prefix {A : Type} (n : Z) (l : list A) :
  exists k, slice_to n l = firstn k l.
Proof. unfold slice_to. destruct (n <? 0); eauto. Qed.

Lemma slice_to_In {A : Type} (n : Z) (l : list A) x : In x (slice_to n l) -> In x l.
Proof. destruct (slice_to_prefix n l) as [k ->]. apply In_firstn. Qed.

Lemma slice_to_all {A : Type} (n : Z) (l : list A) : len l <= n -> slice_to n l = l.
Proof.
  unfold slice_to, len. intros H.
  replace (n <? 0) with false by (symmetry; apply Z.ltb_ge; lia).
  apply firstn_all2. lia.
Qed.

Section RankFacts.
Context {K : Type}.

Lemma by_count_sorted (c : list (K * Z)) :
  StronglySorted (fun p q => snd q <= snd p) (sort by_count_desc c).
Proof.
  assert (H : StronglySorted (ordered by_count_desc) (sort by_count_desc c)).
  { apply sort_sorted; unfold ordered, by_count_desc.
    - intros a b. rewrite Z.ltb_lt, Z.ltb_ge. lia.
    - intros a b d. rewrite !Z.ltb_ge. lia. }
  revert H. generalize (sort by_count_desc c). induction 1; constructor; auto.
  eapply Forall_impl; [|eassumption].
  intros q. unfold ordered, by_count_desc. now rewrite Z.ltb_ge.
Qed.

Lemma most_common_In n (c : list (K * Z)) p : In p (most_common n c) -> In p c.
Proof.
  unfold most_common. destruct (n <=? 0); [intros []|].
  intros H. apply In_firstn in H. now apply sort_In in H.
Qed.


Lemma most_common_length n (c : list (K * Z)) :
  len (most_common n c) = Z.min (Z.max n 0) (len c).
Proof.
  unfold most_common, len. destruct (n <=? 0) eqn:E.
  - apply Z.leb_le in E. simpl. lia.
  - apply Z.leb_gt in E. rewrite length_firstn, sort_length. lia.
Qed.

End RankFacts.

(** *** Stability of the sort *)
Section Stability.
Context {A : Type}.
Variables (before : A -> A -> bool) (same : A -> bool).
Hypothesis apart : forall x y, same x = true -> before y x = true -> same y = false.

Lemma insert_keeps_class x l :
  filter same (insert before x l) = filter same (x :: l).
Proof.
  induction l as [|y t IH]; [reflexivity|].
  simpl insert. destruct (before y x) eqn:E; [|reflexivity].
  simpl filter in *. rewrite IH.
  destruct (same x) eqn:Ex; [|reflexivity].
  now rewrite (apart Ex E).
Qed.

Lemma sort_keeps_class l : filter same (sort before l) = filter same l.
Proof.
  induction l as [|x t IH]; [reflexivity|].
  simpl sort. rewrite insert_keeps_class. simpl. now rewrite IH.
Qed.
End Stability.

(** *** Rising edges *)

Lemma Qlt_bool_iff a b : Qlt_bool a b = true <-> (a < b)%Q.
Proof.
  unfold Qlt_bool. rewrite negb_true_iff. split.
  - intros H. apply Qnot_le_lt. intros L. apply Qle_bool_iff in L. congruence.
  - intros H. destruct (Qle_bool b a) eqn:E; [|reflexivity].
    apply Qle_bool_iff in E. exfalso. exact (Qlt_not_le _ _ H E).
Qed.

Lemma Qlt_bool_false a b : Qlt_bool a b = false <-> (b <= a)%Q.
Proof.
  unfold Qlt_bool. rewrite negb_false_iff. apply Qle_bool_iff.
Qed.

Lemma qualifies_iff r h : qualifies r h = true <-> (0 < growth r h)%Q /\ 2 <= r.
Proof.
  unfold qualifies. rewrite andb_true_iff, Qlt_bool_iff, Z.geb_leb, Z.leb_le.
  tauto.
Qed.

Lemma rising_entry_In re he e en :
  In en (rising_entry re he e) <->
  qualifies (get edge_eqb re e) (get edge_eqb he e) = true /\
  en = (fst e, snd e, growth (get edge_eqb re e) (get edge_eqb he e),
        RisingDetails (get edge_eqb re e) (get edge_eqb he e)
                      (growth (get edge_eqb re e) (get edge_eqb he e))).
Proof.
  unfold rising_entry.
  destruct (qualifies (get edge_eqb re e) (get edge_eqb he e)); simpl.
  - split; [intros [<-|[]]; auto | intros [_ ->]; auto].
  - split; [tauto | intros [H _]; discriminate].
Qed.

Lemma rising_edges_In set_iter re he en :
  In en (rising_edges set_iter re he) <->
  exists e, In e (set_iter (keys re ++ keys he)) /\ In en (rising_entry re he e).
Proof. unfold rising_edges. now rewrite sort_In, in_flat_map. Qed.

Lemma by_score_sorted (l : list entry) :
  StronglySorted (fun x y => (score y <= score x)%Q) (sort by_score_desc l).
Proof.
  assert (H : StronglySorted (ordered by_score_desc) (sort by_score_desc l)).
  { apply sort_sorted; unfold ordered, by_score_desc.
    - intros a b. rewrite Qlt_bool_iff, Qlt_bool_false. apply Qlt_le_weak.
    - intros a b c. rewrite !Qlt_bool_false. intros H1 H2.
      exact (Qle_trans _ _ _ H2 H1). }
  revert H. generalize (sort by_score_desc l). induction 1; constructor; auto.
  eapply Forall_impl; [|eassumption].
  intros q. unfold ordered, by_score_desc. now rewrite Qlt_bool_false.
Qed.

(** Entries of one score keep the order in which the set yields their
    edges. *)
Lemma by_score_stable (q : Q) (l : list entry) :
  filter (fun en => Qeq_bool (score en) q) (sort by_score_desc l)
  = filter (fun en => Qeq_bool (score en) q) l.
Proof.
  apply sort_keeps_class. intros x y Hx Hy.
  apply Qeq_bool_iff in Hx. unfold by_score_desc in Hy. apply Qlt_bool_iff in Hy.
  destruct (Qeq_bool (score y) q) eqn:E; [|reflexivity].
  apply Qeq_bool_iff in E. rewrite Hx, E in Hy.
  exfalso. exact (Qlt_irrefl _ Hy).
Qed.

(** *** Two iteration orders of a set *)

Lemma first_seen_In l e : In e (first_seen l) <-> In e l.
Proof.
  induction l as [|x r IH]; simpl; [tauto|].
  rewrite filter_In, IH, negb_true_iff.
  destruct (edge_eqb e x) eqn:E.
  - apply edge_eqb_eq in E. subst. intuition congruence.
  - intuition.
Qed.

Lemma first_seen_NoDup l : NoDup (first_seen l).
Proof.
  induction l as [|x r IH]; simpl; constructor.
  - rewrite filter_In, edge_eqb_refl. simpl. intros [_ H]. discriminate.
  - now apply NoDup_filter.
Qed.

Lemma first_seen_iteration : set_iteration first_seen.
Proof. intros l. split; [apply first_seen_NoDup | intros e; apply first_seen_In]. Qed.

Lemma last_seen_iteration : set_iteration last_seen.
Proof.
  intros l. unfold last_seen. split.
  - apply NoDup_rev, first_seen_NoDup.
  - intros e. rewrite <- in_rev. apply first_seen_In.
Qed.

(** *** The ways [find_rising_edges] returns *)

Lemma global_edges_eq items rd hd :
  global_edges items
  = match items_with_time items with
    | [] => recount items
    | _ :: _ => all_edges (windows_of items rd hd)
    end.
Proof.
  unfold global_edges, fallback_population.
  rewrite windows_of_eq, recount_counted. simpl.
  now destruct (items_with_time items).
Qed.

Lemma windows_without_time items rd hd :
  items_with_time items = [] -> windows_of items rd hd = empty_windows.
Proof. intros H. unfold windows_of. now rewrite H. Qed.

(** Every fallback ranks the global edges. *)
Lemma fallback_result set_iter items rd hd top_n :
  mode (snd (find_rising_edges set_iter items rd hd top_n)) = Fallback ->
  fst (find_rising_edges set_iter items rd hd top_n)
  = map fallback_entry (most_common top_n (global_edges items)).
Proof.
  rewrite (global_edges_eq items rd hd). unfold find_rising_edges.
  destruct (items_with_time items) as [|p l]; [reflexivity|].
  destruct ((recent_count (initial_stats items rd hd) <? 5)
            || (historical_count (initial_stats items rd hd) <? 5)); [reflexivity|].
  destruct (rising_edges set_iter _ _); [reflexivity|].
  simpl. discriminate.
Qed.

Lemma rising_result set_iter items rd hd top_n :
  mode (snd (find_rising_edges set_iter items rd hd top_n)) = Rising ->
  let w := windows_of items rd hd in
  5 <= len (recent_items w) /\ 5 <= len (historical_items w) /\
  find_rising_edges set_iter items rd hd top_n
  = (slice_to top_n (rising_edges set_iter (recent_edges w) (historical_edges w)),
     initial_stats items rd hd).
Proof.
  unfold find_rising_edges.
  destruct (items_with_time items) as [|p l]; [simpl; discriminate|].
  change (recent_count (initial_stats items rd hd))
    with (len (recent_items (windows_of items rd hd))).
  change (historical_count (initial_stats items rd hd))
    with (len (historical_items (windows_of items rd hd))).
  destruct (len (recent_items (windows_of items rd hd)) <? 5) eqn:Er;
    [simpl; discriminate|].
  destruct (len (historical_items (windows_of items rd hd)) <? 5) eqn:Eh;
    [simpl; discriminate|].
  apply Z.ltb_ge in Er, Eh. simpl orb. cbv iota.
  destruct (rising_edges set_iter _ _) eqn:E; [simpl; discriminate|].
  intros _. auto.
Qed.


(** With a timed record, a fallback returns the statistics already
    computed, under the other mode. *)
Lemma fallback_stats set_iter items rd hd top_n :
  items_with_time items <> [] ->
  mode (snd (find_rising_edges set_iter items rd hd top_n)) = Fallback ->
  snd (find_rising_edges set_iter items rd hd top_n)
  = set_mode (initial_stats items rd hd) Fallback.
Proof.
  unfold find_rising_edges.
  destruct (items_with_time items) as [|p l]; [congruence|]. intros _.
  destruct ((recent_count (initial_stats items rd hd) <? 5)
            || (historical_count (initial_stats items rd hd) <? 5)); [reflexivity|].
  destruct (rising_edges set_iter _ _); [reflexivity|].
  simpl. discriminate.
Qed.

End AnalyticsFacts.

(** * The specification, claim by claim *)

Import Py PyFacts PairFacts BuilderFacts AnalyticsFacts.

Lemma unique_tags_timed items (f : item * Z -> bool) :
  Forall unique_tags items ->
  Forall unique_tags (map fst (filter f (Analytics.items_with_time items))).
Proof.
  rewrite !Forall_forall. intros H it Hit.
  apply in_map_iff in Hit. destruct Hit as [[it' t] [E Hp]]. simpl in E. subst it'.
  apply filter_In in Hp. destruct Hp as [Hp _].
  apply In_items_with_time in Hp. apply H. tauto.
Qed.

Lemma unique_tags_all_timed items :
  Forall unique_tags items ->
  Forall unique_tags (map fst (Analytics.items_with_time items)).
Proof.
  rewrite !Forall_forall. intros H it Hit.
  apply in_map_iff in Hit. destruct Hit as [[it' t] [E Hp]]. simpl in E. subst it'.
  apply In_items_with_time in Hp. apply H. tauto.
Qed.

(** C1, as the claim states it, fails: the code pairs the sorted tags
    without removing repeats.  The record with tags a, a, b is the only one
    that carries a and b, and it adds 2 to the weight of (a,b), in the
    graph and in the window counters alike. *)
Lemma repeated_tag_inflates_weight :
  co_records Samples.repeated_tag "a" "b" = 1 /\
  Builder.edge_weight (Builder.edges (Builder.build_graph Samples.repeated_tag))
                      "a" "b" = Some 2 /\
  pair_weight (Analytics.recent_edges (Analytics.windows_of Samples.repeated_tag 7 30))
              "a" "b" = 2 /\
  pair_weight (Analytics.all_edges (Analytics.windows_of Samples.repeated_tag 7 30))
              "a" "b" = 2.
Proof. vm_compute. repeat split. Qed.

(** C1, amended: over records that repeat no tag, every unordered pair of
    distinct tags weighs the number of records that carry both, in the
    graph that [build_graph] returns and in the recent, historical and
    global counters of [find_rising_edges]: each record adds each of its
    pairs once. *)
Theorem unique_tags_pair_once (items : list item) (recent_days historical_days : Z)
    (a b : tag) :
  Forall unique_tags items -> a <> b ->
  let w := Analytics.windows_of items recent_days historical_days in
  Builder.edge_weight (Builder.edges (Builder.build_graph items)) a b
    = (if co_records items a b =? 0 then None else Some (co_records items a b)) /\
  pair_weight (Analytics.recent_edges w) a b
    = co_records (Analytics.recent_items w) a b /\
  pair_weight (Analytics.historical_edges w) a b
    = co_records (Analytics.historical_items w) a b /\
  pair_weight (Analytics.all_edges w) a b
    = co_records (map fst (Analytics.items_with_time items)) a b /\
  pair_weight (Analytics.recount items) a b = co_records items a b.
Proof.
  intros Hu Hne w. subst w. split.
  - rewrite build_graph_edge_weight.
    now rewrite (paired_tags_co_records Hu Hne).
  - rewrite windows_of_eq, recount_counted.
    cbn [Analytics.recent_edges Analytics.historical_edges
         Analytics.recent_items Analytics.historical_items Analytics.all_edges].
    repeat split; apply pair_weight_counted;
      auto using unique_tags_timed, unique_tags_all_timed.
Qed.

Lemma samples_tied_unique : Forall unique_tags Samples.tied.
Proof.
  unfold Samples.tied, unique_tags. simpl.
  repeat constructor; simpl; intuition discriminate.
Qed.

Lemma unique_tags_pair_once_witness :
  Forall unique_tags Samples.tied /\ "c" <> "d" /\
  Builder.edge_weight (Builder.edges (Builder.build_graph Samples.tied)) "c" "d"
  = Some 6 /\
  co_records Samples.tied "c" "d" = 6.
Proof.
  split; [exact samples_tied_unique|]. split; [discriminate|].
  assert (Hne : "c" <> "d") by discriminate.
  destruct (@unique_tags_pair_once Samples.tied 7 30 "c" "d" samples_tied_unique Hne)
    as [Hg _].
  split; [rewrite Hg|]; reflexivity.
Defined.

(** C2, as the claim states it, fails: [build_graph] skips a record with
    fewer than two tags before it counts nodes.  The tag solo appears in a
    record, yet it is no node of the graph. *)
Lemma single_tag_record_adds_no_node :
  In (mk_item None ["solo"]) Samples.with_single /\
  Builder.nodes (Builder.build_graph Samples.with_single)
  = [("b", Some 1); ("a", Some 1)] /\
  ~ In "solo" (Builder.node_names (Builder.build_graph Samples.with_single)).
Proof.
  split; [now left|]. split; [reflexivity|].
  vm_compute. intuition discriminate.
Qed.

(** C2, amended: the nodes of the graph are the tags of the records that
    have at least two tags, each once; the [weight] of a node is the number
    of times those records list the tag, which is the number of those
    records that carry it when no record repeats a tag; a record with fewer
    than two tags adds neither pairs nor node counts. *)
Theorem build_graph_nodes (items : list item) (t : tag) :
  let g := Builder.build_graph items in
  NoDup (Builder.node_names g) /\
  (In t (Builder.node_names g) <->
   exists it, In it items /\ 2 <= len (tags it) /\ In t (tags it)) /\
  (In t (Builder.node_names g) ->
   Builder.node_weight (Builder.nodes g) t = Some (tag_occurrences items t)) /\
  (Forall unique_tags items -> tag_occurrences items t = records_with_tag items t) /\
  (forall it, len (tags it) < 2 -> paired_tags it = [] /\ counted_tags it = []).
Proof.
  intros g. subst g. rewrite build_graph_counters.
  unfold Builder.node_names. cbn [Builder.nodes].
  assert (Hk : map fst (map Builder.as_node (Builder.node_occurrences items))
               = keys (Builder.node_occurrences items)).
  { rewrite map_map. reflexivity. }
  rewrite Hk. split; [apply node_occurrences_NoDup|].
  split; [apply node_occurrences_keys|].
  split.
  - intros Hin. rewrite node_weight_as_node by exact Hin.
    rewrite node_occurrences_counted, (get_incr_all String.eqb String.eqb_eq).
    reflexivity.
  - split; [apply tag_occurrences_unique|].
    intros it Hlt. unfold paired_tags, counted_tags.
    apply Z.ltb_lt in Hlt. now rewrite Hlt.
Qed.

Lemma build_graph_nodes_witness :
  Builder.node_weight (Builder.nodes (Builder.build_graph Samples.tied)) "c"
  = Some (records_with_tag Samples.tied "c").
Proof.
  destruct (build_graph_nodes Samples.tied "c") as [_ [Hn [Hw [Hu _]]]].
  rewrite <- Hu by exact samples_tied_unique.
  apply Hw, Hn.
  exists (mk_item (Some (100 * Samples.day)) ["c"; "d"]).
  split; [|split; [vm_compute; discriminate | now left]].
  unfold Samples.tied. simpl. tauto.
Defined.

(** C9, as the claim states it, fails: with a repeated tag the sorted tags
    pair the tag with itself, and [add_edge] accepts the loop. *)
Lemma repeated_tag_makes_self_loop :
  Builder.edges (Builder.build_graph Samples.repeated_tag)
  = [(("a", "a"), 1); (("a", "b"), 2)] /\
  ~ Builder.no_self_loops (Builder.build_graph Samples.repeated_tag).
Proof.
  split; [reflexivity|].
  intros H. apply (H "a" "a" 1); [|reflexivity].
  vm_compute. now left.
Qed.

(** No input makes two edges between the same two nodes. *)
Lemma build_graph_no_parallel_edges items :
  Builder.no_parallel_edges (Builder.build_graph items).
Proof.
  unfold Builder.no_parallel_edges. rewrite build_graph_counters.
  cbn [Builder.edges]. apply ordered_keys_apart; [apply edge_weights_NoDup|].
  intros [a b] He. apply edge_weights_keys in He.
  destruct He as [it [_ [_ Hp]]]. simpl. now apply tag_pairs_ordered in Hp.
Qed.

(** C9, amended: the graph never has two edges between the same two
    nodes, and when no record repeats a tag it has no self-loop either:
    every edge joins two distinct tags. *)
Theorem build_graph_simple (items : list item) :
  Forall unique_tags items ->
  Builder.no_parallel_edges (Builder.build_graph items) /\
  Builder.no_self_loops (Builder.build_graph items).
Proof.
  intros Hu. split; [apply build_graph_no_parallel_edges|].
  intros a b w Hin. rewrite build_graph_counters in Hin. cbn [Builder.edges] in Hin.
  assert (Hk : In (a, b) (keys (Builder.edge_weights items))).
  { change (a, b) with (fst ((a, b), w)). now apply in_map. }
  apply edge_weights_keys in Hk. destruct Hk as [it [Hit [_ Hp]]].
  rewrite Forall_forall in Hu.
  exact (tag_pairs_distinct (Hu it Hit) Hp).
Qed.

Lemma build_graph_simple_witness :
  Forall unique_tags Samples.tied /\
  Builder.no_parallel_edges (Builder.build_graph Samples.tied) /\
  Builder.no_self_loops (Builder.build_graph Samples.tied).
Proof.
  split; [exact samples_tied_unique|].
  apply (build_graph_simple samples_tied_unique).
Defined.

(** ** Fallback results *)

Lemma global_edges_NoDup items : NoDup (keys (Analytics.global_edges items)).
Proof.
  unfold Analytics.global_edges.
  apply (NoDup_keys_incr_all edge_eqb edge_eqb_eq). constructor.
Qed.

(** Every entry of a fallback ranking has score 0, the count of its pair
    and the one reason the code knows. *)
Lemma fallback_entries (n : Z) (c : Analytics.edge_counter) :
  NoDup (keys c) ->
  Forall (fun en =>
            Analytics.score en = 0%Q /\
            Analytics.entry_details en
            = Analytics.FallbackDetails (get edge_eqb c (Analytics.entry_edge en))
                                        "insufficient_window_samples")
         (map Analytics.fallback_entry (most_common n c)).
Proof.
  intros Hnd. apply Forall_forall. intros en Hen.
  apply in_map_iff in Hen. destruct Hen as [[[a b] k] [<- Hp]].
  apply most_common_In in Hp.
  unfold Analytics.fallback_entry, Analytics.score, Analytics.entry_details,
    Analytics.entry_edge. simpl.
  split; [reflexivity|].
  now rewrite (@get_In_keys _ edge_eqb edge_eqb_eq c (a, b) k Hnd Hp).
Qed.

Lemma no_time_no_window items rd hd :
  Analytics.items_with_time items = [] ->
  len (Analytics.recent_items (Analytics.windows_of items rd hd)) = 0 /\
  len (Analytics.historical_items (Analytics.windows_of items rd hd)) = 0.
Proof. intros H. rewrite windows_without_time by exact H. split; reflexivity. Qed.

Lemma nothing_rises set_iter (re he : Analytics.edge_counter) :
  Analytics.set_iteration set_iter ->
  (forall e, In e (keys re) \/ In e (keys he) ->
             Analytics.qualifies (get edge_eqb re e) (get edge_eqb he e) = false) ->
  Analytics.rising_edges set_iter re he = [].
Proof.
  intros Hs Hq. unfold Analytics.rising_edges.
  assert (Hin : forall e, In e (set_iter (keys re ++ keys he)) ->
                          Analytics.rising_entry re he e = []).
  { intros e He. apply (proj1 (proj2 (Hs _) e)) in He. apply in_app_or in He.
    unfold Analytics.rising_entry. now rewrite (Hq e He). }
  induction (set_iter (keys re ++ keys he)) as [|e r IH]; [reflexivity|].
  simpl. rewrite (Hin e) by (now left). apply IH.
  intros x Hx. apply Hin. now right.
Qed.

(** C3: the claim holds of the specification and of the docstring of
    [find_rising_edges], and the code breaks it.  When some record has a
    time, the fallback ranks the pairs of the timed records only: here the
    one record with a pair of tags has no time, and the result is empty. *)
Theorem untimed_pair_yields_nothing (set_iter : list edge -> list edge) :
  Analytics.find_rising_edges set_iter Samples.untimed_pair 7 30 10
  = ([], Analytics.mk_stats (Analytics.Formatted 0) 0 0 1 (Some 0) (Some 0)
                            Analytics.Fallback).
Proof. reflexivity. Qed.

(** C10: when [find_rising_edges] falls back after it computed the
    windows, under either guard, it returns the statistics it had computed
    with [mode] set to fallback: the anchor, the four counts and the two
    edge counts are unchanged. *)
Theorem fallback_keeps_window_stats (set_iter : list edge -> list edge)
    (items : list item) (recent_days historical_days top_n : Z) :
  Analytics.items_with_time items <> [] ->
  let res := Analytics.find_rising_edges set_iter items recent_days historical_days
                                         top_n in
  let computed := Analytics.initial_stats items recent_days historical_days in
  Analytics.mode (snd res) = Analytics.Fallback ->
  snd res = Analytics.set_mode computed Analytics.Fallback /\
  Analytics.anchor_now (snd res) = Analytics.anchor_now computed /\
  Analytics.recent_count (snd res) = Analytics.recent_count computed /\
  Analytics.historical_count (snd res) = Analytics.historical_count computed /\
  Analytics.total_count (snd res) = Analytics.total_count computed /\
  Analytics.recent_edges_count (snd res) = Analytics.recent_edges_count computed /\
  Analytics.historical_edges_count (snd res)
  = Analytics.historical_edges_count computed.
Proof.
  intros Ht res computed Hm.
  assert (E : snd res = Analytics.set_mode computed Analytics.Fallback)
    by (subst res computed; now apply fallback_stats).
  rewrite E. repeat split.
Qed.

Lemma fallback_keeps_window_stats_witness :
  snd (Analytics.find_rising_edges Analytics.first_seen Samples.steady 7 30 10)
  = Analytics.set_mode (Analytics.initial_stats Samples.steady 7 30)
                       Analytics.Fallback.
Proof.
  apply (@fallback_keeps_window_stats Analytics.first_seen Samples.steady 7 30 10).
  - vm_compute. discriminate.
  - vm_compute. reflexivity.
Defined.

(** ** Rising mode *)

Lemma samples_tied_rising :
  Analytics.mode
    (snd (Analytics.find_rising_edges Analytics.first_seen Samples.tied 7 30 10))
  = Analytics.Rising.
Proof. vm_compute. reflexivity. Qed.

(** ** Windows *)

Lemma In_timed_part items (f : item * Z -> bool) it :
  In it (map fst (filter f (Analytics.items_with_time items))) <->
  exists t, In it items /\ time it = Some t /\ f (it, t) = true.
Proof.
  rewrite in_map_iff. split.
  - intros [[it' t] [E Hp]]. simpl in E. subst it'.
    apply filter_In in Hp. destruct Hp as [Hp Hf].
    apply In_items_with_time in Hp. exists t. tauto.
  - intros [t [Hin [Ht Hf]]]. exists (it, t). split; [reflexivity|].
    apply filter_In. split; [|exact Hf]. now apply In_items_with_time.
Qed.

(** C8, as the claim states it, fails: the loop skips a record with fewer
    than two tags before it looks at its time.  The record with the single
    tag c is dated exactly seven days before the latest record, and it is
    not in the recent window, whose count is 1. *)
Lemma single_tag_on_boundary_not_recent :
  In Samples.on_boundary Samples.boundary /\
  time Samples.on_boundary = Some (Analytics.recent_threshold Samples.boundary 7) /\
  Analytics.recent_items (Analytics.windows_of Samples.boundary 7 30)
  = [mk_item (Some (100 * Samples.day)) ["a"; "b"]] /\
  ~ In Samples.on_boundary
       (Analytics.recent_items (Analytics.windows_of Samples.boundary 7 30)) /\
  Analytics.recent_count
    (snd (Analytics.find_rising_edges Analytics.first_seen Samples.boundary 7 30 10))
  = 1.
Proof.
  split; [right; now left|]. split; [vm_compute; reflexivity|].
  split; [vm_compute; reflexivity|]. split; [|vm_compute; reflexivity].
  vm_compute. intros [H|[]]. discriminate H.
Qed.

(** C8, amended: a record with a time and at least two tags is put in
    the recent window exactly when its time is at or after the anchor minus
    [recent_days], so a record dated exactly at that threshold is recent
    and not historical; it is put in the historical window exactly when it
    is older than that and not older than the historical threshold; it is
    in neither when it is older than both thresholds; it is never in both.
    A record with fewer than two tags is in neither window. *)
Theorem window_partition (items : list item) (recent_days historical_days : Z)
    (it : item) (t : Z) :
  In it items -> time it = Some t ->
  let w := Analytics.windows_of items recent_days historical_days in
  let rt := Analytics.recent_threshold items recent_days in
  let ht := Analytics.historical_threshold items recent_days historical_days in
  (2 <= len (tags it) ->
   (t = rt -> In it (Analytics.recent_items w)
              /\ ~ In it (Analytics.historical_items w)) /\
   (In it (Analytics.recent_items w) <-> rt <= t) /\
   (In it (Analytics.historical_items w) <-> t < rt /\ ht <= t) /\
   (~ In it (Analytics.recent_items w) /\ ~ In it (Analytics.historical_items w)
    <-> t < rt /\ t < ht) /\
   ~ (In it (Analytics.recent_items w) /\ In it (Analytics.historical_items w))) /\
  (len (tags it) < 2 ->
   ~ In it (Analytics.recent_items w) /\ ~ In it (Analytics.historical_items w)) /\
  Analytics.window_of rt ht rt = Analytics.InRecent.
Proof.
  intros Hin Ht w rt ht.
  assert (Hr : In it (Analytics.recent_items w) <-> 2 <= len (tags it) /\ rt <= t).
  { subst w. rewrite windows_of_eq. cbn [Analytics.recent_items].
    rewrite In_timed_part. fold rt. unfold Analytics.counted_recent. cbn [fst snd].
    split.
    - intros [t' [_ [Ht' Hc]]]. rewrite Ht in Ht'. inversion Ht'; subst t'.
      apply andb_true_iff in Hc. rewrite !Z.leb_le in Hc. exact Hc.
    - intros [H2 Hle]. exists t. split; [exact Hin|]. split; [exact Ht|].
      apply andb_true_iff. now rewrite !Z.leb_le. }
  assert (Hh : In it (Analytics.historical_items w)
               <-> 2 <= len (tags it) /\ t < rt /\ ht <= t).
  { subst w. rewrite windows_of_eq. cbn [Analytics.historical_items].
    rewrite In_timed_part. fold rt ht. unfold Analytics.counted_historical.
    cbn [fst snd]. split.
    - intros [t' [_ [Ht' Hc]]]. rewrite Ht in Ht'. inversion Ht'; subst t'.
      rewrite !andb_true_iff, !Z.leb_le, Z.ltb_lt in Hc. tauto.
    - intros [H2 [Hlt Hle]]. exists t. split; [exact Hin|]. split; [exact Ht|].
      rewrite !andb_true_iff, !Z.leb_le, Z.ltb_lt. tauto. }
  split; [|split].
  - intros H2. rewrite Hr, Hh. repeat split; try lia; try tauto.
  - intros H2. rewrite Hr, Hh. lia.
  - unfold Analytics.window_of. now rewrite Z.geb_leb, Z.leb_refl.
Qed.

Lemma window_partition_witness :
  let it := mk_item (Some (93 * Samples.day)) ["c"; "d"] in
  let items := Samples.boundary ++ [it] in
  Some (93 * Samples.day) = Some (Analytics.recent_threshold items 7) /\
  In it (Analytics.recent_items (Analytics.windows_of items 7 30)) /\
  ~ In it (Analytics.historical_items (Analytics.windows_of items 7 30)).
Proof.
  intros it items. split; [vm_compute; reflexivity|].
  assert (Hin : In it items) by (right; right; now left).
  assert (Ht : time it = Some (93 * Samples.day)) by reflexivity.
  assert (H2 : 2 <= len (tags it)) by (vm_compute; discriminate).
  assert (Hb : 93 * Samples.day = Analytics.recent_threshold items 7)
    by (vm_compute; reflexivity).
  destruct (@window_partition items 7 30 it (93 * Samples.day) Hin Ht) as [H _].
  destruct (H H2) as [Hrecent _].
  exact (Hrecent Hb).
Defined.

(** ** Where the result is not empty *)

Lemma tag_pairs_not_empty (ts : list tag) : 2 <= len ts -> tag_pairs ts <> [].
Proof.
  intros H. unfold tag_pairs.
  assert (Hl : (2 <= List.length (sorted ts))%nat).
  { unfold sorted. rewrite sort_length. unfold len, tag in *. lia. }
  destruct (sorted ts) as [|x [|y r]]; simpl in Hl; try lia.
  simpl. discriminate.
Qed.

Lemma incr_not_empty {K : Type} (keq : K -> K -> bool) c k : incr keq c k <> [].
Proof. destruct c as [|[k' n] t]; simpl; [|destruct (keq k k')]; discriminate. Qed.

Lemma incr_all_not_empty {K : Type} (keq : K -> K -> bool) ks c :
  ks <> [] \/ c <> [] -> incr_all keq c ks <> [].
Proof.
  unfold incr_all. revert c. induction ks as [|k r IH]; intros c H; simpl.
  - tauto.
  - apply IH. right. apply incr_not_empty.
Qed.

Lemma global_edges_not_empty items it :
  In it (Analytics.fallback_population items) -> 2 <= len (tags it) ->
  Analytics.global_edges items <> [].
Proof.
  intros Hin H2. unfold Analytics.global_edges.
  apply incr_all_not_empty. left.
  induction (Analytics.fallback_population items) as [|x r IH]; [destruct Hin|].
  simpl. destruct Hin as [->|Hin].
  - unfold paired_tags.
    replace (len (tags it) <? 2) with false by (symmetry; apply Z.ltb_ge; lia).
    pose proof (@tag_pairs_not_empty (tags it) H2).
    destruct (tag_pairs (tags it)); [contradiction | discriminate].
  - specialize (IH Hin). destruct (paired_tags x); [exact IH | discriminate].
Qed.

Lemma most_common_not_empty {K : Type} n (c : list (K * Z)) :
  1 <= n -> c <> [] -> most_common n c <> [].
Proof.
  intros Hn Hc H. pose proof (most_common_length n c) as Hl.
  rewrite H in Hl. unfold len in Hl. simpl in Hl.
  destruct c; [contradiction|]. simpl in Hl. lia.
Qed.

(** The guarantee that C3 asks for holds when a record that the fallback
    ranks has two tags: a record with a time, or any record when none has
    a time. *)
Lemma ranked_pair_yields_edges (set_iter : list edge -> list edge)
    (items : list item) (recent_days historical_days top_n : Z) (it : item) :
  In it (Analytics.fallback_population items) -> 2 <= len (tags it) -> 1 <= top_n ->
  fst (Analytics.find_rising_edges set_iter items recent_days historical_days top_n)
  <> [].
Proof.
  intros Hin H2 Hn.
  destruct (Analytics.mode
              (snd (Analytics.find_rising_edges set_iter items recent_days
                      historical_days top_n))) eqn:Hm.
  - revert Hm. unfold Analytics.find_rising_edges.
    destruct (Analytics.items_with_time items); [simpl; discriminate|].
    destruct (_ || _); [simpl; discriminate|].
    destruct (Analytics.rising_edges set_iter _ _) as [|r rs]; [simpl; discriminate|].
    intros _. cbn [fst]. unfold slice_to.
    replace (top_n <? 0) with false by (symmetry; apply Z.ltb_ge; lia).
    destruct (Z.to_nat top_n) eqn:E; [lia|]. simpl. discriminate.
  - rewrite fallback_result by exact Hm.
    pose proof (most_common_not_empty Hn (global_edges_not_empty _ _ Hin H2)) as Hne.
    destruct (most_common top_n (Analytics.global_edges items));
      [contradiction | simpl; discriminate].
Qed.

(** * Further properties of the code *)

(** ** The graph that [build_graph] returns *)
Module GraphFacts.
Import Builder.

Lemma occurrences_zero_iff {K : Type} (keq : K -> K -> bool) (l : list K) k :
  (forall x y, keq x y = true <-> x = y) ->
  (occurrences keq k l = 0 <-> ~ In k l).
Proof.
  intros Hk. split.
  - intros H0 Hin. pose proof (occurrences_member keq l k Hk Hin). lia.
  - now apply occurrences_none.
Qed.

Lemma occurrences_nonzero_member {K : Type} (keq : K -> K -> bool) (l : list K) k :
  (forall x y, keq x y = true <-> x = y) ->
  occurrences keq k l <> 0 -> In k l.
Proof.
  intros Hk. unfold occurrences, len. induction l as [|x t IH]; simpl; [tauto|].
  destruct (keq k x) eqn:E.
  - intros _. left. symmetry. now apply Hk.
  - intros H. right. now apply IH.
Qed.

Lemma edge_present_iff items a b :
  edge_weight (edges (build_graph items)) a b <> None
  <-> In (edge_key a b) (flat_map paired_tags items).
Proof.
  rewrite build_graph_edge_weight.
  destruct (occurrences edge_eqb (edge_key a b) (flat_map paired_tags items) =? 0) eqn:E.
  - apply Z.eqb_eq in E. apply (occurrences_zero_iff edge_eqb _ _ edge_eqb_eq) in E.
    split; [congruence | contradiction].
  - apply Z.eqb_neq in E. split; [|discriminate].
    intros _. exact (occurrences_nonzero_member edge_eqb _ _ edge_eqb_eq E).
Qed.

Lemma counter_positive {K : Type} (keq : K -> K -> bool) (ks : list K) c :
  Forall (fun p => 1 <= snd p) c ->
  Forall (fun p => 1 <= snd p) (incr_all keq c ks).
Proof.
  unfold incr_all. revert c. induction ks as [|k r IH]; intros c Hc; [exact Hc|].
  simpl. apply IH. clear IH.
  induction c as [|[k' n] t IHc]; simpl.
  - repeat constructor. simpl. lia.
  - inversion Hc as [|? ? Hn Ht]; subst. simpl in Hn.
    destruct (keq k k'); constructor; simpl; auto; lia.
Qed.

Lemma member_in_some_pair {A : Type} (l : list A) x :
  (2 <= List.length l)%nat -> In x l ->
  exists a b, In (a, b) (combinations2 l) /\ (x = a \/ x = b).
Proof.
  induction l as [|h t IH]; simpl; [lia|].
  intros Hlen [->|Hin].
  - destruct t as [|y t']; [simpl in Hlen; lia|].
    exists x, y. split; [simpl; now left | now left].
  - destruct t as [|y t']; [destruct Hin|].
    destruct t' as [|z t''].
    + destruct Hin as [->|[]]. exists h, x. split; [simpl; now left | now right].
    + destruct IH as [a [b [Hp Hx]]]; [simpl; lia | exact Hin |].
      exists a, b. split; [|exact Hx]. apply in_or_app. now right.
Qed.

End GraphFacts.

Import GraphFacts.

(** X1: the graph is undirected, and for two distinct tags it has an edge
    exactly when some record lists both, whatever the records repeat; the
    weight of an edge is at least 1. *)
Theorem build_graph_edge_iff (items : list item) (a b : tag) :
  let g := Builder.build_graph items in
  Builder.edge_weight (Builder.edges g) a b = Builder.edge_weight (Builder.edges g) b a /\
  (a <> b ->
   (Builder.edge_weight (Builder.edges g) a b <> None
    <-> exists it, In it items /\ In a (tags it) /\ In b (tags it))) /\
  (forall w, Builder.edge_weight (Builder.edges g) a b = Some w -> 1 <= w).
Proof.
  intros g. subst g. split; [|split].
  - rewrite !build_graph_edge_weight. now rewrite (edge_key_sym a b).
  - intros Hne. rewrite edge_present_iff, In_paired_tags. split.
    + intros [it [Hin [_ Hp]]]. exists it. split; [exact Hin|].
      now apply tag_pairs_key_iff.
    + intros [it [Hin [Ha Hb]]]. exists it. split; [exact Hin|]. split.
      * exact (two_distinct_members _ Ha Hb Hne).
      * apply tag_pairs_key_iff; auto.
  - intros w. rewrite build_graph_edge_weight.
    destruct (_ =? 0) eqn:E; [discriminate|].
    apply Z.eqb_neq in E. intros H. inversion H; subst.
    unfold occurrences, len in *. lia.
Qed.

Lemma build_graph_edge_iff_witness :
  "c" <> "d" /\
  Builder.edge_weight (Builder.edges (Builder.build_graph Samples.tied)) "c" "d"
  <> None.
Proof.
  assert (Hne : "c" <> "d") by discriminate.
  split; [exact Hne|].
  destruct (build_graph_edge_iff Samples.tied "c" "d") as [_ [H _]].
  apply (H Hne).
  exists (mk_item (Some (100 * Samples.day)) ["c"; "d"]).
  split; [unfold Samples.tied; simpl; tauto | simpl; tauto].
Defined.

(** X2: the graph is well formed: both ends of every edge are nodes and
    the weight of every edge is at least 1; every node has a weight of at
    least 1, and every node is an end of some edge (no node is
    isolated). *)
Theorem build_graph_well_formed (items : list item) :
  let g := Builder.build_graph items in
  (forall a b w, Builder.edge_weight (Builder.edges g) a b = Some w ->
     In a (Builder.node_names g) /\ In b (Builder.node_names g) /\ 1 <= w) /\
  (forall t, In t (Builder.node_names g) ->
     exists w, Builder.node_weight (Builder.nodes g) t = Some w /\ 1 <= w) /\
  (forall t, In t (Builder.node_names g) ->
     exists b w, Builder.edge_weight (Builder.edges g) t b = Some w).
Proof.
  intros g.
  assert (Hnames : forall t, In t (Builder.node_names g)
                             <-> In t (keys (Builder.node_occurrences items))).
  { intros t. subst g. rewrite build_graph_counters.
    unfold Builder.node_names. cbn [Builder.nodes].
    rewrite map_map. reflexivity. }
  assert (Hedge : forall a b w,
             Builder.edge_weight (Builder.edges g) a b = Some w ->
             1 <= w /\ In (edge_key a b) (flat_map paired_tags items)).
  { intros a b w Hw. split.
    - subst g. rewrite build_graph_edge_weight in Hw.
      destruct (_ =? 0) eqn:E; [discriminate|].
      apply Z.eqb_neq in E. inversion Hw; subst.
      unfold occurrences, len in *. lia.
    - apply edge_present_iff. fold g. congruence. }
  split; [|split].
  - intros a b w Hw. destruct (Hedge a b w Hw) as [H1 Hin].
    apply In_paired_tags in Hin. destruct Hin as [it [Hit [H2 Hp]]].
    assert (Hab : In a (tags it) /\ In b (tags it)).
    { unfold edge_key in Hp. destruct (str_ltb b a);
        apply tag_pairs_members in Hp; tauto. }
    rewrite !Hnames, !node_occurrences_keys.
    split; [exists it; tauto|]. split; [exists it; tauto | exact H1].
  - intros t Hin. apply Hnames in Hin. subst g.
    rewrite build_graph_counters. cbn [Builder.nodes].
    rewrite node_weight_as_node by exact Hin.
    eexists. split; [reflexivity|].
    rewrite node_occurrences_counted, (get_incr_all String.eqb String.eqb_eq).
    simpl get. apply node_occurrences_keys, In_counted_tags in Hin.
    pose proof (occurrences_member String.eqb _ _ String.eqb_eq Hin). lia.
  - intros t Hin. apply Hnames, node_occurrences_keys in Hin.
    destruct Hin as [it [Hit [H2 Ht]]].
    destruct (@member_in_some_pair _ (sorted (tags it)) t) as [a [b [Hp Hab]]].
    + unfold sorted. rewrite sort_length. unfold len, tag in *. lia.
    + unfold sorted. now apply sort_In.
    + assert (Hord : str_ltb b a = false) by (now apply tag_pairs_ordered in Hp).
      assert (Hkey : edge_key a b = (a, b)) by (unfold edge_key; now rewrite Hord).
      assert (Hpres : Builder.edge_weight (Builder.edges g) a b <> None).
      { subst g. apply edge_present_iff. rewrite Hkey.
        apply In_paired_tags. exists it. tauto. }
      assert (Hsym : Builder.edge_weight (Builder.edges g) b a
                     = Builder.edge_weight (Builder.edges g) a b).
      { subst g. rewrite !build_graph_edge_weight. now rewrite (edge_key_sym b a). }
      destruct (Builder.edge_weight (Builder.edges g) a b) as [w|] eqn:Ew;
        [|congruence].
      destruct Hab as [->| ->].
      * exists b, w. exact Ew.
      * exists a, w. exact Hsym.
Qed.

(** X3: the graph has no node exactly when no record has two tags, and
    then it has no edge either. *)
Theorem build_graph_empty_iff (items : list item) :
  let g := Builder.build_graph items in
  (Builder.nodes g = [] <-> Forall (fun it => len (tags it) < 2) items) /\
  (Builder.nodes g = [] -> Builder.edges g = []).
Proof.
  intros g.
  assert (Hn : Builder.nodes g = [] <-> Forall (fun it => len (tags it) < 2) items).
  { subst g. rewrite build_graph_counters. cbn [Builder.nodes]. split.
    - intros E. apply Forall_forall. intros it Hit.
      destruct (Z.lt_ge_cases (len (tags it)) 2) as [H|H]; [exact H|exfalso].
      destruct (tags it) as [|t ts] eqn:Et; [unfold len in H; simpl in H; lia|].
      assert (Hin : In t (keys (Builder.node_occurrences items))).
      { apply node_occurrences_keys. exists it. rewrite Et. simpl. tauto. }
      unfold keys in Hin. apply map_eq_nil in E. rewrite E in Hin. exact Hin.
    - intros Hall.
      destruct (Builder.node_occurrences items) as [|[t n] r] eqn:E; [reflexivity|].
      exfalso.
      assert (Hin : In t (keys (Builder.node_occurrences items)))
        by (rewrite E; now left).
      apply node_occurrences_keys in Hin. destruct Hin as [it [Hit [H2 _]]].
      rewrite Forall_forall in Hall. specialize (Hall it Hit). lia. }
  split; [exact Hn|].
  intros E. apply Hn in E. subst g. rewrite build_graph_counters. cbn [Builder.edges].
  destruct (Builder.edge_weights items) as [|[e w] r] eqn:Ee; [reflexivity|].
  exfalso.
  assert (Hin : In e (keys (Builder.edge_weights items))) by (rewrite Ee; now left).
  apply edge_weights_keys in Hin. destruct Hin as [it [Hit [H2 _]]].
  rewrite Forall_forall in E. specialize (E it Hit). lia.
Qed.

(** ** The order of the tags within a record *)
Module OrderFacts.

Lemma sorted_unique (l1 l2 : list string) :
  StronglySorted (fun a b => str_ltb b a = false) l1 ->
  StronglySorted (fun a b => str_ltb b a = false) l2 ->
  Permutation l1 l2 -> l1 = l2.
Proof.
  intros H1. revert l2. induction H1 as [|x t1 Hs1 IH Hx]; intros l2 H2 Hp.
  - apply Permutation_nil in Hp. now subst.
  - destruct l2 as [|y t2].
    { apply Permutation_sym, Permutation_nil in Hp. discriminate. }
    inversion H2 as [|? ? Hs2 Hy]; subst.
    assert (E : x = y).
    { assert (Hxin : In x (y :: t2)) by (apply (Permutation_in _ Hp); now left).
      assert (Hyin : In y (x :: t1))
        by (apply (Permutation_in _ (Permutation_sym Hp)); now left).
      destruct Hxin as [->|Hxin]; [reflexivity|].
      destruct Hyin as [->|Hyin]; [reflexivity|].
      rewrite Forall_forall in Hx, Hy.
      specialize (Hx y Hyin). specialize (Hy x Hxin).
      destruct (String.string_dec x y) as [E|N]; [exact E|].
      destruct (str_ltb_total N); congruence. }
    subst y. f_equal. apply IH; [exact Hs2|].
    exact (Permutation_cons_inv Hp).
Qed.

Lemma sorted_permutation (ts ts' : list tag) :
  Permutation ts ts' -> sorted ts = sorted ts'.
Proof.
  intros Hp. apply sorted_unique; try apply sorted_strings.
  unfold sorted.
  eapply perm_trans; [apply sort_perm|].
  eapply perm_trans; [exact Hp|]. apply Permutation_sym, sort_perm.
Qed.

Lemma paired_tags_reordered it it' :
  reordered_tags it it' -> paired_tags it = paired_tags it'.
Proof.
  intros [_ Hp]. unfold paired_tags, tag_pairs, len.
  now rewrite (Permutation_length Hp), (sorted_permutation Hp).
Qed.

Lemma occurrences_permutation {K : Type} (keq : K -> K -> bool) (l l' : list K) k :
  Permutation l l' -> occurrences keq k l = occurrences keq k l'.
Proof.
  intros Hp. unfold occurrences, len. f_equal.
  induction Hp; simpl; try (destruct (keq k x)); try (destruct (keq k y));
    simpl; congruence.
Qed.

Lemma counted_tags_reordered it it' :
  reordered_tags it it' -> Permutation (counted_tags it) (counted_tags it').
Proof.
  intros [_ Hp]. unfold counted_tags, len. rewrite (Permutation_length Hp).
  destruct (_ <? 2); [constructor | exact Hp].
Qed.

Lemma all_paired_tags_reordered items items' :
  Forall2 reordered_tags items items' ->
  flat_map paired_tags items = flat_map paired_tags items'.
Proof.
  induction 1 as [|it it' r r' H _ IH]; [reflexivity|].
  simpl. now rewrite (paired_tags_reordered H), IH.
Qed.

Lemma all_counted_tags_reordered items items' :
  Forall2 reordered_tags items items' ->
  Permutation (flat_map counted_tags items) (flat_map counted_tags items').
Proof.
  induction 1 as [|it it' r r' H _ IH]; [constructor|].
  simpl. apply Permutation_app; [now apply counted_tags_reordered | exact IH].
Qed.

(** The weight of a node, from the node counter. *)
Lemma node_weight_counted items t :
  Builder.node_weight (Builder.nodes (Builder.build_graph items)) t
  = if tag_occurrences items t =? 0 then None else Some (tag_occurrences items t).
Proof.
  rewrite build_graph_counters. cbn [Builder.nodes].
  assert (Hget : get String.eqb (Builder.node_occurrences items) t
                 = tag_occurrences items t).
  { rewrite node_occurrences_counted, (get_incr_all String.eqb String.eqb_eq).
    reflexivity. }
  destruct (tag_occurrences items t =? 0) eqn:E.
  - apply Z.eqb_eq in E.
    apply (GraphFacts.occurrences_zero_iff String.eqb _ _ String.eqb_eq) in E.
    assert (Hn : ~ In t (keys (Builder.node_occurrences items))).
    { rewrite node_occurrences_keys, <- In_counted_tags. exact E. }
    clear Hget. revert Hn. unfold keys.
    induction (Builder.node_occurrences items) as [|[t' n] r IH]; simpl;
      [reflexivity|].
    intros Hn. simpl in Hn. destruct (String.eqb t t') eqn:Et.
    + apply String.eqb_eq in Et. subst. tauto.
    + apply IH. tauto.
  - apply Z.eqb_neq in E.
    apply (GraphFacts.occurrences_nonzero_member String.eqb _ _ String.eqb_eq) in E.
    rewrite node_weight_as_node, Hget; [reflexivity|].
    rewrite node_occurrences_keys, <- In_counted_tags. exact E.
Qed.

Lemma items_with_time_reordered items items' :
  Forall2 reordered_tags items items' ->
  Forall2 reordered_timed (Analytics.items_with_time items)
          (Analytics.items_with_time items').
Proof.
  induction 1 as [|it it' r r' H _ IH]; [constructor|].
  unfold Analytics.items_with_time in *. simpl.
  destruct H as [Ht Hp]. rewrite <- Ht.
  destruct (time it) eqn:E; simpl; [|exact IH].
  constructor; [|exact IH]. split; [reflexivity|].
  split; simpl; [congruence | exact Hp].
Qed.

Lemma filter_reordered (P P' : item * Z -> bool) l l' :
  Forall2 reordered_timed l l' ->
  (forall p p', reordered_timed p p' -> P p = P' p') ->
  Forall2 reordered_timed (filter P l) (filter P' l').
Proof.
  intros H HP. induction H as [|p p' r r' Hpp _ IH]; [constructor|].
  simpl. rewrite (HP _ _ Hpp). destruct (P' p'); [constructor|]; assumption.
Qed.

Lemma timed_pairs_reordered l l' :
  Forall2 reordered_timed l l' ->
  flat_map paired_tags (map fst l) = flat_map paired_tags (map fst l').
Proof.
  induction 1 as [|p p' r r' [_ H] _ IH]; [reflexivity|].
  simpl. now rewrite (paired_tags_reordered H), IH.
Qed.

Lemma timed_times_reordered l l' :
  Forall2 reordered_timed l l' -> map snd l = map snd l'.
Proof.
  induction 1 as [|p p' r r' [H _] _ IH]; [reflexivity|].
  simpl. now rewrite H, IH.
Qed.

Lemma max_time_times l :
  Analytics.max_time l
  = match map snd l with
    | [] => 0
    | t :: r => fold_left Z.max r t
    end.
Proof. destruct l; reflexivity. Qed.

End OrderFacts.

Import OrderFacts.

Lemma windows_reordered items items' rd hd :
  Forall2 reordered_tags items items' ->
  let w := Analytics.windows_of items rd hd in
  let w' := Analytics.windows_of items' rd hd in
  Analytics.anchor_of items = Analytics.anchor_of items' /\
  Analytics.recent_edges w = Analytics.recent_edges w' /\
  Analytics.historical_edges w = Analytics.historical_edges w' /\
  Analytics.all_edges w = Analytics.all_edges w' /\
  len (Analytics.recent_items w) = len (Analytics.recent_items w') /\
  len (Analytics.historical_items w) = len (Analytics.historical_items w') /\
  len (Analytics.items_with_time items) = len (Analytics.items_with_time items').
Proof.
  intros H w w'. subst w w'.
  pose proof (items_with_time_reordered H) as F.
  assert (Ea : Analytics.anchor_of items = Analytics.anchor_of items').
  { unfold Analytics.anchor_of. rewrite !max_time_times.
    now rewrite (timed_times_reordered F). }
  assert (Er : forall p p', reordered_timed p p' ->
             Analytics.counted_recent (Analytics.recent_threshold items rd) p
             = Analytics.counted_recent (Analytics.recent_threshold items' rd) p').
  { intros p p' [Hs [_ Hp]]. unfold Analytics.counted_recent, Analytics.recent_threshold, len.
    now rewrite Ea, Hs, (Permutation_length Hp). }
  assert (Eh : forall p p', reordered_timed p p' ->
             Analytics.counted_historical (Analytics.recent_threshold items rd)
               (Analytics.historical_threshold items rd hd) p
             = Analytics.counted_historical (Analytics.recent_threshold items' rd)
                 (Analytics.historical_threshold items' rd hd) p').
  { intros p p' [Hs [_ Hp]].
    unfold Analytics.counted_historical, Analytics.recent_threshold,
      Analytics.historical_threshold, len.
    now rewrite Ea, Hs, (Permutation_length Hp). }
  pose proof (filter_reordered _ _ F Er) as Fr.
  pose proof (filter_reordered _ _ F Eh) as Fh.
  rewrite !windows_of_eq.
  cbn [Analytics.recent_edges Analytics.historical_edges Analytics.all_edges
       Analytics.recent_items Analytics.historical_items].
  unfold len. rewrite !length_map.
  rewrite (timed_pairs_reordered Fr), (timed_pairs_reordered Fh),
    (timed_pairs_reordered F).
  rewrite (Forall2_length Fr), (Forall2_length Fh), (Forall2_length F).
  repeat split; assumption || reflexivity.
Qed.

(** ** The order of the records *)
Module RecordOrderFacts.

Lemma flat_map_permutation {A B : Type} (f : A -> list B) (l l' : list A) :
  Permutation l l' -> Permutation (flat_map f l) (flat_map f l').
Proof.
  induction 1 as [|x l l' _ IH|x y l|l l' l'' _ IH1 _ IH2]; simpl.
  - constructor.
  - now apply Permutation_app_head.
  - rewrite !app_assoc. apply Permutation_app_tail, Permutation_app_comm.
  - eapply perm_trans; eassumption.
Qed.

Lemma filter_permutation {A : Type} (f : A -> bool) (l l' : list A) :
  Permutation l l' -> Permutation (filter f l) (filter f l').
Proof.
  induction 1 as [|x l l' _ IH|x y l|l l' l'' _ IH1 _ IH2]; simpl.
  - constructor.
  - destruct (f x); [now constructor | exact IH].
  - destruct (f x), (f y); try apply Permutation_refl. apply perm_swap.
  - eapply perm_trans; eassumption.
Qed.

Lemma fold_max_bounds (r : list Z) (t : Z) :
  t <= fold_left Z.max r t /\
  (forall x, In x r -> x <= fold_left Z.max r t) /\
  In (fold_left Z.max r t) (t :: r).
Proof.
  revert t. induction r as [|y r IH]; intros t; simpl.
  - split; [lia|]. split; [tauto | now left].
  - destruct (IH (Z.max t y)) as [H1 [H2 H3]]. split; [lia|]. split.
    + intros x [<-|Hx]; [lia | now apply H2].
    + destruct H3 as [H3|H3]; [|tauto].
      rewrite <- H3. destruct (Z.max_spec t y) as [[_ ->]|[_ ->]]; tauto.
Qed.

(** The anchor is the largest of the times, and one of them. *)
Lemma max_time_bounds (l : list (item * Z)) :
  l <> [] ->
  (forall p, In p l -> snd p <= Analytics.max_time l) /\
  In (Analytics.max_time l) (map snd l).
Proof.
  destruct l as [|p r]; [congruence|]. intros _. unfold Analytics.max_time.
  destruct (fold_max_bounds (map snd r) (snd p)) as [H1 [H2 H3]]. split.
  - intros q [<-|Hq]; [exact H1|]. apply H2. now apply in_map.
  - exact H3.
Qed.

Lemma max_time_permutation (l l' : list (item * Z)) :
  Permutation l l' -> Analytics.max_time l = Analytics.max_time l'.
Proof.
  intros Hp. destruct l as [|p r].
  - apply Permutation_nil in Hp. now subst.
  - assert (Hl : p :: r <> []) by discriminate.
    assert (Hl' : l' <> []).
    { intros ->. apply Permutation_sym, Permutation_nil in Hp. discriminate. }
    destruct (max_time_bounds Hl) as [Hu Hm].
    destruct (max_time_bounds Hl') as [Hu' Hm'].
    apply in_map_iff in Hm. destruct Hm as [q [Eq Hq]].
    apply in_map_iff in Hm'. destruct Hm' as [q' [Eq' Hq']].
    apply (Permutation_in _ Hp) in Hq.
    apply (Permutation_in _ (Permutation_sym Hp)) in Hq'.
    specialize (Hu' q Hq). specialize (Hu q' Hq'). lia.
Qed.

Lemma distinct_keys_permutation (l l' : list edge) :
  Permutation l l' ->
  len (incr_all edge_eqb [] l) = len (incr_all edge_eqb [] l').
Proof.
  intros Hp. unfold len. f_equal.
  rewrite <- (length_map fst (incr_all edge_eqb [] l)),
          <- (length_map fst (incr_all edge_eqb [] l')).
  apply Permutation_length, NoDup_Permutation.
  - apply (NoDup_keys_incr_all edge_eqb edge_eqb_eq). constructor.
  - apply (NoDup_keys_incr_all edge_eqb edge_eqb_eq). constructor.
  - intros e.
    change (In e (keys (incr_all edge_eqb [] l))
            <-> In e (keys (incr_all edge_eqb [] l'))).
    rewrite !(In_keys_incr_all edge_eqb edge_eqb_eq). simpl.
    split; intros [H|[]]; left;
      [apply (Permutation_in _ Hp) | apply (Permutation_in _ (Permutation_sym Hp))];
      exact H.
Qed.

Lemma rising_empty_iff set_iter (re he : Analytics.edge_counter) :
  Analytics.set_iteration set_iter ->
  (Analytics.rising_edges set_iter re he = [] <->
   forall e, In e (keys re) \/ In e (keys he) ->
             Analytics.qualifies (get edge_eqb re e) (get edge_eqb he e) = false).
Proof.
  intros Hs. split; [|now apply nothing_rises].
  intros E e He.
  destruct (Analytics.qualifies (get edge_eqb re e) (get edge_eqb he e)) eqn:Q;
    [exfalso | reflexivity].
  assert (Hin : In (fst e, snd e, Analytics.growth (get edge_eqb re e) (get edge_eqb he e),
                    Analytics.RisingDetails (get edge_eqb re e) (get edge_eqb he e)
                      (Analytics.growth (get edge_eqb re e) (get edge_eqb he e)))
                   (Analytics.rising_edges set_iter re he)).
  { apply rising_edges_In. exists e. split.
    - apply (proj2 (Hs _)). now apply in_or_app.
    - apply rising_entry_In. auto. }
  rewrite E in Hin. exact Hin.
Qed.

End RecordOrderFacts.

Import RecordOrderFacts.

Lemma find_rising_edges_stats set_iter items rd hd n :
  snd (Analytics.find_rising_edges set_iter items rd hd n)
  = match Analytics.items_with_time items with
    | [] => Analytics.mk_stats Analytics.NotAvailable 0 0 (len items) None None
                               Analytics.Fallback
    | _ :: _ =>
        let w := Analytics.windows_of items rd hd in
        let stats := Analytics.initial_stats items rd hd in
        if (Analytics.recent_count stats <? 5) || (Analytics.historical_count stats <? 5)
        then Analytics.set_mode stats Analytics.Fallback
        else match Analytics.rising_edges set_iter (Analytics.recent_edges w)
                                          (Analytics.historical_edges w) with
             | [] => Analytics.set_mode stats Analytics.Fallback
             | _ :: _ => stats
             end
    end.
Proof.
  unfold Analytics.find_rising_edges.
  destruct (Analytics.items_with_time items); [reflexivity|].
  cbv zeta. destruct (_ || _); [reflexivity|].
  destruct (Analytics.rising_edges set_iter _ _); reflexivity.
Qed.

Lemma windows_permuted items items' rd hd :
  Permutation items items' ->
  let w := Analytics.windows_of items rd hd in
  let w' := Analytics.windows_of items' rd hd in
  Analytics.initial_stats items rd hd = Analytics.initial_stats items' rd hd /\
  (forall e, get edge_eqb (Analytics.recent_edges w) e
             = get edge_eqb (Analytics.recent_edges w') e) /\
  (forall e, get edge_eqb (Analytics.historical_edges w) e
             = get edge_eqb (Analytics.historical_edges w') e) /\
  (forall e, get edge_eqb (Analytics.all_edges w) e
             = get edge_eqb (Analytics.all_edges w') e) /\
  (forall e, In e (keys (Analytics.recent_edges w))
             <-> In e (keys (Analytics.recent_edges w'))) /\
  (forall e, In e (keys (Analytics.historical_edges w))
             <-> In e (keys (Analytics.historical_edges w'))).
Proof.
  intros Hp w w'. subst w w'.
  assert (P : Permutation (Analytics.items_with_time items)
                          (Analytics.items_with_time items'))
    by (apply flat_map_permutation, Hp).
  assert (Ea : Analytics.anchor_of items = Analytics.anchor_of items')
    by (apply max_time_permutation, P).
  assert (Ert : Analytics.recent_threshold items rd = Analytics.recent_threshold items' rd)
    by (unfold Analytics.recent_threshold; now rewrite Ea).
  assert (Eht : Analytics.historical_threshold items rd hd
                = Analytics.historical_threshold items' rd hd)
    by (unfold Analytics.historical_threshold; now rewrite Ea).
  unfold Analytics.initial_stats. rewrite !windows_of_eq. cbv zeta.
  cbn [Analytics.recent_edges Analytics.historical_edges Analytics.all_edges
       Analytics.recent_items Analytics.historical_items].
  rewrite <- Ert, <- Eht, <- Ea.
  set (rt := Analytics.recent_threshold items rd).
  set (ht := Analytics.historical_threshold items rd hd).
  assert (Pr : Permutation
                 (map fst (filter (Analytics.counted_recent rt)
                                  (Analytics.items_with_time items)))
                 (map fst (filter (Analytics.counted_recent rt)
                                  (Analytics.items_with_time items'))))
    by (apply Permutation_map, filter_permutation, P).
  assert (Ph : Permutation
                 (map fst (filter (Analytics.counted_historical rt ht)
                                  (Analytics.items_with_time items)))
                 (map fst (filter (Analytics.counted_historical rt ht)
                                  (Analytics.items_with_time items'))))
    by (apply Permutation_map, filter_permutation, P).
  assert (Pa : Permutation (map fst (Analytics.items_with_time items))
                           (map fst (Analytics.items_with_time items')))
    by (apply Permutation_map, P).
  pose proof (flat_map_permutation paired_tags Pr) as Lr.
  pose proof (flat_map_permutation paired_tags Ph) as Lh.
  pose proof (flat_map_permutation paired_tags Pa) as La.
  split; [|repeat split].
  - rewrite (distinct_keys_permutation Lr), (distinct_keys_permutation Lh).
    unfold len. now rewrite (Permutation_length Pr), (Permutation_length Ph),
                      (Permutation_length P).
  - intros e. rewrite !(get_incr_all edge_eqb edge_eqb_eq).
    now rewrite (occurrences_permutation edge_eqb e Lr).
  - intros e. rewrite !(get_incr_all edge_eqb edge_eqb_eq).
    now rewrite (occurrences_permutation edge_eqb e Lh).
  - intros e. rewrite !(get_incr_all edge_eqb edge_eqb_eq).
    now rewrite (occurrences_permutation edge_eqb e La).
  - rewrite !(In_keys_incr_all edge_eqb edge_eqb_eq). simpl.
    intros [H|[]]. left. exact (Permutation_in _ Lr H).
  - rewrite !(In_keys_incr_all edge_eqb edge_eqb_eq). simpl.
    intros [H|[]]. left. exact (Permutation_in _ (Permutation_sym Lr) H).
  - rewrite !(In_keys_incr_all edge_eqb edge_eqb_eq). simpl.
    intros [H|[]]. left. exact (Permutation_in _ Lh H).
  - rewrite !(In_keys_incr_all edge_eqb edge_eqb_eq). simpl.
    intros [H|[]]. left. exact (Permutation_in _ (Permutation_sym Lh) H).
Qed.

(** X6: when no record repeats a tag, an edge never weighs more than
    either of its ends: the records that list both tags are among the
    records that list one. *)
Theorem edge_weight_le_node_weight (items : list item) (a b : tag) (w : Z) :
  Forall unique_tags items ->
  Builder.edge_weight (Builder.edges (Builder.build_graph items)) a b = Some w ->
  exists wa wb,
    Builder.node_weight (Builder.nodes (Builder.build_graph items)) a = Some wa /\
    Builder.node_weight (Builder.nodes (Builder.build_graph items)) b = Some wb /\
    w <= wa /\ w <= wb.
Proof.
  intros Hu Hw.
  assert (Hne : a <> b).
  { intros ->.
    assert (Hp : Builder.edge_weight (Builder.edges (Builder.build_graph items)) b b
                 <> None) by congruence.
    apply edge_present_iff, In_paired_tags in Hp.
    destruct Hp as [it [Hit [_ Hp]]].
    rewrite Forall_forall in Hu. unfold edge_key in Hp.
    rewrite str_ltb_irrefl in Hp.
    exact (tag_pairs_distinct (Hu it Hit) Hp eq_refl). }
  rewrite build_graph_edge_weight in Hw. cbv zeta in Hw.
  rewrite (paired_tags_co_records Hu Hne) in Hw.
  destruct (co_records items a b =? 0) eqn:E; [discriminate|].
  apply Z.eqb_neq in E. inversion Hw; subst w. clear Hw.
  assert (Hle : forall x y, x <> y -> co_records items x y <= records_with_tag items x).
  { intros x y Hxy. unfold co_records, records_with_tag, len.
    apply inj_le, filter_length_le. intros it Hit.
    apply andb_true_iff in Hit. destruct Hit as [Hx Hy].
    rewrite Hx. simpl. apply Z.leb_le.
    apply has_tag_In in Hx, Hy. exact (two_distinct_members _ Hx Hy Hxy). }
  assert (Hsym : co_records items a b = co_records items b a).
  { unfold co_records. f_equal. apply filter_ext. intros it.
    apply andb_comm. }
  pose proof (Hle a b Hne) as Ha.
  assert (Hb : co_records items a b <= records_with_tag items b)
    by (rewrite Hsym; apply Hle; congruence).
  assert (Hpos : 0 <= co_records items a b) by (unfold co_records, len; lia).
  exists (records_with_tag items a), (records_with_tag items b).
  rewrite !OrderFacts.node_weight_counted, !(tag_occurrences_unique _ Hu).
  replace (records_with_tag items a =? 0) with false
    by (symmetry; apply Z.eqb_neq; lia).
  replace (records_with_tag items b =? 0) with false
    by (symmetry; apply Z.eqb_neq; lia).
  auto.
Qed.

Lemma edge_weight_le_node_weight_witness :
  exists wa wb,
    Builder.node_weight (Builder.nodes (Builder.build_graph Samples.tied)) "c" = Some wa /\
    Builder.node_weight (Builder.nodes (Builder.build_graph Samples.tied)) "d" = Some wb /\
    6 <= wa /\ 6 <= wb.
Proof.
  assert (Hw : Builder.edge_weight (Builder.edges (Builder.build_graph Samples.tied))
                                   "c" "d" = Some 6) by (vm_compute; reflexivity).
  exact (@edge_weight_le_node_weight Samples.tied "c" "d" 6 samples_tied_unique Hw).
Defined.

(** X7: [get_top_nodes(n)] on the graph that [build_graph] returns, for
    [n >= 0]: it lists tags of the graph with their node weight, heaviest
    first; it has [n] entries, or all the nodes when there are fewer; and
    no node left out is heavier than a node listed. *)
Theorem get_top_nodes_ranked (items : list item) (n : Z) :
  0 <= n ->
  let g := Builder.build_graph items in
  let top := BuilderQueries.get_top_nodes g n in
  StronglySorted (fun p q => snd q <= snd p) top /\
  (forall t w, In (t, w) top ->
     Builder.node_weight (Builder.nodes g) t = Some w /\ w = tag_occurrences items t) /\
  len top = Z.min n (len (Builder.nodes g)) /\
  (forall t w t' w', In (t, w) top ->
     Builder.node_weight (Builder.nodes g) t' = Some w' ->
     ~ In (t', w') top -> w' <= w).
Proof.
  intros Hn g top.
  assert (Enodes : Builder.nodes g = map Builder.as_node (Builder.node_occurrences items))
    by (subst g; now rewrite build_graph_counters).
  assert (Enw : BuilderQueries.node_weights g = Builder.node_occurrences items).
  { unfold BuilderQueries.node_weights. rewrite Enodes, map_map.
    rewrite <- (map_id (Builder.node_occurrences items)) at 2.
    apply map_ext. intros [t w]. reflexivity. }
  assert (Etop : top = firstn (Z.to_nat n)
                         (sort by_count_desc (Builder.node_occurrences items))).
  { subst top. unfold BuilderQueries.get_top_nodes. rewrite Enw.
    unfold slice_to. replace (n <? 0) with false by (symmetry; apply Z.ltb_ge; lia).
    destruct (Builder.nodes g) eqn:E; [|reflexivity].
    symmetry in Enodes. apply map_eq_nil in Enodes. rewrite Enodes. simpl.
    now rewrite firstn_nil. }
  assert (Hmem : forall t w, In (t, w) (Builder.node_occurrences items) ->
            Builder.node_weight (Builder.nodes g) t = Some w /\ w = tag_occurrences items t).
  { intros t w Hin.
    assert (Hk : In t (keys (Builder.node_occurrences items)))
      by (change t with (fst (t, w)); now apply in_map).
    rewrite Enodes, node_weight_as_node by exact Hk.
    rewrite (@get_In_keys _ String.eqb String.eqb_eq _ t w
               (node_occurrences_NoDup items) Hin).
    split; [reflexivity|].
    rewrite <- (@get_In_keys _ String.eqb String.eqb_eq _ t w
                  (node_occurrences_NoDup items) Hin).
    rewrite node_occurrences_counted, (get_incr_all String.eqb String.eqb_eq).
    reflexivity. }
  rewrite Etop. split; [apply sorted_firstn, by_count_sorted|]. split; [|split].
  - intros t w Hin. apply In_firstn, sort_In in Hin. now apply Hmem.
  - unfold len. rewrite length_firstn, sort_length, Enodes, length_map. lia.
  - intros t w t' w' Hin Hw' Hout.
    assert (Hin' : In (t', w') (Builder.node_occurrences items)).
    { rewrite Enodes in Hw'. clear - Hw'.
      induction (Builder.node_occurrences items) as [|[t0 n0] r IH]; simpl in *;
        [discriminate|].
      destruct (String.eqb t' t0) eqn:E.
      - apply String.eqb_eq in E. subst. inversion Hw'. now left.
      - right. now apply IH. }
    apply (sort_In by_count_desc) in Hin'.
    rewrite <- (firstn_skipn (Z.to_nat n)) in Hin'.
    apply in_app_or in Hin'. destruct Hin' as [H|H]; [contradiction|].
    exact (@sorted_prefix_dominates _ (fun p q => snd q <= snd p) _ (Z.to_nat n)
             (t, w) (t', w') (by_count_sorted _) Hin H).
Qed.

Lemma get_top_nodes_ranked_witness :
  0 <= 2 /\
  BuilderQueries.get_top_nodes (Builder.build_graph Samples.tied) 2
  = [("c", 6); ("d", 6)] /\
  len (BuilderQueries.get_top_nodes (Builder.build_graph Samples.tied) 2)
  = Z.min 2 (len (Builder.nodes (Builder.build_graph Samples.tied))).
Proof.
  assert (Hn : 0 <= 2) by lia.
  split; [exact Hn|]. split; [vm_compute; reflexivity|].
  destruct (@get_top_nodes_ranked Samples.tied 2 Hn) as [_ [_ [Hlen _]]].
  exact Hlen.
Defined.

(** ** The result of [find_rising_edges] *)
Module ResultFacts.

Lemma NoDup_firstn {A : Type} (l : list A) k : NoDup l -> NoDup (firstn k l).
Proof.
  intros H. revert k. induction H as [|x t Hx Hnd IH]; intros k.
  - rewrite firstn_nil. constructor.
  - destruct k as [|k]; simpl; constructor; [|apply IH].
    intros Hin. apply Hx. now apply In_firstn in Hin.
Qed.

Lemma paired_keys_ordered (L : list item) e :
  In e (keys (incr_all edge_eqb [] (flat_map paired_tags L))) ->
  str_ltb (snd e) (fst e) = false.
Proof.
  rewrite (In_keys_incr_all edge_eqb edge_eqb_eq). simpl. intros [H|[]].
  apply In_paired_tags in H. destruct H as [it [_ [_ Hp]]].
  destruct e as [a b]. simpl. now apply tag_pairs_ordered in Hp.
Qed.

Lemma fallback_edges (c : Analytics.edge_counter) n :
  map Analytics.entry_edge (map Analytics.fallback_entry (most_common n c))
  = map fst (most_common n c).
Proof.
  rewrite map_map. apply map_ext. intros [[a b] k]. reflexivity.
Qed.

Lemma most_common_keys_NoDup (c : Analytics.edge_counter) n :
  NoDup (keys c) -> NoDup (map fst (most_common n c)).
Proof.
  intros H. unfold most_common. destruct (n <=? 0); [constructor|].
  rewrite <- firstn_map. apply NoDup_firstn.
  eapply Permutation_NoDup; [|exact H].
  apply Permutation_sym, Permutation_map, sort_perm.
Qed.

Lemma rising_entry_edges (re he : Analytics.edge_counter) (S : list edge) :
  map Analytics.entry_edge (flat_map (Analytics.rising_entry re he) S)
  = filter (fun e => Analytics.qualifies (get edge_eqb re e) (get edge_eqb he e)) S.
Proof.
  induction S as [|e r IH]; [reflexivity|].
  simpl. rewrite map_app, IH. unfold Analytics.rising_entry.
  destruct (Analytics.qualifies _ _); [|reflexivity].
  simpl. unfold Analytics.entry_edge. simpl. now rewrite <- surjective_pairing.
Qed.

Lemma rising_edges_keys_NoDup set_iter (re he : Analytics.edge_counter) :
  Analytics.set_iteration set_iter ->
  NoDup (map Analytics.entry_edge (Analytics.rising_edges set_iter re he)).
Proof.
  intros Hs. unfold Analytics.rising_edges.
  eapply Permutation_NoDup.
  - apply Permutation_sym, Permutation_map, sort_perm.
  - rewrite rising_entry_edges. apply NoDup_filter. apply (proj1 (Hs _)).
Qed.

Lemma window_keys_ordered items rd hd e :
  let w := Analytics.windows_of items rd hd in
  In e (keys (Analytics.recent_edges w)) \/ In e (keys (Analytics.historical_edges w)) ->
  str_ltb (snd e) (fst e) = false.
Proof.
  intros w. subst w. rewrite windows_of_eq.
  cbn [Analytics.recent_edges Analytics.historical_edges].
  intros [H|H]; exact (paired_keys_ordered _ _ H).
Qed.

Lemma disjoint_filters_length {A : Type} (P Q : A -> bool) (l : list A) :
  (forall x, P x = true -> Q x = false) ->
  (List.length (filter P l) + List.length (filter Q l) <= List.length l)%nat.
Proof.
  intros H. induction l as [|x t IH]; simpl; [lia|].
  destruct (P x) eqn:E.
  - rewrite (H x E). simpl. lia.
  - destruct (Q x); simpl; lia.
Qed.

Lemma disjoint_filters_occurrences (P Q : item * Z -> bool) (l : list (item * Z)) e :
  (forall x, P x = true -> Q x = false) ->
  occurrences edge_eqb e (flat_map paired_tags (map fst (filter P l)))
  + occurrences edge_eqb e (flat_map paired_tags (map fst (filter Q l)))
  <= occurrences edge_eqb e (flat_map paired_tags (map fst l)).
Proof.
  intros H. induction l as [|x t IH]; simpl; [unfold occurrences, len; simpl; lia|].
  rewrite occurrences_app.
  assert (Hpos : 0 <= occurrences edge_eqb e (paired_tags (fst x)))
    by (unfold occurrences, len; lia).
  destruct (P x) eqn:E.
  - rewrite (H x E). simpl. rewrite occurrences_app. lia.
  - destruct (Q x); simpl; [rewrite occurrences_app|]; lia.
Qed.

Lemma recent_not_historical rt ht x :
  Analytics.counted_recent rt x = true -> Analytics.counted_historical rt ht x = false.
Proof.
  unfold Analytics.counted_recent, Analytics.counted_historical.
  rewrite andb_true_iff, Z.leb_le. intros [_ Hle].
  replace (snd x <? rt) with false by (symmetry; apply Z.ltb_ge; lia).
  now rewrite andb_false_r.
Qed.

Lemma window_counts_le items rd hd :
  let stats := Analytics.initial_stats items rd hd in
  Analytics.recent_count stats + Analytics.historical_count stats
  <= Analytics.total_count stats.
Proof.
  intros stats. subst stats. unfold Analytics.initial_stats.
  rewrite windows_of_eq. cbv zeta.
  cbn [Analytics.recent_count Analytics.historical_count Analytics.total_count
       Analytics.recent_items Analytics.historical_items].
  unfold len. rewrite !length_map.
  pose proof (disjoint_filters_length _ _ (Analytics.items_with_time items)
                (recent_not_historical (Analytics.recent_threshold items rd)
                   (Analytics.historical_threshold items rd hd))).
  lia.
Qed.

End ResultFacts.

Import ResultFacts.

(** X8: the shape of every result of [find_rising_edges], for
    [top_n >= 0]: it has at most [top_n] entries; each entry names its pair
    with the smaller tag first; and no pair is named twice, in either
    order. *)
Theorem result_shape (set_iter : list edge -> list edge) (items : list item)
    (recent_days historical_days top_n : Z) :
  Analytics.set_iteration set_iter -> 0 <= top_n ->
  let res := Analytics.find_rising_edges set_iter items recent_days historical_days
                                         top_n in
  len (fst res) <= top_n /\
  Forall (fun en => str_ltb (snd (Analytics.entry_edge en))
                            (fst (Analytics.entry_edge en)) = false) (fst res) /\
  NoDup (map Analytics.entry_edge (fst res)) /\
  (forall en en', In en (fst res) -> In en' (fst res) ->
     Analytics.entry_edge en
     <> (snd (Analytics.entry_edge en'), fst (Analytics.entry_edge en'))
     \/ fst (Analytics.entry_edge en) = snd (Analytics.entry_edge en)).
Proof.
  intros Hs Hn res.
  assert (Hshape : len (fst res) <= top_n /\
            Forall (fun en => str_ltb (snd (Analytics.entry_edge en))
                                      (fst (Analytics.entry_edge en)) = false) (fst res) /\
            NoDup (map Analytics.entry_edge (fst res))).
  { destruct (Analytics.mode (snd res)) eqn:Hm; subst res.
    - destruct (rising_result _ _ _ _ _ Hm) as [_ [_ E]]. rewrite E. cbn [fst].
      unfold slice_to. replace (top_n <? 0) with false by (symmetry; apply Z.ltb_ge; lia).
      split; [|split].
      + unfold len. rewrite length_firstn. lia.
      + apply Forall_forall. intros en Hen. apply In_firstn in Hen.
        apply rising_edges_In in Hen. destruct Hen as [e [He Hen]].
        apply (proj1 (proj2 (Hs _) e)) in He. apply in_app_or in He.
        apply rising_entry_In in Hen. destruct Hen as [_ ->].
        unfold Analytics.entry_edge. cbn [fst snd].
        exact (window_keys_ordered items recent_days historical_days e He).
      + rewrite <- firstn_map. apply NoDup_firstn, rising_edges_keys_NoDup, Hs.
    - rewrite fallback_result by exact Hm. split; [|split].
      + unfold len. rewrite length_map.
        pose proof (most_common_length top_n (Analytics.global_edges items)) as Hl.
        unfold len in Hl. lia.
      + apply Forall_forall. intros en Hen.
        apply in_map_iff in Hen. destruct Hen as [[[a b] k] [<- Hp]].
        apply most_common_In in Hp.
        unfold Analytics.entry_edge, Analytics.fallback_entry. cbn [fst snd].
        apply (paired_keys_ordered (Analytics.fallback_population items) (a, b)).
        change (a, b) with (fst ((a, b), k)). now apply in_map.
      + rewrite fallback_edges.
        apply most_common_keys_NoDup, global_edges_NoDup. }
  destruct Hshape as [H1 [H2 H3]]. repeat split; try assumption.
  intros en en' Hen Hen'.
  rewrite Forall_forall in H2.
  pose proof (H2 en Hen) as Ho. pose proof (H2 en' Hen') as Ho'.
  destruct (Analytics.entry_edge en) as [a b].
  destruct (Analytics.entry_edge en') as [c d]. cbn [fst snd] in *.
  destruct (String.string_dec a b) as [E|N]; [now right|]. left.
  intros Hsw. inversion Hsw; subst.
  destruct (str_ltb_total N); congruence.
Qed.

Lemma result_shape_witness :
  0 <= 1 /\
  len (fst (Analytics.find_rising_edges Analytics.first_seen Samples.tied 7 30 1)) <= 1.
Proof.
  assert (Hn : 0 <= 1) by lia.
  split; [exact Hn|].
  destruct (@result_shape Analytics.first_seen Samples.tied 7 30 1
              first_seen_iteration Hn) as [H _].
  exact H.
Defined.

(** X9: the windows account for the records and the pairs they hold.
    The recent and the historical count together never exceed the number of
    records with a time; and for every pair, the recent weight and the
    historical weight are not negative and together never exceed the
    global weight that a fallback reports as [total_count]. *)
Theorem window_accounting (items : list item) (recent_days historical_days : Z)
    (e : edge) :
  let w := Analytics.windows_of items recent_days historical_days in
  let stats := Analytics.initial_stats items recent_days historical_days in
  Analytics.recent_count stats + Analytics.historical_count stats
  <= Analytics.total_count stats /\
  0 <= get edge_eqb (Analytics.recent_edges w) e /\
  0 <= get edge_eqb (Analytics.historical_edges w) e /\
  get edge_eqb (Analytics.recent_edges w) e
  + get edge_eqb (Analytics.historical_edges w) e
  <= get edge_eqb (Analytics.all_edges w) e.
Proof.
  intros w stats. split; [apply window_counts_le|].
  subst w. rewrite windows_of_eq.
  cbn [Analytics.recent_edges Analytics.historical_edges Analytics.all_edges].
  rewrite !(get_incr_all edge_eqb edge_eqb_eq). simpl get.
  split; [|split].
  - unfold occurrences, len. lia.
  - unfold occurrences, len. lia.
  - pose proof (disjoint_filters_occurrences _ _ (Analytics.items_with_time items) e
                  (recent_not_historical (Analytics.recent_threshold items recent_days)
                     (Analytics.historical_threshold items recent_days historical_days))).
    lia.
Qed.

(** ** The anchor, and what rising mode guarantees *)
Module TrendFacts.

Lemma timedelta_days_nonneg d : 0 <= d -> 0 <= Analytics.timedelta_days d.
Proof. unfold Analytics.timedelta_days. lia. Qed.

Lemma growth_positive_iff r h :
  0 <= h -> ((0 < Analytics.growth r h)%Q <-> h < r).
Proof.
  intros Hh. unfold Analytics.growth.
  assert (Hd : (0 < inject_Z (h + 1))%Q).
  { change 0%Q with (inject_Z 0). rewrite <- Zlt_Qlt. lia. }
  split.
  - intros Hg. destruct (Z.lt_ge_cases h r) as [H|H]; [exact H|exfalso].
    apply (Qlt_not_le _ _ Hg). apply Qle_shift_div_r; [exact Hd|].
    rewrite Qmult_0_l. change 0%Q with (inject_Z 0). rewrite <- Zle_Qle. lia.
  - intros Hlt. apply Qlt_shift_div_l; [exact Hd|].
    rewrite Qmult_0_l. change 0%Q with (inject_Z 0). rewrite <- Zlt_Qlt. lia.
Qed.

Lemma growth_le_recent r h :
  0 <= h -> 0 <= r -> (Analytics.growth r h <= inject_Z r)%Q.
Proof.
  intros Hh Hr. unfold Analytics.growth.
  apply Qle_shift_div_r.
  - change 0%Q with (inject_Z 0). rewrite <- Zlt_Qlt. lia.
  - rewrite <- inject_Z_mult, <- Zle_Qle. nia.
Qed.

Lemma window_weight_nonneg items rd hd e :
  0 <= get edge_eqb (Analytics.recent_edges (Analytics.windows_of items rd hd)) e /\
  0 <= get edge_eqb (Analytics.historical_edges (Analytics.windows_of items rd hd)) e.
Proof.
  rewrite windows_of_eq. cbn [Analytics.recent_edges Analytics.historical_edges].
  rewrite !(get_incr_all edge_eqb edge_eqb_eq). unfold occurrences, len. simpl. lia.
Qed.

Lemma rising_mode_nonempty set_iter items rd hd n :
  Analytics.mode (snd (Analytics.find_rising_edges set_iter items rd hd n))
  = Analytics.Rising ->
  Analytics.rising_edges set_iter
    (Analytics.recent_edges (Analytics.windows_of items rd hd))
    (Analytics.historical_edges (Analytics.windows_of items rd hd)) <> [].
Proof.
  unfold Analytics.find_rising_edges.
  destruct (Analytics.items_with_time items); [simpl; discriminate|].
  destruct (_ || _); [simpl; discriminate|].
  destruct (Analytics.rising_edges set_iter _ _); [simpl; discriminate|].
  discriminate.
Qed.

End TrendFacts.

Import TrendFacts.

(** X11: what rising mode guarantees.  When [find_rising_edges] returns in
    rising mode, each window holds at least five counted records (so at
    least ten records have a time), the result is not empty when
    [top_n >= 1], and every entry carries rising details whose recent
    weight is strictly larger than the historical one, with a growth that
    is positive and at most the recent weight. *)
Theorem rising_mode_guarantees (set_iter : list edge -> list edge)
    (items : list item) (recent_days historical_days top_n : Z) :
  let res := Analytics.find_rising_edges set_iter items recent_days historical_days
                                         top_n in
  Analytics.mode (snd res) = Analytics.Rising ->
  5 <= Analytics.recent_count (snd res) /\
  5 <= Analytics.historical_count (snd res) /\
  10 <= Analytics.total_count (snd res) /\
  (1 <= top_n -> fst res <> []) /\
  Forall (fun en =>
            match Analytics.entry_details en with
            | Analytics.RisingDetails r h g =>
                0 <= h /\ h < r /\ Analytics.score en = g
                /\ (0 < g)%Q /\ (g <= inject_Z r)%Q
            | Analytics.FallbackDetails _ _ => False
            end) (fst res).
Proof.
  intros res Hm.
  destruct (rising_result _ _ _ _ _ Hm) as [Hr [Hh E]].
  pose proof (@rising_mode_nonempty set_iter items recent_days historical_days top_n Hm)
    as Hne.
  pose proof (window_counts_le items recent_days historical_days) as Hc.
  subst res. rewrite E. cbn [fst snd]. cbv zeta in Hc.
  change (Analytics.recent_count (Analytics.initial_stats items recent_days historical_days))
    with (len (Analytics.recent_items (Analytics.windows_of items recent_days historical_days)))
    in *.
  change (Analytics.historical_count (Analytics.initial_stats items recent_days historical_days))
    with (len (Analytics.historical_items (Analytics.windows_of items recent_days historical_days)))
    in *.
  split; [exact Hr|]. split; [exact Hh|]. split; [lia|]. split.
  - intros Hn. unfold slice_to.
    replace (top_n <? 0) with false by (symmetry; apply Z.ltb_ge; lia).
    destruct (Analytics.rising_edges set_iter _ _) as [|r rs]; [congruence|].
    destruct (Z.to_nat top_n) eqn:En; [lia|]. simpl. discriminate.
  - apply Forall_forall. intros en Hen. apply slice_to_In in Hen.
    apply rising_edges_In in Hen. destruct Hen as [e [_ Hen]].
    apply rising_entry_In in Hen. destruct Hen as [Hq ->].
    apply qualifies_iff in Hq. destruct Hq as [Hg H2].
    destruct (window_weight_nonneg items recent_days historical_days e) as [Hr0 Hh0].
    unfold Analytics.entry_details, Analytics.score. cbn [fst snd].
    split; [exact Hh0|]. split; [now apply growth_positive_iff|].
    split; [reflexivity|]. split; [exact Hg|].
    now apply growth_le_recent.
Qed.

Lemma rising_mode_guarantees_witness :
  5 <= Analytics.recent_count
         (snd (Analytics.find_rising_edges Analytics.first_seen Samples.tied 7 30 10)).
Proof.
  destruct (@rising_mode_guarantees Analytics.first_seen Samples.tied 7 30 10
              samples_tied_rising) as [H _].
  exact H.
Defined.

(** ** A fallback and the graph *)

Lemma population_all_timed items :
  (forall it, In it items -> time it <> None) ->
  Analytics.fallback_population items = items.
Proof.
  intros H. unfold Analytics.fallback_population.
  assert (E : map fst (Analytics.items_with_time items) = items).
  { unfold Analytics.items_with_time.
    induction items as [|it r IH]; [reflexivity|].
    simpl. destruct (time it) eqn:Et.
    - simpl. f_equal. apply IH. intros x Hx. apply H. now right.
    - exfalso. apply (H it); [now left | exact Et]. }
  destruct (Analytics.items_with_time items) eqn:Ei; [reflexivity|].
  exact E.
Qed.

(** X12: a fallback ranks the edges of the graph.  The entries of a
    fallback are the [top_n] most frequent pairs of the edge counter that
    [build_graph] fills from the ranked records, and the [total_count] of
    each entry is the weight of that edge in the graph built from them.
    The ranked records are all the records when each of them has a time,
    or when none has. *)
Theorem fallback_ranks_graph_edges (set_iter : list edge -> list edge)
    (items : list item) (recent_days historical_days top_n : Z) :
  let res := Analytics.find_rising_edges set_iter items recent_days historical_days
                                         top_n in
  let ranked := Analytics.fallback_population items in
  Analytics.mode (snd res) = Analytics.Fallback ->
  fst res = map Analytics.fallback_entry
                (most_common top_n (Builder.edge_weights ranked)) /\
  Forall (fun en =>
            match Analytics.entry_details en with
            | Analytics.FallbackDetails k _ =>
                Builder.edge_weight (Builder.edges (Builder.build_graph ranked))
                                    (fst (Analytics.entry_edge en))
                                    (snd (Analytics.entry_edge en)) = Some k
            | Analytics.RisingDetails _ _ _ => False
            end) (fst res) /\
  ((forall it, In it items -> time it <> None) -> ranked = items) /\
  ((forall it, In it items -> time it = None) -> ranked = items).
Proof.
  intros res ranked Hm.
  assert (Eg : Analytics.global_edges items = Builder.edge_weights ranked)
    by (unfold Analytics.global_edges; now rewrite edge_weights_counted).
  assert (Er : fst res = map Analytics.fallback_entry
                             (most_common top_n (Builder.edge_weights ranked)))
    by (subst res; rewrite fallback_result by exact Hm; now rewrite Eg).
  split; [exact Er|]. split; [|split].
  - rewrite Er. apply Forall_forall. intros en Hen.
    apply in_map_iff in Hen. destruct Hen as [[[a b] k] [<- Hp]].
    apply most_common_In in Hp.
    unfold Analytics.fallback_entry, Analytics.entry_details, Analytics.entry_edge.
    cbn [fst snd].
    rewrite build_graph_counters. cbn [Builder.edges].
    assert (Hk : In (a, b) (keys (Builder.edge_weights ranked)))
      by (change (a, b) with (fst ((a, b), k)); now apply in_map).
    assert (Ho : str_ltb b a = false).
    { apply edge_weights_keys in Hk. destruct Hk as [it [_ [_ Hpair]]].
      now apply tag_pairs_ordered in Hpair. }
    rewrite edge_weight_ordered_keys.
    2:{ intros [x y] He. apply edge_weights_keys in He.
        destruct He as [it [_ [_ Hpair]]]. simpl. now apply tag_pairs_ordered in Hpair. }
    assert (Ek : edge_key a b = (a, b)) by (unfold edge_key; now rewrite Ho).
    rewrite Ek.
    replace (existsb (edge_eqb (a, b)) (keys (Builder.edge_weights ranked))) with true
      by (symmetry; now apply (existsb_keq edge_eqb edge_eqb_eq)).
    now rewrite (@get_In_keys _ edge_eqb edge_eqb_eq _ (a, b) k
                   (edge_weights_NoDup ranked) Hp).
  - apply population_all_timed.
  - intros Hnone. subst ranked. unfold Analytics.fallback_population.
    destruct (Analytics.items_with_time items) as [|[it t] r] eqn:E; [reflexivity|].
    assert (Hin : In (it, t) (Analytics.items_with_time items)) by (rewrite E; now left).
    apply In_items_with_time in Hin. destruct Hin as [Hin Ht].
    rewrite (Hnone it Hin) in Ht. discriminate.
Qed.

Lemma fallback_ranks_graph_edges_witness :
  fst (Analytics.find_rising_edges Analytics.first_seen Samples.steady 7 30 10)
  = map Analytics.fallback_entry
        (most_common 10 (Builder.edge_weights
                           (Analytics.fallback_population Samples.steady))).
Proof.
  assert (Hm : Analytics.mode
                 (snd (Analytics.find_rising_edges Analytics.first_seen
                         Samples.steady 7 30 10)) = Analytics.Fallback)
    by (vm_compute; reflexivity).
  destruct (@fallback_ranks_graph_edges Analytics.first_seen Samples.steady 7 30 10 Hm)
    as [H _].
  exact H.
Defined.

(** X13: the data quality note tells the two fallbacks apart.  On the
    statistics that [find_rising_edges] returns, [get_data_quality_info]
    gives no warning exactly when both windows hold at least five counted
    records; rising mode never has a warning; so a fallback without a
    warning is the fallback for lack of rising edges, and a fallback for
    short windows always has one.  Without any record with a time the
    warning names both windows with counts 0 and 0. *)
Theorem quality_warning_tells_cause (set_iter : list edge -> list edge)
    (items : list item) (recent_days historical_days top_n : Z) :
  let stats := snd (Analytics.find_rising_edges set_iter items recent_days
                                                historical_days top_n) in
  let q := Insights.get_data_quality_info stats in
  (Insights.warning q = None
   <-> 5 <= Analytics.recent_count stats /\ 5 <= Analytics.historical_count stats) /\
  (Insights.quality_mode q = Analytics.Fallback /\ Insights.warning q = None
   <-> Analytics.items_with_time items <> []
       /\ 5 <= Analytics.recent_count stats /\ 5 <= Analytics.historical_count stats
       /\ Analytics.rising_edges set_iter
            (Analytics.recent_edges
               (Analytics.windows_of items recent_days historical_days))
            (Analytics.historical_edges
               (Analytics.windows_of items recent_days historical_days)) = []) /\
  (Analytics.items_with_time items = [] ->
   Insights.warning q = Some (Insights.BothWindowsShort 0 0)
   /\ Insights.total q = len items
   /\ Insights.anchor q = Analytics.NotAvailable) /\
  Insights.total q = Analytics.total_count stats.
Proof.
  intros stats q.
  assert (Hw : Insights.warning q = None
               <-> 5 <= Analytics.recent_count stats
                   /\ 5 <= Analytics.historical_count stats).
  { subst q. unfold Insights.get_data_quality_info. cbn [Insights.warning].
    destruct (Analytics.mode stats) eqn:Hm.
    - split; [intros _|reflexivity].
      subst stats. destruct (rising_result _ _ _ _ _ Hm) as [Hr [Hh E]].
      rewrite E. cbn [snd]. split; assumption.
    - destruct (Analytics.recent_count stats <? 5) eqn:Er;
        destruct (Analytics.historical_count stats <? 5) eqn:Eh; simpl;
        rewrite ?Z.ltb_lt, ?Z.ltb_ge in *;
        (split; [discriminate || (intros _; lia) | intros [? ?]; reflexivity || lia]). }
  split; [exact Hw|]. split; [|split; [|reflexivity]].
  - rewrite Hw. subst q. cbn [Insights.quality_mode].
    unfold Insights.get_data_quality_info. cbn [Insights.quality_mode].
    subst stats. rewrite find_rising_edges_stats.
    destruct (Analytics.items_with_time items) as [|p r] eqn:Ei.
    + cbn [Analytics.recent_count Analytics.historical_count Analytics.mode].
      split; [intros [_ [H _]]; lia | intros [H _]; congruence].
    + cbv zeta.
      change (Analytics.recent_count (Analytics.initial_stats items recent_days historical_days))
        with (len (Analytics.recent_items
                     (Analytics.windows_of items recent_days historical_days))).
      change (Analytics.historical_count (Analytics.initial_stats items recent_days historical_days))
        with (len (Analytics.historical_items
                     (Analytics.windows_of items recent_days historical_days))).
      destruct (len (Analytics.recent_items _) <? 5) eqn:Er;
        destruct (len (Analytics.historical_items _) <? 5) eqn:Eh;
        cbn [orb Analytics.set_mode Analytics.recent_count Analytics.historical_count
             Analytics.mode Analytics.initial_stats];
        rewrite ?Z.ltb_lt, ?Z.ltb_ge in *;
        try (split; [intros [_ [? ?]]; lia | intros [_ [? [? _]]]; lia]).
      destruct (Analytics.rising_edges set_iter _ _) eqn:R;
        cbn [Analytics.set_mode Analytics.recent_count Analytics.historical_count
             Analytics.mode Analytics.initial_stats].
      * split; [intros _|intros _]; repeat split; try lia; try discriminate; auto.
      * split; [intros [Hmode _]; discriminate | intros [_ [_ [_ H]]]; discriminate].
  - intros Ei. subst q stats. rewrite find_rising_edges_stats, Ei.
    repeat split.
Qed.

(** ** The PageRank ranking *)
Module RankingFacts.

Lemma by_rank_sorted (l : list (tag * Q)) :
  StronglySorted (fun p q => (snd q <= snd p)%Q) (sort Ranking.by_rank_desc l).
Proof.
  assert (H : StronglySorted (ordered Ranking.by_rank_desc)
                             (sort Ranking.by_rank_desc l)).
  { apply sort_sorted; unfold ordered, Ranking.by_rank_desc.
    - intros a b. rewrite Qlt_bool_iff, Qlt_bool_false. apply Qlt_le_weak.
    - intros a b c. rewrite !Qlt_bool_false. intros H1 H2.
      exact (Qle_trans _ _ _ H2 H1). }
  revert H. generalize (sort Ranking.by_rank_desc l). induction 1; constructor; auto.
  eapply Forall_impl; [|eassumption].
  intros q. unfold ordered, Ranking.by_rank_desc. now rewrite Qlt_bool_false.
Qed.

End RankingFacts.

(** X14: [compute_pagerank] never calls the library on a missing graph or
    on a graph without nodes: it returns the empty list.  Otherwise, for
    [top_n >= 0], it returns at most [top_n] of the library's scores,
    largest first, and no score left out is larger than a score kept. *)
Theorem compute_pagerank_ranked (pagerank : Builder.graph -> list (tag * Q))
    (graph : option Builder.graph) (top_n : Z) :
  0 <= top_n ->
  let top := Ranking.compute_pagerank pagerank graph top_n in
  (graph = None -> top = []) /\
  (forall g, graph = Some g -> Builder.nodes g = [] -> top = []) /\
  StronglySorted (fun p q => (snd q <= snd p)%Q) top /\
  len top <= top_n /\
  (forall g, graph = Some g ->
     (forall p, In p top -> In p (pagerank g)) /\
     (forall p q, In p top -> In q (pagerank g) -> ~ In q top ->
                  (snd q <= snd p)%Q)).
Proof.
  intros Hn top. subst top. unfold Ranking.compute_pagerank.
  split; [intros ->; reflexivity|].
  split; [intros g -> ->; reflexivity|].
  destruct graph as [g|].
  2:{ split; [constructor|]. split; [unfold len; simpl; lia|]. intros g H. discriminate. }
  destruct (Builder.nodes g) as [|x r].
  { split; [constructor|]. split; [unfold len; simpl; lia|].
    intros g' _. split; [intros p []|intros p q []]. }
  unfold slice_to. replace (top_n <? 0) with false by (symmetry; apply Z.ltb_ge; lia).
  split; [apply sorted_firstn, RankingFacts.by_rank_sorted|].
  split; [unfold len; rewrite length_firstn; lia|].
  intros g' E. inversion E; subst g'. split.
  - intros p Hp. apply In_firstn in Hp. now apply sort_In in Hp.
  - intros p q Hp Hq Hout.
    apply (sort_In Ranking.by_rank_desc) in Hq.
    rewrite <- (firstn_skipn (Z.to_nat top_n)) in Hq.
    apply in_app_or in Hq. destruct Hq as [H|H]; [contradiction|].
    exact (@sorted_prefix_dominates _ (fun p q => (snd q <= snd p)%Q) _
             (Z.to_nat top_n) p q (RankingFacts.by_rank_sorted _) Hp H).
Qed.

Lemma compute_pagerank_ranked_witness :
  0 <= 1 /\
  Ranking.compute_pagerank
    (fun g => map (fun p => (fst p, 1 # 2)%Q) (Builder.nodes g))
    (Some (Builder.build_graph Samples.steady)) 1
  = [("a", (1 # 2)%Q)] /\
  len (Ranking.compute_pagerank
         (fun g => map (fun p => (fst p, 1 # 2)%Q) (Builder.nodes g))
         (Some (Builder.build_graph Samples.steady)) 1) <= 1.
Proof.
  assert (Hn : 0 <= 1) by lia.
  split; [exact Hn|]. split; [vm_compute; reflexivity|].
  destruct (@compute_pagerank_ranked
              (fun g => map (fun p => (fst p, 1 # 2)%Q) (Builder.nodes g))
              (Some (Builder.build_graph Samples.steady)) 1 Hn) as [_ [_ [_ [H _]]]].
  exact H.
Defined.

(** ** The colours *)
Module ColourFacts.

Lemma extend_reaches (fuel : nat) (p : list string) (n : Z) :
  n <= len p * 2 ^ Z.of_nat fuel ->
  n <= len (Visualizer.extend_palette fuel p n).
Proof.
  revert p. induction fuel as [|f IH]; intros p H.
  - simpl in *. lia.
  - cbn [Visualizer.extend_palette]. destruct (len p <? n) eqn:E.
    + apply IH. unfold len in *. rewrite length_app.
      rewrite Nat2Z.inj_succ, Z.pow_succ_r in H by lia. lia.
    + apply Z.ltb_ge in E. exact E.
Qed.

Lemma doubled_cycle (p : list string) (k : nat) :
  List.length p = (k * 10)%nat ->
  (forall i, (i < List.length p)%nat ->
             nth i p "" = nth (i mod 10) Visualizer.palette "") ->
  forall i, (i < List.length (p ++ p))%nat ->
            nth i (p ++ p) "" = nth (i mod 10) Visualizer.palette "".
Proof.
  intros Hl Hc i Hi. rewrite length_app in Hi.
  destruct (Nat.lt_ge_cases i (List.length p)) as [H|H].
  - rewrite app_nth1 by exact H. now apply Hc.
  - rewrite app_nth2 by exact H. rewrite Hc by lia.
    f_equal. rewrite Hl.
    replace i with ((i - k * 10) + k * 10)%nat at 2 by lia.
    now rewrite Nat.Div0.mod_add.
Qed.

Lemma extend_cycle (fuel : nat) (p : list string) (n : Z) (k : nat) :
  List.length p = (k * 10)%nat ->
  (forall i, (i < List.length p)%nat ->
             nth i p "" = nth (i mod 10) Visualizer.palette "") ->
  forall i, (i < List.length (Visualizer.extend_palette fuel p n))%nat ->
            nth i (Visualizer.extend_palette fuel p n) ""
            = nth (i mod 10) Visualizer.palette "".
Proof.
  revert p k. induction fuel as [|f IH]; intros p k Hl Hc; [exact Hc|].
  cbn [Visualizer.extend_palette]. destruct (len p <? n); [|exact Hc].
  apply (IH (p ++ p) (2 * k)%nat).
  - rewrite length_app. lia.
  - now apply (doubled_cycle _ k).
Qed.

Lemma palette_cycle i :
  (i < List.length Visualizer.palette)%nat ->
  nth i Visualizer.palette "" = nth (i mod 10) Visualizer.palette "".
Proof. intros H. simpl in H. now rewrite Nat.mod_small. Qed.

Lemma nth_firstn_lt {A : Type} (l : list A) (m i : nat) (d : A) :
  (i < m)%nat -> nth i (firstn m l) d = nth i l d.
Proof.
  revert m i. induction l as [|x t IH]; intros m i H.
  - now rewrite firstn_nil.
  - destruct m as [|m]; [lia|]. destruct i as [|i]; [reflexivity|].
    simpl. apply IH. lia.
Qed.

Lemma palette_NoDup : NoDup Visualizer.palette.
Proof.
  unfold Visualizer.palette.
  repeat (constructor; [simpl; intuition discriminate|]). constructor.
Qed.

Lemma two_power_bound (n : Z) : 0 <= n -> n <= 10 * 2 ^ n.
Proof. intros H. pose proof (Z.pow_gt_lin_r 2 n ltac:(lia) H). lia. Qed.

End ColourFacts.

(** X15: [_generate_colors(n)], for [n >= 0].  The loop that doubles the
    palette ends with at least [n] colours; the result has exactly [n]
    colours, and colour [i] is colour [i mod 10] of the palette; so up
    to ten colours are pairwise distinct, and from eleven on the eleventh
    repeats the first. *)
Theorem generate_colors_cycle (n : Z) :
  0 <= n ->
  let colours := Visualizer._generate_colors n in
  n <= len (Visualizer.extend_palette (Z.to_nat n) Visualizer.palette n) /\
  len colours = n /\
  (forall i, Z.of_nat i < n ->
             nth i colours "" = nth (i mod 10) Visualizer.palette "") /\
  (n <= 10 -> NoDup colours) /\
  (10 < n -> nth 10 colours "" = nth 0 colours "").
Proof.
  intros Hn colours.
  assert (Hreach : n <= len (Visualizer.extend_palette (Z.to_nat n) Visualizer.palette n)).
  { apply ColourFacts.extend_reaches. rewrite Z2Nat.id by exact Hn.
    change (len Visualizer.palette) with 10. now apply ColourFacts.two_power_bound. }
  assert (Ec : colours = firstn (Z.to_nat n)
                           (Visualizer.extend_palette (Z.to_nat n) Visualizer.palette n)).
  { subst colours. unfold Visualizer._generate_colors, slice_to.
    now replace (n <? 0) with false by (symmetry; apply Z.ltb_ge; lia). }
  assert (Hnth : forall i, Z.of_nat i < n ->
            nth i colours "" = nth (i mod 10) Visualizer.palette "").
  { intros i Hi. rewrite Ec, ColourFacts.nth_firstn_lt by lia.
    apply (ColourFacts.extend_cycle (Z.to_nat n) Visualizer.palette n 1).
    - reflexivity.
    - apply ColourFacts.palette_cycle.
    - unfold len in Hreach. lia. }
  split; [exact Hreach|]. split; [|split; [exact Hnth|split]].
  - rewrite Ec. unfold len in *. rewrite length_firstn. lia.
  - intros H10. rewrite Ec.
    replace (Visualizer.extend_palette (Z.to_nat n) Visualizer.palette n)
      with Visualizer.palette.
    + apply NoDup_firstn, ColourFacts.palette_NoDup.
    + destruct (Z.to_nat n); [reflexivity|]. cbn [Visualizer.extend_palette].
      change (len Visualizer.palette) with 10.
      now replace (10 <? n) with false by (symmetry; apply Z.ltb_ge; lia).
  - intros H10. rewrite (Hnth 10%nat), (Hnth 0%nat) by lia. reflexivity.
Qed.

Lemma generate_colors_cycle_witness :
  0 <= 12 /\ len (Visualizer._generate_colors 12) = 12.
Proof.
  assert (Hn : 0 <= 12) by lia.
  split; [exact Hn|].
  destruct (@generate_colors_cycle 12 Hn) as [_ [H _]].
  exact H.
Defined.

(** ** The cleaner *)
Module CleanerFacts.
Section Strings.
Variable strip : string -> string.
Variable lower : string -> string.
Variable char_len : string -> Z.

Lemma in_set_In x seen : Cleaner.in_set x seen = true <-> In x seen.
Proof. unfold Cleaner.in_set. apply existsb_keq, String.eqb_eq. Qed.

(** What a tag that was kept has gone through. *)
Lemma clean_tag_cases acc raw :
  Cleaner.clean_tag strip lower char_len acc raw = acc \/
  exists tag0,
    raw = Some tag0 /\ tag0 <> "" /\
    Cleaner.normalise strip tag0 <> "" /\
    char_len (Cleaner.normalise strip tag0) <= 20 /\
    ~ In (lower (Cleaner.normalise strip tag0)) (snd acc) /\
    Cleaner.clean_tag strip lower char_len acc raw
    = (fst acc ++ [Cleaner.normalise strip tag0],
       lower (Cleaner.normalise strip tag0) :: snd acc).
Proof.
  unfold Cleaner.clean_tag. destruct raw as [tag0|]; [|now left].
  destruct (String.eqb tag0 "") eqn:E0; [now left|].
  cbv zeta. destruct (String.eqb (Cleaner.normalise strip tag0) "") eqn:E1; [now left|].
  destruct (char_len (Cleaner.normalise strip tag0) >? 20) eqn:E2; [now left|].
  destruct (Cleaner.in_set _ _) eqn:E3; [now left|].
  right. exists tag0. apply String.eqb_neq in E0, E1.
  rewrite Z.gtb_ltb in E2. apply Z.ltb_ge in E2.
  repeat split; auto.
  intros Hin. apply in_set_In in Hin. congruence.
Qed.

Lemma clean_tags_loop (tags : list (option string)) (acc : list string * list string) :
  snd acc = rev (map lower (fst acc)) ->
  NoDup (map lower (fst acc)) ->
  let final := fold_left (Cleaner.clean_tag strip lower char_len) tags acc in
  snd final = rev (map lower (fst final)) /\
  NoDup (map lower (fst final)) /\
  (exists ext, fst final = fst acc ++ ext
               /\ (List.length ext <= List.length tags)%nat
               /\ Forall (Cleaner.kept strip char_len tags) ext) /\
  (forall raw, In (Some raw) tags -> raw <> "" ->
     Cleaner.normalise strip raw <> "" ->
     char_len (Cleaner.normalise strip raw) <= 20 ->
     In (lower (Cleaner.normalise strip raw)) (map lower (fst final))).
Proof.
  revert acc. induction tags as [|r rest IH]; intros acc Hseen Hnd final.
  - subst final. simpl. split; [exact Hseen|]. split; [exact Hnd|]. split.
    + exists []. rewrite app_nil_r. repeat split; auto.
    + intros raw [].
  - subst final. simpl fold_left.
    set (acc' := Cleaner.clean_tag strip lower char_len acc r).
    assert (Hstep : snd acc' = rev (map lower (fst acc')) /\
                    NoDup (map lower (fst acc')) /\
                    (exists e0, fst acc' = fst acc ++ e0
                                /\ (List.length e0 <= 1)%nat
                                /\ Forall (Cleaner.kept strip char_len (r :: rest)) e0) /\
                    (forall raw, r = Some raw -> raw <> "" ->
                       Cleaner.normalise strip raw <> "" ->
                       char_len (Cleaner.normalise strip raw) <= 20 ->
                       In (lower (Cleaner.normalise strip raw)) (map lower (fst acc')))).
    { destruct (clean_tag_cases acc r) as [E|[tag0 [Er [H0 [H1 [H2 [H3 E]]]]]]];
        fold acc' in E; rewrite E.
      - split; [exact Hseen|]. split; [exact Hnd|]. split.
        + exists []. rewrite app_nil_r. repeat split; auto.
        + intros raw Er H0 H1 H2.
          (* the tag was skipped although it passes the filters: it was seen *)
          subst r. unfold acc', Cleaner.clean_tag in E.
          apply String.eqb_neq in H0. rewrite H0 in E. cbv zeta in E.
          apply String.eqb_neq in H1. rewrite H1 in E.
          replace (char_len (Cleaner.normalise strip raw) >? 20) with false in E
            by (symmetry; rewrite Z.gtb_ltb; apply Z.ltb_ge; lia).
          destruct (Cleaner.in_set (lower (Cleaner.normalise strip raw)) (snd acc)) eqn:Es.
          * apply in_set_In in Es. rewrite Hseen in Es. now apply in_rev in Es.
          * exfalso. apply (f_equal (fun p => List.length (fst p))) in E.
            cbn [fst] in E. rewrite length_app in E. simpl in E. lia.
      - cbn [fst snd]. rewrite map_app, rev_app_distr. simpl.
        split; [now rewrite Hseen|]. split.
        + apply NoDup_app; [exact Hnd | repeat constructor; simpl; tauto |].
          intros x Hx [<-|[]]. apply H3. rewrite Hseen. now apply -> in_rev.
        + split.
          * exists [Cleaner.normalise strip tag0]. split; [reflexivity|].
            split; [simpl; lia|]. constructor; [|constructor].
            split; [exact H1|]. split; [exact H2|].
            exists tag0. split; [left; now symmetry | tauto].
          * intros raw Eraw _ _ _. rewrite Er in Eraw. inversion Eraw; subst.
            apply in_or_app. right. now left. }
    destruct Hstep as [Hs' [Hnd' [[e0 [Ee0 [Hl0 Hk0]]] Hc0]]].
    destruct (IH acc' Hs' Hnd') as [Hs'' [Hnd'' [[ext [Eext [Hl Hk]]] Hc]]].
    split; [exact Hs''|]. split; [exact Hnd''|]. split.
    + exists (e0 ++ ext). split; [rewrite Eext, Ee0; now rewrite app_assoc|].
      split; [rewrite length_app; simpl; lia|].
      apply Forall_app. split; [exact Hk0|].
      eapply Forall_impl; [|exact Hk].
      intros t [Ht [Hlen [raw [Hin Hraw]]]]. split; [exact Ht|]. split; [exact Hlen|].
      exists raw. split; [now right | exact Hraw].
    + intros raw [Hin|Hin] H0 H1 H2.
      * rewrite Eext, map_app. apply in_or_app. left. now apply Hc0.
      * now apply Hc.
Qed.

End Strings.
End CleanerFacts.

Module CleanFacts.
Section Strings.
Variable strip : string -> string.
Variable lower : string -> string.
Variable char_len : string -> Z.

Lemma clean_tags_facts (tags : list (option string)) :
  let out := Cleaner._clean_tags strip lower char_len tags in
  NoDup (map lower out) /\
  Forall (Cleaner.kept strip char_len tags) out /\
  (List.length out <= List.length tags)%nat /\
  (forall raw, In (Some raw) tags -> raw <> "" ->
     Cleaner.normalise strip raw <> "" ->
     char_len (Cleaner.normalise strip raw) <= 20 ->
     In (lower (Cleaner.normalise strip raw)) (map lower out)).
Proof.
  intros out. subst out. unfold Cleaner._clean_tags.
  destruct tags as [|r rest].
  - split; [constructor|]. split; [constructor|]. split; [simpl; lia|]. intros raw [].
  - destruct (@CleanerFacts.clean_tags_loop strip lower char_len (r :: rest) ([], []))
      as [_ [Hnd [[ext [Eext [Hl Hk]]] Hc]]]; [reflexivity | constructor |].
    change ([] ++ ext) with ext in Eext. cbv zeta in *.
    rewrite Eext in Hnd, Hc |- *.
    split; [exact Hnd|]. split; [exact Hk|]. split; [exact Hl|]. exact Hc.
Qed.

Lemma clean_item_spec (ts : Cleaner.tag_stats) (item : Cleaner.raw_item) :
  (Cleaner.passes strip char_len item = true /\
   Cleaner._clean_item strip lower char_len ts item
   = (Cleaner.Passed (Cleaner.cleaned strip lower char_len item),
      Cleaner.mk_tag_stats
        (Cleaner.before_clean ts + len (Cleaner.raw_tags item))
        (Cleaner.after_clean ts
         + len (Cleaner._clean_tags strip lower char_len (Cleaner.raw_tags item)))
        (Cleaner.duplicates_removed ts
         + (len (Cleaner.raw_tags item)
            - len (Cleaner._clean_tags strip lower char_len (Cleaner.raw_tags item))))))
  \/
  (Cleaner.passes strip char_len item = false /\
   exists reason,
     (reason = "missing_title" \/ reason = "missing_time" \/ reason = "desc_too_short")
     /\ Cleaner._clean_item strip lower char_len ts item = (Cleaner.Dropped reason, ts)).
Proof.
  unfold Cleaner.passes, Cleaner._clean_item, Cleaner.cleaned.
  destruct (String.eqb (strip (Cleaner.raw_title item)) "").
  { right. split; [reflexivity|]. exists "missing_title". tauto. }
  destruct (Cleaner.raw_time item) as [t|].
  2:{ right. split; [reflexivity|]. exists "missing_time". tauto. }
  destruct (String.eqb t "").
  { right. split; [reflexivity|]. exists "missing_time". tauto. }
  cbv zeta. destruct (char_len (strip (Cleaner.raw_desc item)) <? 10).
  { right. split; [reflexivity|]. exists "desc_too_short". tauto. }
  left. split; reflexivity.
Qed.

Lemma counter_total_incr (c : counter (K:=string)) k :
  counter_total (incr String.eqb c k) = counter_total c + 1.
Proof.
  unfold counter_total. induction c as [|[k' n] t IH]; simpl; [lia|].
  destruct (String.eqb k k'); simpl; lia.
Qed.

(** The loop of [clean], from any state. *)
Lemma clean_loop (l : list Cleaner.raw_item) (acc : list Cleaner.clean_item * Cleaner.stats) :
  let done := fold_left (Cleaner.clean_step strip lower char_len) l acc in
  let st := snd acc in
  let st' := snd done in
  fst done = fst acc ++ map (Cleaner.cleaned strip lower char_len)
                            (filter (Cleaner.passes strip char_len) l) /\
  Cleaner.raw_count st' = Cleaner.raw_count st /\
  Cleaner.dropped_count st'
  = Cleaner.dropped_count st
    + (len l - len (filter (Cleaner.passes strip char_len) l)) /\
  counter_total (Cleaner.drop_reasons st') - Cleaner.dropped_count st'
  = counter_total (Cleaner.drop_reasons st) - Cleaner.dropped_count st /\
  (forall r, In r (keys (Cleaner.drop_reasons st')) ->
     In r (keys (Cleaner.drop_reasons st))
     \/ r = "missing_title" \/ r = "missing_time" \/ r = "desc_too_short") /\
  Cleaner.duplicates_removed (Cleaner.tags_seen st')
  - (Cleaner.before_clean (Cleaner.tags_seen st')
     - Cleaner.after_clean (Cleaner.tags_seen st'))
  = Cleaner.duplicates_removed (Cleaner.tags_seen st)
    - (Cleaner.before_clean (Cleaner.tags_seen st)
       - Cleaner.after_clean (Cleaner.tags_seen st)) /\
  Cleaner.duplicates_removed (Cleaner.tags_seen st)
  <= Cleaner.duplicates_removed (Cleaner.tags_seen st').
Proof.
  revert acc. induction l as [|item rest IH]; intros acc done st st'.
  - subst done st st'. simpl. rewrite app_nil_r. unfold len. simpl.
    repeat split; try lia. intros r H. now left.
  - subst done st st'. simpl fold_left.
    set (acc' := Cleaner.clean_step strip lower char_len acc item).
    destruct (IH acc') as [Hout [Hraw [Hdrop [Htot [Hkeys [Hdup Hmono]]]]]].
    clear IH.
    assert (Hstep :
      (Cleaner.passes strip char_len item = true /\
       fst acc' = fst acc ++ [Cleaner.cleaned strip lower char_len item] /\
       Cleaner.raw_count (snd acc') = Cleaner.raw_count (snd acc) /\
       Cleaner.dropped_count (snd acc') = Cleaner.dropped_count (snd acc) /\
       Cleaner.drop_reasons (snd acc') = Cleaner.drop_reasons (snd acc) /\
       Cleaner.duplicates_removed (Cleaner.tags_seen (snd acc'))
       - (Cleaner.before_clean (Cleaner.tags_seen (snd acc'))
          - Cleaner.after_clean (Cleaner.tags_seen (snd acc')))
       = Cleaner.duplicates_removed (Cleaner.tags_seen (snd acc))
         - (Cleaner.before_clean (Cleaner.tags_seen (snd acc))
            - Cleaner.after_clean (Cleaner.tags_seen (snd acc))) /\
       Cleaner.duplicates_removed (Cleaner.tags_seen (snd acc))
       <= Cleaner.duplicates_removed (Cleaner.tags_seen (snd acc')))
      \/
      (Cleaner.passes strip char_len item = false /\
       fst acc' = fst acc /\
       Cleaner.raw_count (snd acc') = Cleaner.raw_count (snd acc) /\
       Cleaner.dropped_count (snd acc') = Cleaner.dropped_count (snd acc) + 1 /\
       (exists reason,
          (reason = "missing_title" \/ reason = "missing_time"
           \/ reason = "desc_too_short") /\
          Cleaner.drop_reasons (snd acc')
          = incr String.eqb (Cleaner.drop_reasons (snd acc)) reason) /\
       Cleaner.tags_seen (snd acc') = Cleaner.tags_seen (snd acc))).
    { unfold acc', Cleaner.clean_step.
      destruct (clean_item_spec (Cleaner.tags_seen (snd acc)) item)
        as [[Hp E]|[Hp [reason [Hr E]]]]; rewrite E.
      - left. cbn [fst snd Cleaner.raw_count Cleaner.dropped_count
                   Cleaner.drop_reasons Cleaner.tags_seen Cleaner.before_clean
                   Cleaner.after_clean Cleaner.duplicates_removed].
        repeat split; try assumption; try lia.
        pose proof (clean_tags_facts (Cleaner.raw_tags item)) as [_ [_ [Hl _]]].
        cbv zeta in Hl. unfold len. lia.
      - right. cbn [fst snd Cleaner.raw_count Cleaner.dropped_count
                    Cleaner.drop_reasons Cleaner.tags_seen].
        repeat split; try assumption. exists reason. tauto. }
    simpl filter.
    destruct Hstep as [[Hp [Ef [Er [Ed [Ec [Edup Em]]]]]]
                      |[Hp [Ef [Er [Ed [[reason [Hr Ec]] Ets]]]]]]; rewrite Hp;
      cbv iota; cbn [map].
    + split; [rewrite Hout, Ef, <- app_assoc; reflexivity|].
      split; [congruence|].
      split; [rewrite Hdrop, Ed; unfold len; cbn [List.length]; lia|].
      split; [rewrite Htot, Ec, Ed; reflexivity|].
      split; [intros r Hin; apply Hkeys in Hin; rewrite Ec in Hin; exact Hin|].
      split; [rewrite Hdup; exact Edup | lia].
    + split; [rewrite Hout, Ef; reflexivity|].
      split; [congruence|].
      split; [rewrite Hdrop, Ed; unfold len; cbn [List.length]; lia|].
      split; [rewrite Htot, Ec, Ed, counter_total_incr; lia|].
      split.
      * intros r Hin. apply Hkeys in Hin. rewrite Ec in Hin.
        destruct Hin as [Hin|Hin]; [|now right].
        apply (In_keys_incr String.eqb String.eqb_eq) in Hin.
        destruct Hin as [->|Hin]; [right; exact Hr | now left].
      * rewrite Ets in *. split; [exact Hdup | exact Hmono].
Qed.

End Strings.
End CleanFacts.

Module PipelineFacts.

Lemma clean_kept (strip lower : string -> string) (char_len : string -> Z)
    (raw_items : list Cleaner.raw_item) :
  fst (Cleaner.clean strip lower char_len raw_items)
  = map (Cleaner.cleaned strip lower char_len)
        (filter (Cleaner.passes strip char_len) raw_items).
Proof.
  unfold Cleaner.clean. cbv zeta. cbn [fst].
  destruct (CleanFacts.clean_loop strip lower char_len raw_items
              ([], Cleaner.mk_stats (len raw_items) 0 0 []
                     (Cleaner.mk_tag_stats 0 0 0)))
    as [Hout _].
  cbv zeta in Hout. exact Hout.
Qed.

End PipelineFacts.

(** X16: what [_clean_tags] returns.  No two tags of the result have the
    same lower-case form, so no tag is repeated; every tag of the result is
    the normal form (marks removed, stripped) of a non-empty string of the
    input, is not empty and has at most 20 characters; the result is no
    longer than the input; and every string of the input whose normal
    form passes these filters is represented: its lower-case form is that
    of a tag of the result. *)
Theorem clean_tags_result (strip lower : string -> string) (char_len : string -> Z)
    (tags : list (option string)) :
  let out := Cleaner._clean_tags strip lower char_len tags in
  NoDup out /\
  NoDup (map lower out) /\
  Forall (Cleaner.kept strip char_len tags) out /\
  len out <= len tags /\
  (forall raw, In (Some raw) tags -> raw <> "" ->
     Cleaner.normalise strip raw <> "" ->
     char_len (Cleaner.normalise strip raw) <= 20 ->
     In (lower (Cleaner.normalise strip raw)) (map lower out)).
Proof.
  intros out.
  destruct (CleanFacts.clean_tags_facts strip lower char_len tags)
    as [Hnd [Hk [Hl Hc]]].
  fold out in Hnd, Hk, Hl, Hc.
  split; [exact (NoDup_map_inv lower out Hnd)|].
  split; [exact Hnd|]. split; [exact Hk|]. split; [unfold len; lia | exact Hc].
Qed.

(** X17: what [clean] keeps and counts.  It keeps exactly the records
    that pass the three checks (title, time, description of at least 10
    characters), in their order, each rebuilt with its cleaned tags; every
    raw record is either kept or dropped, the drop reasons add up to the
    number of dropped records and are among the three reasons of the code;
    and the duplicates removed are the tags before minus the tags after
    cleaning, never negative. *)
Theorem clean_accounts (strip lower : string -> string) (char_len : string -> Z)
    (raw_items : list Cleaner.raw_item) :
  let res := Cleaner.clean strip lower char_len raw_items in
  let st := snd res in
  fst res = map (Cleaner.cleaned strip lower char_len)
                (filter (Cleaner.passes strip char_len) raw_items) /\
  Cleaner.raw_count st = len raw_items /\
  Cleaner.clean_count st = len (fst res) /\
  Cleaner.clean_count st + Cleaner.dropped_count st = Cleaner.raw_count st /\
  counter_total (Cleaner.drop_reasons st) = Cleaner.dropped_count st /\
  (forall r, In r (keys (Cleaner.drop_reasons st)) ->
     r = "missing_title" \/ r = "missing_time" \/ r = "desc_too_short") /\
  Cleaner.duplicates_removed (Cleaner.tags_seen st)
  = Cleaner.before_clean (Cleaner.tags_seen st)
    - Cleaner.after_clean (Cleaner.tags_seen st) /\
  0 <= Cleaner.duplicates_removed (Cleaner.tags_seen st).
Proof.
  intros res st. subst st res. unfold Cleaner.clean. cbv zeta.
  cbn [fst snd Cleaner.raw_count Cleaner.clean_count Cleaner.dropped_count
       Cleaner.drop_reasons Cleaner.tags_seen].
  destruct (CleanFacts.clean_loop strip lower char_len raw_items
              ([], Cleaner.mk_stats (len raw_items) 0 0 []
                     (Cleaner.mk_tag_stats 0 0 0)))
    as [Hout [Hraw [Hdrop [Htot [Hkeys [Hdup Hmono]]]]]].
  cbv zeta in *.
  cbn [fst snd Cleaner.raw_count Cleaner.clean_count Cleaner.dropped_count
       Cleaner.drop_reasons Cleaner.tags_seen Cleaner.before_clean
       Cleaner.after_clean Cleaner.duplicates_removed app] in *.
  split; [exact Hout|]. split; [exact Hraw|]. split; [reflexivity|].
  split.
  { rewrite Hout, Hdrop, Hraw. unfold len. rewrite length_map.
    pose proof (filter_length_le (Cleaner.passes strip char_len) (fun _ => true)
                  raw_items (fun _ _ => eq_refl)) as Hle.
    assert (Hall : filter (fun _ : Cleaner.raw_item => true) raw_items = raw_items).
    { clear. induction raw_items as [|x r IH]; simpl; congruence. }
    rewrite Hall in Hle. lia. }
  split; [unfold counter_total in Htot at 2; simpl in Htot; lia|].
  split.
  { intros r Hin. destruct (Hkeys r Hin) as [[]|H]; exact H. }
  split; lia.
Qed.

(** X18: the cleaner and the graph together.  Whatever the raw records
    are, the records that [clean] keeps repeat no tag; so the graph that
    [build_graph] makes of them has no self-loop and no two edges between
    the same tags, and the weight of every edge between two distinct tags
    is the number of kept records that list both. *)
Theorem cleaned_records_make_simple_graph (strip lower : string -> string)
    (char_len : string -> Z) (parse_time : string -> option Z)
    (raw_items : list Cleaner.raw_item) :
  let records := map (Cleaner.as_record parse_time)
                     (fst (Cleaner.clean strip lower char_len raw_items)) in
  let g := Builder.build_graph records in
  Forall unique_tags records /\
  Builder.no_self_loops g /\
  Builder.no_parallel_edges g /\
  (forall a b, a <> b ->
     Builder.edge_weight (Builder.edges g) a b
     = if co_records records a b =? 0 then None
       else Some (co_records records a b)).
Proof.
  intros records g.
  assert (Hu : Forall unique_tags records).
  { subst records.
    rewrite PipelineFacts.clean_kept. apply Forall_forall. intros it Hit.
    apply in_map_iff in Hit. destruct Hit as [c [<- Hc]].
    apply in_map_iff in Hc. destruct Hc as [raw [<- _]].
    unfold unique_tags, Cleaner.as_record, Cleaner.cleaned. cbn [tags Cleaner.clean_tags].
    destruct (CleanFacts.clean_tags_facts strip lower char_len (Cleaner.raw_tags raw))
      as [Hnd _].
    exact (NoDup_map_inv lower _ Hnd). }
  split; [exact Hu|]. split; [|split].
  - intros a b w Hin. subst g. rewrite build_graph_counters in Hin.
    cbn [Builder.edges] in Hin.
    assert (Hk : In (a, b) (keys (Builder.edge_weights records)))
      by (change (a, b) with (fst ((a, b), w)); now apply in_map).
    apply edge_weights_keys in Hk. destruct Hk as [it [Hit [_ Hp]]].
    rewrite Forall_forall in Hu. exact (tag_pairs_distinct (Hu it Hit) Hp).
  - subst g. unfold Builder.no_parallel_edges. rewrite build_graph_counters.
    cbn [Builder.edges]. apply ordered_keys_apart; [apply edge_weights_NoDup|].
    intros [a b] He. apply edge_weights_keys in He.
    destruct He as [it [_ [_ Hp]]]. simpl. now apply tag_pairs_ordered in Hp.
  - intros a b Hne. subst g. rewrite build_graph_edge_weight. cbv zeta.
    now rewrite (paired_tags_co_records Hu Hne).
Qed.

Module EmptyFacts.

Lemma pairless_windows items rd hd :
  (forall it, In it (Analytics.fallback_population items) -> len (tags it) < 2) ->
  Analytics.windows_of items rd hd = Analytics.empty_windows.
Proof.
  intros H.
  assert (Hp : forall p, In p (Analytics.items_with_time items) ->
                         len (tags (fst p)) < 2).
  { intros p Hin. apply H. unfold Analytics.fallback_population.
    destruct (Analytics.items_with_time items) as [|q l]; [destruct Hin|].
    now apply in_map. }
  clear H. unfold Analytics.windows_of.
  generalize (Analytics.recent_threshold items rd)
             (Analytics.historical_threshold items rd hd).
  intros rt ht.
  induction (Analytics.items_with_time items) as [|p l IH]; [reflexivity|].
  simpl. unfold Analytics.window_step at 2.
  replace (len (tags (fst p)) <? 2) with true
    by (symmetry; apply Z.ltb_lt; apply Hp; now left).
  apply IH. intros q Hq. apply Hp. now right.
Qed.

Lemma pairless_mode set_iter items rd hd n :
  (forall it, In it (Analytics.fallback_population items) -> len (tags it) < 2) ->
  Analytics.mode (snd (Analytics.find_rising_edges set_iter items rd hd n))
  = Analytics.Fallback.
Proof.
  intros H. pose proof (pairless_windows items rd hd H) as HW.
  unfold Analytics.find_rising_edges, Analytics.initial_stats.
  rewrite HW. destruct (Analytics.items_with_time items); reflexivity.
Qed.

Lemma pairless_global_edges items :
  (forall it, In it (Analytics.fallback_population items) -> len (tags it) < 2) ->
  Analytics.global_edges items = [].
Proof.
  intros H. unfold Analytics.global_edges.
  replace (flat_map paired_tags (Analytics.fallback_population items))
    with (@nil edge); [reflexivity|].
  symmetry. induction (Analytics.fallback_population items) as [|x r IH];
    [reflexivity|].
  simpl. unfold paired_tags at 1.
  replace (len (tags x) <? 2) with true
    by (symmetry; apply Z.ltb_lt; apply H; now left).
  apply IH. intros it Hit. apply H. now right.
Qed.

End EmptyFacts.

(** X20: how many suggestions [generate_creation_suggestions] makes.
    There are always two structure suggestions, one tag suggestion and one
    title suggestion, in this order, after the topic suggestions; the two
    topic suggestions are made only when there are two rising edges or three
    PageRank tags.  So the list has six suggestions in that case and four
    otherwise, four in particular when both inputs are empty. *)
Theorem suggestions_count (keyword : string) (pagerank_top : list (tag * Q))
    (rising_edges : list Analytics.entry) :
  let out := Suggestions.generate_creation_suggestions keyword pagerank_top
                                                       rising_edges in
  map Suggestions.kind out
  = (if (2 <=? len rising_edges) || (3 <=? len pagerank_top)
     then ["选题"; "选题"] else [])
    ++ ["结构"; "结构"; "标签"; "标题"] /\
  (len out = 6 <-> 2 <= len rising_edges \/ 3 <= len pagerank_top) /\
  (len out = 4 <-> len rising_edges < 2 /\ len pagerank_top < 3).
Proof.
  intros out.
  assert (Hkinds : map Suggestions.kind out
                   = (if (2 <=? len rising_edges) || (3 <=? len pagerank_top)
                      then ["选题"; "选题"] else [])
                     ++ ["结构"; "结构"; "标签"; "标题"]).
  { subst out. unfold Suggestions.generate_creation_suggestions.
    rewrite !map_app.
    assert (Htag : Suggestions.kind (Suggestions.tag_suggestion keyword pagerank_top)
                   = "标签").
    { unfold Suggestions.tag_suggestion.
      destruct pagerank_top as [|[? ?] [|[? ?] [|[? ?] [|[? ?] [|? ?]]]]];
        reflexivity. }
    assert (Htitle : Suggestions.kind (Suggestions.title_suggestion pagerank_top)
                     = "标题").
    { unfold Suggestions.title_suggestion.
      destruct pagerank_top as [|[? ?] ?]; reflexivity. }
    cbn [map]. rewrite Htag, Htitle.
    change (map Suggestions.kind Suggestions.structure_suggestions)
      with ["结构"; "结构"].
    f_equal. unfold Suggestions.topic_suggestions.
    destruct rising_edges as [|[[[a1 b1] s1] d1] [|[[[a2 b2] s2] d2] r]];
      [destruct pagerank_top as [|[t1 q1] [|[t2 q2] [|p3 l]]]; try reflexivity
      |destruct pagerank_top as [|[t1 q1] [|[t2 q2] [|p3 l]]]; try reflexivity
      |];
      match goal with
      | |- _ = if ?c then _ else _ =>
          replace c with true; [reflexivity|]
      end;
      symmetry; apply Bool.orb_true_iff; [right|right|left];
      apply Z.leb_le; unfold len; cbn [List.length]; lia. }
  split; [exact Hkinds|].
  assert (Hlen : len out = len (map Suggestions.kind out))
    by (unfold len; now rewrite length_map).
  rewrite Hlen, Hkinds.
  destruct (Z.leb_spec 2 (len rising_edges)) as [H2|H2];
    destruct (Z.leb_spec 3 (len pagerank_top)) as [H3|H3];
    cbn [orb app]; unfold len in *; cbn [List.length]; split; lia.
Qed.

(** * The analysis on the records as parsed *)

(** ** The method and the analysis on the time line *)
Module DatedFacts.
Import Analytics.

Lemma as_item_naive it : Dated.as_item (Dated.naive it) = it.
Proof. destruct it as [[t|] ts]; reflexivity. Qed.

Lemma as_items_naive items : map Dated.as_item (map Dated.naive items) = items.
Proof.
  rewrite map_map. rewrite <- (map_id items) at 2.
  apply map_ext. exact as_item_naive.
Qed.

Lemma items_with_time_as_item records :
  items_with_time (map Dated.as_item records)
  = map Dated.on_time_line (Dated.items_with_time records).
Proof.
  induction records as [|r l IH]; [reflexivity|].
  unfold items_with_time, Dated.items_with_time in *. cbn [map flat_map].
  rewrite IH, map_app. f_equal.
  unfold Dated.as_item at 1. cbn [time].
  destruct (Dated.parsed_time r) as [d|] eqn:Ep; [|reflexivity].
  cbn [option_map map]. unfold Dated.on_time_line, Dated.as_item. cbn [fst snd].
  now rewrite Ep.
Qed.

Lemma In_dated_items_with_time records r d :
  In (r, d) (Dated.items_with_time records)
  <-> In r records /\ Dated.parsed_time r = Some d.
Proof.
  unfold Dated.items_with_time. rewrite in_flat_map. split.
  - intros [x [Hx H]]. destruct (Dated.parsed_time x) eqn:E; [|destruct H].
    destruct H as [H|[]]. inversion H; subst. auto.
  - intros [Hin Ht]. exists r. split; [exact Hin|]. rewrite Ht. now left.
Qed.

Lemma instant_minus_days d n :
  Clock.instant (Clock.minus_days d n) = Clock.instant d - timedelta_days n.
Proof.
  unfold Clock.instant, Clock.minus_days. cbn [Clock.wall Clock.utcoffset].
  destruct (Clock.utcoffset d); lia.
Qed.

Lemma aware_minus_days d n : Clock.aware (Clock.minus_days d n) = Clock.aware d.
Proof. reflexivity. Qed.

(** *** [max] *)

Lemma forallb_pointwise {A : Type} (f g : A -> bool) (l : list A) :
  (forall x, f x = g x) -> forallb f l = forallb g l.
Proof. intros H. induction l as [|x r IH]; [reflexivity|]. simpl. now rewrite H, IH. Qed.

Lemma max_from_comparable best l :
  forallb (fun d => Bool.eqb (Clock.aware d) (Clock.aware best)) l = true ->
  exists d, Clock.max_from best l = Clock.Ok d /\
            Clock.instant d = fold_left Z.max (map Clock.instant l) (Clock.instant best) /\
            Clock.aware d = Clock.aware best /\
            In d (best :: l).
Proof.
  revert best. induction l as [|y r IH]; intros best H.
  - exists best. simpl. auto.
  - cbn [forallb] in H. apply andb_true_iff in H. destruct H as [Hy Hr].
    apply Bool.eqb_prop in Hy.
    cbn [Clock.max_from map fold_left]. unfold Clock.gt.
    rewrite Hy, Bool.eqb_reflx.
    destruct (Clock.instant y >? Clock.instant best) eqn:E.
    + destruct (IH y) as [d [Hd [Hi [Ha Hin]]]].
      { rewrite <- Hr. apply forallb_pointwise. intros x. now rewrite Hy. }
      exists d. split; [exact Hd|]. split; [|split; [congruence | now right]].
      rewrite Hi. f_equal. apply Z.gtb_lt in E. lia.
    + destruct (IH best Hr) as [d [Hd [Hi [Ha Hin]]]].
      exists d. split; [exact Hd|]. split; [|split; [exact Ha|]].
      * rewrite Hi. f_equal. rewrite Z.gtb_ltb in E. apply Z.ltb_ge in E. lia.
      * destruct Hin as [<-|Hin]; [now left | right; now right].
Qed.

Lemma max_from_mixed best l :
  forallb (fun d => Bool.eqb (Clock.aware d) (Clock.aware best)) l = false ->
  Clock.max_from best l = Clock.TypeError.
Proof.
  revert best. induction l as [|y r IH]; intros best H; [discriminate|].
  cbn [forallb] in H. cbn [Clock.max_from]. unfold Clock.gt.
  destruct (Bool.eqb (Clock.aware y) (Clock.aware best)) eqn:Ey; [|reflexivity].
  cbn [andb] in H. apply Bool.eqb_prop in Ey.
  destruct (Clock.instant y >? Clock.instant best).
  - apply IH. rewrite <- H. apply forallb_pointwise. intros x. now rewrite Ey.
  - now apply IH.
Qed.

(** Of several latest times, [max] returns the first. *)
Lemma max_from_first best l d :
  Clock.max_from best l = Clock.Ok d ->
  exists l1 l2, best :: l = l1 ++ d :: l2 /\
    Forall (fun x => Clock.instant x < Clock.instant d) l1 /\
    Forall (fun x => Clock.instant x <= Clock.instant d) l2.
Proof.
  assert (H : forall l best,
             Clock.max_from best l = Clock.Ok d ->
             (d = best /\ Forall (fun x => Clock.instant x <= Clock.instant d) l)
             \/ (Clock.instant best < Clock.instant d /\
                 exists l1 l2, l = l1 ++ d :: l2 /\
                   Forall (fun x => Clock.instant x < Clock.instant d) l1 /\
                   Forall (fun x => Clock.instant x <= Clock.instant d) l2)).
  { clear. induction l as [|y r IH]; intros best Hm.
    - left. simpl in Hm. inversion Hm. split; [reflexivity | constructor].
    - cbn [Clock.max_from] in Hm. unfold Clock.gt in Hm.
      destruct (Bool.eqb (Clock.aware y) (Clock.aware best)); [|discriminate].
      destruct (Clock.instant y >? Clock.instant best) eqn:E.
      + apply Z.gtb_lt in E. right.
        destruct (IH y Hm) as [[-> Hall]|[Hlt [l1 [l2 [-> [H1 H2]]]]]].
        * split; [exact E|]. exists [], r. split; [reflexivity|].
          split; [constructor | exact Hall].
        * split; [lia|]. exists (y :: l1), l2. split; [reflexivity|].
          split; [constructor; assumption | exact H2].
      + rewrite Z.gtb_ltb in E. apply Z.ltb_ge in E.
        destruct (IH best Hm) as [[-> Hall]|[Hlt [l1 [l2 [-> [H1 H2]]]]]].
        * left. split; [reflexivity|]. constructor; assumption.
        * right. split; [exact Hlt|]. exists (y :: l1), l2.
          split; [reflexivity|]. split; [constructor; [lia | exact H1] | exact H2]. }
  intros Hm. destruct (H l best Hm) as [[-> Hall]|[Hlt [l1 [l2 [-> [H1 H2]]]]]].
  - exists [], l. split; [reflexivity|]. split; [constructor | exact Hall].
  - exists (best :: l1), l2. split; [reflexivity|].
    split; [constructor; assumption | exact H2].
Qed.

(** *** The window loop *)

Lemma window_step_refines rt ht w (p : Dated.record * Clock.datetime) :
  Clock.aware (snd p) = Clock.aware rt -> Clock.aware ht = Clock.aware rt ->
  Dated.window_step rt ht (Clock.Ok w) p
  = Clock.Ok (window_step (Clock.instant rt) (Clock.instant ht) w (Dated.on_time_line p)).
Proof.
  intros Hp Hh. unfold Dated.window_step, window_step, window_of, Clock.ge, Dated.on_time_line.
  cbn [fst snd]. rewrite Hh, Hp, Bool.eqb_reflx.
  change (tags (Dated.as_item (fst p))) with (Dated.record_tags (fst p)).
  destruct (len (Dated.record_tags (fst p)) <? 2); [reflexivity|].
  destruct (Clock.instant (snd p) >=? Clock.instant rt); [reflexivity|].
  destruct (Clock.instant (snd p) >=? Clock.instant ht); reflexivity.
Qed.

Lemma window_loop_refines rt ht (l : list (Dated.record * Clock.datetime)) w :
  Forall (fun p => Clock.aware (snd p) = Clock.aware rt) l ->
  Clock.aware ht = Clock.aware rt ->
  fold_left (Dated.window_step rt ht) l (Clock.Ok w)
  = Clock.Ok (fold_left (window_step (Clock.instant rt) (Clock.instant ht))
                        (map Dated.on_time_line l) w).
Proof.
  intros Hall Hh. revert w. induction Hall as [|p r Hp _ IH]; intros w; [reflexivity|].
  cbn [fold_left map]. rewrite (@window_step_refines rt ht w p Hp Hh). apply IH.
Qed.

(** *** Comparable times *)

Lemma comparable_iff records :
  Dated.comparable records = true <->
  (forall p q, In p (Dated.items_with_time records) ->
               In q (Dated.items_with_time records) ->
               Clock.aware (snd p) = Clock.aware (snd q)).
Proof.
  unfold Dated.comparable.
  destruct (Dated.items_with_time records) as [|p0 l]; [split; [intros _ p q []|auto]|].
  rewrite forallb_forall. split.
  - intros H p q Hp Hq.
    assert (Hk : forall x, In x (p0 :: l) -> Clock.aware (snd x) = Clock.aware (snd p0)).
    { intros x [<-|Hx]; [reflexivity|]. now apply Bool.eqb_prop, H. }
    now rewrite (Hk p Hp), (Hk q Hq).
  - intros H x Hx. rewrite (H x p0); [apply Bool.eqb_reflx | now right | now left].
Qed.

Lemma forallb_snd (f : Clock.datetime -> bool) (l : list (Dated.record * Clock.datetime)) :
  forallb f (map snd l) = forallb (fun q => f (snd q)) l.
Proof. induction l as [|x r IH]; [reflexivity|]. simpl. now rewrite IH. Qed.

(** *** The method refines the analysis on the time line *)

Lemma find_rising_edges_comparable set_iter records rd hd n :
  Dated.comparable records = true ->
  Dated.find_rising_edges set_iter records rd hd n
  = Clock.Ok (Dated.printed records
                (find_rising_edges set_iter (map Dated.as_item records) rd hd n)).
Proof.
  intros Hc. pose proof (items_with_time_as_item records) as Ei.
  unfold Dated.comparable in Hc.
  unfold Dated.find_rising_edges, Dated.printed, Dated.anchor_text_of.
  destruct (Dated.items_with_time records) as [|p l] eqn:E.
  - unfold find_rising_edges. rewrite Ei. reflexivity.
  - rewrite <- (forallb_snd (fun d => Bool.eqb (Clock.aware d) (Clock.aware (snd p)))) in Hc.
    destruct (max_from_comparable _ _ Hc) as [d [Hd [Hi [Ha Hin]]]].
    rewrite Hd.
    set (items := map Dated.as_item records) in *.
    assert (Hanchor : anchor_of items = Clock.instant d).
    { unfold anchor_of. rewrite Ei. cbn [map max_time Dated.on_time_line snd].
      rewrite Hi. f_equal. rewrite !map_map. reflexivity. }
    assert (Hkind : Forall (fun q => Clock.aware (snd q)
                                     = Clock.aware (Clock.minus_days d rd)) (p :: l)).
    { rewrite aware_minus_days, Ha. constructor; [reflexivity|].
      apply Forall_forall. intros q Hq.
      rewrite forallb_snd, forallb_forall in Hc. now apply Bool.eqb_prop, Hc. }
    assert (Hw : fold_left (Dated.window_step (Clock.minus_days d rd)
                                              (Clock.minus_days d (rd + hd)))
                           (p :: l) (Clock.Ok empty_windows)
                 = Clock.Ok (windows_of items rd hd)).
    { rewrite (@window_loop_refines _ _ _ _ Hkind) by reflexivity.
      unfold windows_of, recent_threshold, historical_threshold.
      now rewrite Hanchor, Ei, !instant_minus_days. }
    rewrite Hw. cbv zeta.
    assert (Hlen : len (items_with_time items) = len (p :: l))
      by (rewrite Ei; unfold len; now rewrite length_map).
    unfold find_rising_edges, initial_stats. rewrite Hlen, Ei.
    cbn [map recent_count historical_count]. cbv zeta.
    cbn [recent_count historical_count].
    destruct ((len (recent_items (windows_of items rd hd)) <? 5)
              || (len (historical_items (windows_of items rd hd)) <? 5));
      [reflexivity|].
    destruct (rising_edges set_iter _ _); reflexivity.
Qed.

Lemma find_rising_edges_mixed set_iter records rd hd n :
  Dated.comparable records = false ->
  Dated.find_rising_edges set_iter records rd hd n = Clock.TypeError.
Proof.
  unfold Dated.comparable, Dated.find_rising_edges.
  destruct (Dated.items_with_time records) as [|p l]; [discriminate|].
  intros H.
  rewrite <- (forallb_snd (fun d => Bool.eqb (Clock.aware d) (Clock.aware (snd p)))) in H.
  now rewrite (max_from_mixed _ _ H).
Qed.

Lemma returns_inv set_iter records rd hd n res :
  Dated.find_rising_edges set_iter records rd hd n = Clock.Ok res ->
  Dated.comparable records = true /\
  res = Dated.printed records
          (find_rising_edges set_iter (map Dated.as_item records) rd hd n).
Proof.
  intros H. destruct (Dated.comparable records) eqn:Hc.
  - rewrite find_rising_edges_comparable in H by exact Hc.
    inversion H. auto.
  - rewrite find_rising_edges_mixed in H by exact Hc. discriminate.
Qed.

(** The anchor of the records, when their times are comparable. *)
Lemma anchor_comparable records :
  Dated.comparable records = true ->
  Dated.items_with_time records <> [] ->
  exists d l1 l2,
    Dated.anchor_text_of records = Clock.strftime d /\
    map snd (Dated.items_with_time records) = l1 ++ d :: l2 /\
    Forall (fun x => Clock.instant x < Clock.instant d) l1 /\
    Forall (fun x => Clock.instant x <= Clock.instant d) l2 /\
    Clock.instant d = anchor_of (map Dated.as_item records).
Proof.
  intros Hc Hne. pose proof (items_with_time_as_item records) as Ei.
  unfold Dated.comparable in Hc. unfold Dated.anchor_text_of.
  destruct (Dated.items_with_time records) as [|p l] eqn:E; [congruence|].
  rewrite <- (forallb_snd (fun d => Bool.eqb (Clock.aware d) (Clock.aware (snd p)))) in Hc.
  destruct (max_from_comparable _ _ Hc) as [d [Hd [Hi _]]].
  destruct (max_from_first _ _ Hd) as [l1 [l2 [El [H1 H2]]]].
  exists d, l1, l2. rewrite Hd. split; [reflexivity|].
  split; [exact El|]. split; [exact H1|]. split; [exact H2|].
  unfold anchor_of. rewrite Ei. cbn [map max_time Dated.on_time_line snd].
  rewrite Hi. f_equal. rewrite !map_map. reflexivity.
Qed.

End DatedFacts.

(** ** Weights and records that carry both tags *)
Module CoRecordFacts.
Import Analytics.


Lemma co_records_nonneg its a b : 0 <= co_records its a b.
Proof. unfold co_records, len. lia. Qed.

(** Over records that repeat no tag, the counters of the windows hold
    for each pair the number of records of the window with both tags. *)
Lemma window_weights_co_records items rd hd a b :
  Forall unique_tags items -> a <> b ->
  let w := windows_of items rd hd in
  get edge_eqb (recent_edges w) (edge_key a b) = co_records (recent_items w) a b /\
  get edge_eqb (historical_edges w) (edge_key a b)
  = co_records (historical_items w) a b /\
  get edge_eqb (all_edges w) (edge_key a b)
  = co_records (map fst (items_with_time items)) a b.
Proof.
  intros Hu Hne w. subst w. rewrite windows_of_eq.
  cbn [recent_edges historical_edges recent_items historical_items all_edges].
  repeat split; apply pair_weight_counted;
    auto using unique_tags_timed, unique_tags_all_timed.
Qed.

(** A pair that a window counts is a pair of tags of one record. *)
Lemma window_keys_pairs items rd hd e :
  let w := windows_of items rd hd in
  In e (keys (recent_edges w)) \/ In e (keys (historical_edges w)) ->
  exists it, In it items /\ In e (tag_pairs (tags it)).
Proof.
  intros w. subst w. rewrite windows_of_eq.
  cbn [recent_edges historical_edges].
  rewrite !(In_keys_incr_all edge_eqb edge_eqb_eq). simpl.
  intros [[H|[]]|[H|[]]]; apply In_paired_tags in H;
    destruct H as [it [Hit [_ Hp]]]; apply in_map_iff in Hit;
    destruct Hit as [[it' t] [E Hf]]; simpl in E; subst it';
    apply filter_In in Hf; destruct Hf as [Hf _];
    apply In_items_with_time in Hf; exists it; tauto.
Qed.




(** A pair of the tags of a record that repeats none: two distinct tags,
    the smaller first. *)
Lemma unique_pair_key ts a b :
  NoDup ts -> In (a, b) (tag_pairs ts) ->
  a <> b /\ edge_key a b = (a, b) /\ In a ts /\ In b ts.
Proof.
  intros Hnd Hp. split; [exact (tag_pairs_distinct Hnd Hp)|].
  split; [|now apply tag_pairs_members].
  unfold edge_key. now rewrite (tag_pairs_ordered _ _ _ Hp).
Qed.

End CoRecordFacts.

Import CoRecordFacts.

(** ** Fallbacks *)

(** C4, as the claim states it, fails: with five records in each window
    and no rising edge, the entries carry the reason of the other guard,
    and no entry reports that no rising edge was found. *)
Lemma steady_reports_insufficient_samples :
  Dated.find_rising_edges Analytics.first_seen DatedSamples.steady 7 30 10
  = Clock.Ok
      ([("a", "b", 0%Q, Analytics.FallbackDetails 10 "insufficient_window_samples")],
       Analytics.mk_stats (Analytics.Formatted 8640000) 5 5 10 (Some 1) (Some 1)
                          Analytics.Fallback) /\
  Forall (fun en => forall n,
            Analytics.entry_details en
            <> Analytics.FallbackDetails n "no rising edges found")
         [("a", "b", 0%Q, Analytics.FallbackDetails 10 "insufficient_window_samples")].
Proof.
  split; [vm_compute; reflexivity|].
  repeat constructor. intros n H. discriminate H.
Qed.

(** C4, amended: when both windows hold at least five of the records the
    code counts and no edge of either window qualifies as rising,
    [find_rising_edges] returns in fallback mode; every entry has score 0
    and the reason insufficient_window_samples, the same text as under the
    first guard; the returned [recent_count] and [historical_count] are the
    counts of the two windows, both at least five. *)
Theorem no_rising_edge_falls_back (set_iter : list edge -> list edge)
    (records : list Dated.record) (recent_days historical_days top_n : Z) :
  Analytics.set_iteration set_iter ->
  Dated.comparable records = true ->
  let items := map Dated.as_item records in
  let w := Analytics.windows_of items recent_days historical_days in
  5 <= len (Analytics.recent_items w) ->
  5 <= len (Analytics.historical_items w) ->
  (forall e, In e (keys (Analytics.recent_edges w))
             \/ In e (keys (Analytics.historical_edges w)) ->
             Analytics.qualifies (get edge_eqb (Analytics.recent_edges w) e)
                                 (get edge_eqb (Analytics.historical_edges w) e)
             = false) ->
  exists res,
    Dated.find_rising_edges set_iter records recent_days historical_days top_n
    = Clock.Ok res /\
    Analytics.mode (snd res) = Analytics.Fallback /\
    Forall (fun en =>
              Analytics.score en = 0%Q /\
              Analytics.entry_details en
              = Analytics.FallbackDetails
                  (get edge_eqb (Analytics.global_edges items) (Analytics.entry_edge en))
                  "insufficient_window_samples")
           (fst res) /\
    Analytics.recent_count (snd res) = len (Analytics.recent_items w) /\
    Analytics.historical_count (snd res) = len (Analytics.historical_items w) /\
    5 <= Analytics.recent_count (snd res) /\
    5 <= Analytics.historical_count (snd res).
Proof.
  intros Hs Hc items w Hr Hh Hq.
  rewrite (DatedFacts.find_rising_edges_comparable set_iter records recent_days
             historical_days top_n Hc).
  fold items. eexists. split; [reflexivity|].
  cbn [fst snd Dated.printed Dated.set_anchor Analytics.mode Analytics.recent_count
       Analytics.historical_count].
  set (core := Analytics.find_rising_edges set_iter items recent_days historical_days
                                           top_n).
  assert (Hne : Analytics.items_with_time items <> []).
  { intros E. pose proof (windows_without_time items recent_days historical_days E) as Ew.
    fold w in Ew. rewrite Ew in Hr. unfold len in Hr. simpl in Hr. lia. }
  assert (Hm : Analytics.mode (snd core) = Analytics.Fallback).
  { subst core. unfold Analytics.find_rising_edges.
    destruct (Analytics.items_with_time items) as [|p l] eqn:El; [reflexivity|].
    fold w. rewrite (@nothing_rises set_iter _ _ Hs Hq).
    now destruct (_ || _). }
  assert (Hst : snd core = Analytics.set_mode
                             (Analytics.initial_stats items recent_days historical_days)
                             Analytics.Fallback)
    by (subst core; now apply fallback_stats).
  split; [exact Hm|]. split.
  { subst core. rewrite fallback_result by exact Hm.
    apply fallback_entries, global_edges_NoDup. }
  rewrite Hst.
  cbn [Analytics.set_mode Analytics.initial_stats Analytics.recent_count
       Analytics.historical_count].
  fold w. auto.
Qed.

Lemma no_rising_edge_falls_back_witness :
  exists res,
    Dated.find_rising_edges Analytics.first_seen DatedSamples.steady 7 30 10
    = Clock.Ok res /\
    Analytics.mode (snd res) = Analytics.Fallback /\
    5 <= Analytics.recent_count (snd res).
Proof.
  assert (Hc : Dated.comparable DatedSamples.steady = true) by (vm_compute; reflexivity).
  assert (Hr : 5 <= len (Analytics.recent_items
                           (Analytics.windows_of (map Dated.as_item DatedSamples.steady)
                                                 7 30)))
    by (vm_compute; discriminate).
  assert (Hh : 5 <= len (Analytics.historical_items
                           (Analytics.windows_of (map Dated.as_item DatedSamples.steady)
                                                 7 30)))
    by (vm_compute; discriminate).
  assert (Hq : forall e,
             In e (keys (Analytics.recent_edges
                           (Analytics.windows_of (map Dated.as_item DatedSamples.steady)
                                                 7 30)))
             \/ In e (keys (Analytics.historical_edges
                              (Analytics.windows_of
                                 (map Dated.as_item DatedSamples.steady) 7 30))) ->
             Analytics.qualifies
               (get edge_eqb
                    (Analytics.recent_edges
                       (Analytics.windows_of (map Dated.as_item DatedSamples.steady)
                                             7 30)) e)
               (get edge_eqb
                    (Analytics.historical_edges
                       (Analytics.windows_of (map Dated.as_item DatedSamples.steady)
                                             7 30)) e)
             = false).
  { intros e He. vm_compute in He.
    destruct He as [[<-|[]]|[<-|[]]]; vm_compute; reflexivity. }
  destruct (@no_rising_edge_falls_back Analytics.first_seen DatedSamples.steady 7 30 10
              first_seen_iteration Hc Hr Hh Hq) as [res [E [Hm [_ [_ [_ [H5 _]]]]]]].
  exists res. split; [exact E|]. split; [exact Hm | exact H5].
Defined.




(** ** Rising mode *)
Module RisingFacts.
Import Analytics.

Lemma co_records_sym its a b : co_records its a b = co_records its b a.
Proof.
  unfold co_records. f_equal. apply filter_ext. intros it. apply andb_comm.
Qed.

Lemma get_nonzero_key (c : edge_counter) e : get edge_eqb c e <> 0 -> In e (keys c).
Proof.
  induction c as [|[k n] t IH]; simpl; [congruence|].
  destruct (edge_eqb e k) eqn:E.
  - intros _. left. symmetry. now apply edge_eqb_eq.
  - intros H. right. now apply IH.
Qed.

(** What the method returns in rising mode. *)
Lemma rising_returns set_iter records rd hd n res :
  Dated.find_rising_edges set_iter records rd hd n = Clock.Ok res ->
  mode (snd res) = Rising ->
  let items := map Dated.as_item records in
  let w := windows_of items rd hd in
  Dated.comparable records = true /\
  mode (snd (find_rising_edges set_iter items rd hd n)) = Rising /\
  res = (slice_to n (rising_edges set_iter (recent_edges w) (historical_edges w)),
         Dated.set_anchor (initial_stats items rd hd) (Dated.anchor_text_of records)).
Proof.
  intros E Hm items w.
  destruct (DatedFacts.returns_inv _ _ _ _ _ E) as [Hc ->].
  fold items in Hm |- *.
  assert (Hcore : mode (snd (find_rising_edges set_iter items rd hd n)) = Rising)
    by exact Hm.
  destruct (rising_result _ _ _ _ _ Hcore) as [_ [_ Er]].
  fold w in Er. split; [exact Hc|]. split; [exact Hcore|].
  unfold Dated.printed. now rewrite Er.
Qed.

(** Two lists with the same elements, sorted by an order that ties no
    two of them, are the same list. *)
Lemma sorted_permutation_unique {A : Type} (R : A -> A -> Prop) (l l' : list A) :
  StronglySorted R l -> StronglySorted R l' -> Permutation l l' ->
  (forall x y, In x l -> In y l -> R x y -> R y x -> x = y) ->
  l = l'.
Proof.
  intros H1. revert l'. induction H1 as [|x t1 Hs1 IH Hx]; intros l' H2 Hp Hanti.
  - apply Permutation_nil in Hp. now subst.
  - destruct l' as [|y t2].
    { apply Permutation_sym, Permutation_nil in Hp. discriminate. }
    inversion H2 as [|? ? Hs2 Hy]; subst.
    assert (Hxin : In x (y :: t2)) by (apply (Permutation_in _ Hp); now left).
    assert (Hyin : In y (x :: t1))
      by (apply (Permutation_in _ (Permutation_sym Hp)); now left).
    assert (E : x = y).
    { destruct Hxin as [->|Hxin]; [reflexivity|].
      destruct (Hyin) as [->|Hyin']; [reflexivity|].
      rewrite Forall_forall in Hx, Hy.
      apply Hanti; [now left | exact Hyin | now apply Hx | now apply Hy]. }
    subst y. f_equal. apply IH; [exact Hs2 | exact (Permutation_cons_inv Hp) |].
    intros a b Ha Hb. apply Hanti; now right.
Qed.

Lemma set_orders_permutation set_iter set_iter' (l : list edge) :
  set_iteration set_iter -> set_iteration set_iter' ->
  Permutation (set_iter l) (set_iter' l).
Proof.
  intros Hs Hs'. apply NoDup_Permutation.
  - apply (proj1 (Hs l)).
  - apply (proj1 (Hs' l)).
  - intros e. rewrite (proj2 (Hs l) e), (proj2 (Hs' l) e). reflexivity.
Qed.

Lemma rising_edges_permutation set_iter set_iter' (re he : edge_counter) :
  set_iteration set_iter -> set_iteration set_iter' ->
  Permutation (rising_edges set_iter re he) (rising_edges set_iter' re he).
Proof.
  intros Hs Hs'. unfold rising_edges.
  eapply perm_trans; [apply sort_perm|].
  eapply perm_trans; [|apply Permutation_sym, sort_perm].
  apply flat_map_permutation. now apply set_orders_permutation.
Qed.

Lemma rising_edges_no_ties set_iter set_iter' (re he : edge_counter) :
  set_iteration set_iter -> set_iteration set_iter' ->
  (forall en en', In en (rising_edges set_iter re he) ->
                  In en' (rising_edges set_iter re he) ->
                  (score en == score en')%Q -> en = en') ->
  rising_edges set_iter re he = rising_edges set_iter' re he.
Proof.
  intros Hs Hs' Hties.
  apply (@sorted_permutation_unique _ (fun x y => (score y <= score x)%Q)).
  - apply by_score_sorted.
  - apply by_score_sorted.
  - now apply rising_edges_permutation.
  - intros x y Hx Hy Hxy Hyx. apply Hties; [exact Hx | exact Hy|].
    now apply Qle_antisym.
Qed.

(** The statistics do not depend on the order of the set. *)
Lemma set_order_stats set_iter set_iter' items rd hd n :
  set_iteration set_iter -> set_iteration set_iter' ->
  snd (find_rising_edges set_iter items rd hd n)
  = snd (find_rising_edges set_iter' items rd hd n).
Proof.
  intros Hs Hs'. rewrite !find_rising_edges_stats.
  destruct (items_with_time items); [reflexivity|]. cbv zeta.
  destruct (_ || _); [reflexivity|].
  pose proof (rising_empty_iff (recent_edges (windows_of items rd hd))
                (historical_edges (windows_of items rd hd)) Hs) as H.
  pose proof (rising_empty_iff (recent_edges (windows_of items rd hd))
                (historical_edges (windows_of items rd hd)) Hs') as H'.
  assert (Heq : rising_edges set_iter (recent_edges (windows_of items rd hd))
                             (historical_edges (windows_of items rd hd)) = []
                <-> rising_edges set_iter' (recent_edges (windows_of items rd hd))
                                 (historical_edges (windows_of items rd hd)) = [])
    by tauto.
  clear H H'.
  destruct (rising_edges set_iter _ _) eqn:R;
    destruct (rising_edges set_iter' _ _) eqn:R'; try reflexivity.
  - destruct Heq as [X _]. specialize (X eq_refl). discriminate.
  - destruct Heq as [_ X]. specialize (X eq_refl). discriminate.
Qed.

End RisingFacts.

Import RisingFacts.

(** C6, as the claim states it, fails: the recent weight of an edge is
    not the number of recent records that carry it.  One recent record
    lists a twice, next to b; the code gives the pair (a,b) the recent
    weight 2 and returns it as a rising edge, though the pair appears in
    one record of the recent window. *)
Lemma single_record_pair_rises :
  Dated.find_rising_edges Analytics.first_seen DatedSamples.one_record_twice 7 30 10
  = Clock.Ok
      ([("p", "q", Analytics.growth 4 0,
         Analytics.RisingDetails 4 0 (Analytics.growth 4 0));
        ("a", "b", Analytics.growth 2 0,
         Analytics.RisingDetails 2 0 (Analytics.growth 2 0))],
       Analytics.mk_stats (Analytics.Formatted 8640000) 5 5 10 (Some 3) (Some 1)
                          Analytics.Rising) /\
  co_records (Analytics.recent_items
                (Analytics.windows_of
                   (map Dated.as_item DatedSamples.one_record_twice) 7 30))
             "a" "b" = 1.
Proof. vm_compute. split; reflexivity. Qed.

(** C6, amended: over records that repeat no tag, when the method
    returns in rising mode, every returned entry names two distinct tags
    of an edge of one of the windows; its recent and historical weights are
    the numbers of records of the window that carry both tags; its score is
    (recent - historical) / (historical + 1), positive, and the recent
    weight is at least 2.  A pair that meets both conditions is returned
    when [top_n] does not cut it off: so is a pair carried by 4 recent
    records and 1 historical record, with growth 3/2.  A pair carried by
    at most one recent record is never returned. *)
Theorem rising_mode_growth (set_iter : list edge -> list edge)
    (records : list Dated.record) (recent_days historical_days top_n : Z)
    (res : list Analytics.entry * Analytics.window_stats) :
  Analytics.set_iteration set_iter ->
  let items := map Dated.as_item records in
  Forall unique_tags items ->
  Dated.find_rising_edges set_iter records recent_days historical_days top_n
  = Clock.Ok res ->
  Analytics.mode (snd res) = Analytics.Rising ->
  let w := Analytics.windows_of items recent_days historical_days in
  let re := Analytics.recent_edges w in
  let he := Analytics.historical_edges w in
  let recent a b := co_records (Analytics.recent_items w) a b in
  let historical a b := co_records (Analytics.historical_items w) a b in
  Forall (fun en =>
            let a := fst (Analytics.entry_edge en) in
            let b := snd (Analytics.entry_edge en) in
            let r := recent a b in
            let h := historical a b in
            a <> b /\
            (In (a, b) (keys re) \/ In (a, b) (keys he)) /\
            get edge_eqb re (a, b) = r /\ get edge_eqb he (a, b) = h /\
            Analytics.score en = Analytics.growth r h /\
            Analytics.score en = (inject_Z (r - h) / inject_Z (h + 1))%Q /\
            Analytics.entry_details en
            = Analytics.RisingDetails r h (Analytics.growth r h) /\
            (0 < Analytics.growth r h)%Q /\ 2 <= r)
         (fst res) /\
  (forall a b,
     a <> b ->
     (0 < Analytics.growth (recent a b) (historical a b))%Q ->
     2 <= recent a b ->
     len (Analytics.rising_edges set_iter re he) <= top_n ->
     In (fst (edge_key a b), snd (edge_key a b),
         Analytics.growth (recent a b) (historical a b),
         Analytics.RisingDetails (recent a b) (historical a b)
           (Analytics.growth (recent a b) (historical a b)))
        (fst res)) /\
  (Analytics.growth 4 1 == 3 # 2)%Q /\
  (forall a b,
     a <> b -> recent a b = 4 -> historical a b = 1 ->
     len (Analytics.rising_edges set_iter re he) <= top_n ->
     In (fst (edge_key a b), snd (edge_key a b), Analytics.growth 4 1,
         Analytics.RisingDetails 4 1 (Analytics.growth 4 1))
        (fst res)) /\
  (forall a b,
     a <> b -> recent a b <= 1 ->
     forall en, In en (fst res) ->
                Analytics.entry_edge en <> (a, b) /\ Analytics.entry_edge en <> (b, a)).
Proof.
  intros Hs items Hu E Hm w re he recent historical.
  destruct (rising_returns _ _ _ _ _ E Hm) as [_ [_ ->]].
  fold items. fold w. fold re he. cbn [fst].
  assert (Hentry : forall en,
             In en (slice_to top_n (Analytics.rising_edges set_iter re he)) ->
             exists a b,
               en = (a, b, Analytics.growth (recent a b) (historical a b),
                     Analytics.RisingDetails (recent a b) (historical a b)
                       (Analytics.growth (recent a b) (historical a b))) /\
               a <> b /\
               (In (a, b) (keys re) \/ In (a, b) (keys he)) /\
               get edge_eqb re (a, b) = recent a b /\
               get edge_eqb he (a, b) = historical a b /\
               (0 < Analytics.growth (recent a b) (historical a b))%Q /\
               2 <= recent a b).
  { intros en Hen. apply slice_to_In in Hen.
    apply rising_edges_In in Hen. destruct Hen as [[a b] [He Hen]].
    apply (proj1 (proj2 (Hs _) (a, b))) in He. apply in_app_or in He.
    apply rising_entry_In in Hen. destruct Hen as [Hq ->].
    apply qualifies_iff in Hq. destruct Hq as [Hg H2].
    cbn [fst snd].
    destruct (@window_keys_pairs items recent_days historical_days (a, b) He)
      as [it [Hit Hp]].
    pose proof Hu as Hu'. rewrite Forall_forall in Hu'.
    destruct (@unique_pair_key _ _ _ (Hu' it Hit) Hp) as [Hne [Hkey _]].
    destruct (@window_weights_co_records items recent_days historical_days a b Hu Hne)
      as [Hr [Hh _]].
    rewrite Hkey in Hr, Hh. fold w in Hr, Hh. fold re in Hr. fold he in Hh.
    fold (recent a b) in Hr. fold (historical a b) in Hh.
    rewrite Hr in Hg, H2. rewrite Hh in Hg. rewrite Hr, Hh.
    exists a, b. repeat split; assumption || reflexivity. }
  assert (Hback : forall a b,
             a <> b ->
             (0 < Analytics.growth (recent a b) (historical a b))%Q ->
             2 <= recent a b ->
             len (Analytics.rising_edges set_iter re he) <= top_n ->
             In (fst (edge_key a b), snd (edge_key a b),
                 Analytics.growth (recent a b) (historical a b),
                 Analytics.RisingDetails (recent a b) (historical a b)
                   (Analytics.growth (recent a b) (historical a b)))
                (slice_to top_n (Analytics.rising_edges set_iter re he))).
  { intros a b Hne Hg H2 Hlen. rewrite slice_to_all by exact Hlen.
    destruct (@window_weights_co_records items recent_days historical_days a b Hu Hne)
      as [Hr [Hh _]].
    fold w in Hr, Hh. fold re in Hr. fold he in Hh.
    fold (recent a b) in Hr. fold (historical a b) in Hh.
    apply rising_edges_In. exists (edge_key a b). split.
    - apply (proj2 (Hs _)). apply in_or_app. left.
      apply get_nonzero_key. rewrite Hr. lia.
    - apply rising_entry_In. rewrite Hr, Hh. split; [|reflexivity].
      apply qualifies_iff. auto. }
  split; [|split; [exact Hback | split; [reflexivity | split] ] ].
  - apply Forall_forall. intros en Hen.
    destruct (Hentry en Hen) as [a [b [-> [Hne [Hk [Hr [Hh [Hg H2]]]]]]]].
    unfold Analytics.entry_edge, Analytics.score, Analytics.entry_details.
    cbn [fst snd]. repeat split; assumption || reflexivity.
  - intros a b Hne H4 H1 Hlen.
    pose proof (Hback a b Hne) as H. rewrite H4, H1 in H.
    apply H; [reflexivity | lia | exact Hlen].
  - intros a b Hne H1 en Hen.
    destruct (Hentry en Hen) as [a' [b' [-> [_ [_ [_ [_ [_ H2]]]]]]]].
    unfold Analytics.entry_edge. cbn [fst snd].
    split; intros Ee; inversion Ee; subst a' b'.
    + lia.
    + unfold recent in H2, H1. rewrite co_records_sym in H2. lia.
Qed.

Lemma rising_mode_growth_witness :
  exists res,
    Dated.find_rising_edges Analytics.first_seen DatedSamples.tied 7 30 10 = Clock.Ok res /\
    (Analytics.growth 4 1 == 3 # 2)%Q.
Proof.
  assert (Hu : Forall unique_tags (map Dated.as_item DatedSamples.tied)).
  { unfold DatedSamples.tied. rewrite DatedFacts.as_items_naive.
    exact samples_tied_unique. }
  destruct (Dated.find_rising_edges Analytics.first_seen DatedSamples.tied 7 30 10)
    as [|res] eqn:E; [vm_compute in E; discriminate|].
  assert (Hm : Analytics.mode (snd res) = Analytics.Rising).
  { pose proof E as E'. vm_compute in E'. inversion E'. reflexivity. }
  exists res. split; [reflexivity|].
  destruct (@rising_mode_growth Analytics.first_seen DatedSamples.tied 7 30 10 res
              first_seen_iteration Hu E Hm) as [_ [_ [H _]]].
  exact H.
Defined.

(** C7, as the claim states it, fails: the code sorts by growth only.  The
    edges (a,b) and (c,d) both have growth 2, with recent weights 2 and 5:
    when the set yields (a,b) first, the result has (a,b) first, against
    the tie-break on recent weight; when the set yields its elements in the
    opposite order, the same records give the opposite result. *)
Lemma tied_growth_keeps_set_order :
  Analytics.set_iteration Analytics.first_seen /\
  Analytics.set_iteration Analytics.last_seen /\
  Dated.find_rising_edges Analytics.first_seen DatedSamples.tied 7 30 10
  = Clock.Ok
      ([("a", "b", Analytics.growth 2 0,
         Analytics.RisingDetails 2 0 (Analytics.growth 2 0));
        ("c", "d", Analytics.growth 5 1,
         Analytics.RisingDetails 5 1 (Analytics.growth 5 1))],
       Analytics.mk_stats (Analytics.Formatted 8640000) 7 5 12 (Some 2) (Some 2)
                          Analytics.Rising) /\
  Dated.find_rising_edges Analytics.last_seen DatedSamples.tied 7 30 10
  = Clock.Ok
      ([("c", "d", Analytics.growth 5 1,
         Analytics.RisingDetails 5 1 (Analytics.growth 5 1));
        ("a", "b", Analytics.growth 2 0,
         Analytics.RisingDetails 2 0 (Analytics.growth 2 0))],
       Analytics.mk_stats (Analytics.Formatted 8640000) 7 5 12 (Some 2) (Some 2)
                          Analytics.Rising) /\
  ~ StronglySorted TieBreak.tie_break_order
      [("a", "b", Analytics.growth 2 0,
        Analytics.RisingDetails 2 0 (Analytics.growth 2 0));
       ("c", "d", Analytics.growth 5 1,
        Analytics.RisingDetails 5 1 (Analytics.growth 5 1))].
Proof.
  split; [exact first_seen_iteration|]. split; [exact last_seen_iteration|].
  split; [vm_compute; reflexivity|]. split; [vm_compute; reflexivity|].
  intros H. inversion H as [|x l _ Hall]; subst.
  inversion Hall as [|y l' Hord _]; subst.
  destruct Hord as [Hlt|[_ [Hlt|[Heq _]]]].
  - vm_compute in Hlt. discriminate.
  - vm_compute in Hlt. discriminate.
  - vm_compute in Heq. discriminate.
Qed.

(** C7, amended: in rising mode the result is the first [top_n] entries
    of the rising edges sorted by growth, largest first; the sort is
    stable and has no tie-break, so entries of equal growth stay in the
    order in which the set of edges is iterated.  An invocation that
    iterates the set in another order returns the same [window_stats] and
    ranks the same entries; it returns the identical output when no two
    rising edges have the same growth. *)
Theorem rising_edges_sorted_by_growth (set_iter : list edge -> list edge)
    (records : list Dated.record) (recent_days historical_days top_n : Z)
    (res : list Analytics.entry * Analytics.window_stats) :
  Dated.find_rising_edges set_iter records recent_days historical_days top_n
  = Clock.Ok res ->
  Analytics.mode (snd res) = Analytics.Rising ->
  let items := map Dated.as_item records in
  let re := Analytics.recent_edges
              (Analytics.windows_of items recent_days historical_days) in
  let he := Analytics.historical_edges
              (Analytics.windows_of items recent_days historical_days) in
  fst res = slice_to top_n (Analytics.rising_edges set_iter re he) /\
  StronglySorted (fun x y => (Analytics.score y <= Analytics.score x)%Q) (fst res) /\
  StronglySorted (fun x y => (Analytics.score y <= Analytics.score x)%Q)
                 (Analytics.rising_edges set_iter re he) /\
  (forall q,
     filter (fun en => Qeq_bool (Analytics.score en) q)
            (Analytics.rising_edges set_iter re he)
     = filter (fun en => Qeq_bool (Analytics.score en) q)
              (flat_map (Analytics.rising_entry re he)
                        (set_iter (keys re ++ keys he)))) /\
  (Analytics.set_iteration set_iter ->
   forall set_iter', Analytics.set_iteration set_iter' ->
   exists res',
     Dated.find_rising_edges set_iter' records recent_days historical_days top_n
     = Clock.Ok res' /\
     snd res' = snd res /\
     fst res' = slice_to top_n (Analytics.rising_edges set_iter' re he) /\
     Permutation (Analytics.rising_edges set_iter re he)
                 (Analytics.rising_edges set_iter' re he) /\
     (set_iter' (keys re ++ keys he) = set_iter (keys re ++ keys he) -> res' = res) /\
     ((forall en en',
         In en (Analytics.rising_edges set_iter re he) ->
         In en' (Analytics.rising_edges set_iter re he) ->
         (Analytics.score en == Analytics.score en')%Q -> en = en') ->
      res' = res)).
Proof.
  intros E Hm items re he.
  destruct (rising_returns _ _ _ _ _ E Hm) as [Hc [Hcore ->]].
  fold items. fold re he. cbn [fst snd].
  split; [reflexivity|].
  assert (Hsorted : StronglySorted
                      (fun x y => (Analytics.score y <= Analytics.score x)%Q)
                      (Analytics.rising_edges set_iter re he))
    by apply by_score_sorted.
  split; [|split; [exact Hsorted | split] ].
  - destruct (slice_to_prefix top_n (Analytics.rising_edges set_iter re he)) as [k ->].
    now apply sorted_firstn.
  - intros q. apply by_score_stable.
  - intros Hs set_iter' Hs'.
    assert (Hcore' : Analytics.mode
                       (snd (Analytics.find_rising_edges set_iter' items recent_days
                               historical_days top_n)) = Analytics.Rising).
    { rewrite <- (set_order_stats items recent_days historical_days top_n Hs Hs').
      exact Hcore. }
    destruct (rising_result _ _ _ _ _ Hcore') as [_ [_ Er]].
    fold re he in Er.
    rewrite (DatedFacts.find_rising_edges_comparable set_iter' records recent_days
               historical_days top_n Hc).
    fold items. rewrite Er. unfold Dated.printed. cbn [fst snd].
    eexists. split; [reflexivity|]. cbn [fst snd].
    split; [reflexivity|]. split; [reflexivity|].
    split; [now apply rising_edges_permutation|]. split.
    + intros Hsame. unfold Analytics.rising_edges. now rewrite Hsame.
    + intros Hties. now rewrite (rising_edges_no_ties re he Hs Hs' Hties).
Qed.

Lemma rising_edges_sorted_by_growth_witness :
  exists res,
    Dated.find_rising_edges Analytics.first_seen DatedSamples.tied 7 30 10 = Clock.Ok res /\
    StronglySorted (fun x y => (Analytics.score y <= Analytics.score x)%Q) (fst res).
Proof.
  destruct (Dated.find_rising_edges Analytics.first_seen DatedSamples.tied 7 30 10)
    as [|res] eqn:E; [vm_compute in E; discriminate|].
  assert (Hm : Analytics.mode (snd res) = Analytics.Rising).
  { pose proof E as E'. vm_compute in E'. inversion E'. reflexivity. }
  exists res. split; [reflexivity|].
  destruct (@rising_edges_sorted_by_growth Analytics.first_seen DatedSamples.tied 7 30 10
              res E Hm) as [_ [H _]].
  exact H.
Defined.

(** ** The order of the records, and the anchor *)
Module RecordFacts.
Import Analytics.

Lemma stats_permuted set_iter items items' rd hd n :
  Permutation items items' -> set_iteration set_iter ->
  snd (find_rising_edges set_iter items rd hd n)
  = snd (find_rising_edges set_iter items' rd hd n).
Proof.
  intros Hp Hs. rewrite !find_rising_edges_stats.
  destruct (windows_permuted rd hd Hp) as [Es [Gr [Gh [_ [Kr Kh]]]]].
  assert (P : Permutation (items_with_time items) (items_with_time items'))
    by (apply flat_map_permutation, Hp).
  cbv zeta. rewrite <- Es.
  assert (Hrise :
    rising_edges set_iter (recent_edges (windows_of items rd hd))
                 (historical_edges (windows_of items rd hd)) = [] <->
    rising_edges set_iter (recent_edges (windows_of items' rd hd))
                 (historical_edges (windows_of items' rd hd)) = []).
  { rewrite !(rising_empty_iff _ _ Hs). split; intros H e He.
    - rewrite <- Gr, <- Gh. apply H. rewrite Kr, Kh. exact He.
    - rewrite Gr, Gh. apply H. rewrite <- Kr, <- Kh. exact He. }
  destruct (items_with_time items) as [|p r] eqn:E1;
    destruct (items_with_time items') as [|p' r'] eqn:E2.
  - unfold len. now rewrite (Permutation_length Hp).
  - apply Permutation_nil in P. discriminate.
  - apply Permutation_sym, Permutation_nil in P. discriminate.
  - destruct (_ || _); [reflexivity|].
    destruct (rising_edges set_iter (recent_edges (windows_of items _ _)) _) eqn:R1;
      destruct (rising_edges set_iter (recent_edges (windows_of items' _ _)) _) eqn:R2;
      try reflexivity.
    + destruct Hrise as [H _]. specialize (H eq_refl). discriminate.
    + destruct Hrise as [_ H]. specialize (H eq_refl). discriminate.
Qed.

Lemma raises_iff set_iter records rd hd n :
  Dated.find_rising_edges set_iter records rd hd n = Clock.TypeError
  <-> Dated.comparable records = false.
Proof.
  destruct (Dated.comparable records) eqn:Hc.
  - rewrite DatedFacts.find_rising_edges_comparable by exact Hc.
    split; discriminate.
  - rewrite DatedFacts.find_rising_edges_mixed by exact Hc. tauto.
Qed.

Lemma comparable_permutation records records' :
  Permutation records records' ->
  Dated.comparable records = Dated.comparable records'.
Proof.
  intros Hp.
  assert (P : Permutation (Dated.items_with_time records)
                          (Dated.items_with_time records'))
    by (apply flat_map_permutation, Hp).
  assert (H : Dated.comparable records = true <-> Dated.comparable records' = true).
  { rewrite !DatedFacts.comparable_iff. split; intros H p q Hx Hy; apply H.
    - exact (Permutation_in _ (Permutation_sym P) Hx).
    - exact (Permutation_in _ (Permutation_sym P) Hy).
    - exact (Permutation_in _ P Hx).
    - exact (Permutation_in _ P Hy). }
  destruct (Dated.comparable records), (Dated.comparable records'); try reflexivity.
  - symmetry. now apply H.
  - now apply H.
Qed.

Lemma anchor_permutation items items' :
  Permutation items items' -> anchor_of items = anchor_of items'.
Proof.
  intros Hp. unfold anchor_of. apply max_time_permutation.
  apply flat_map_permutation, Hp.
Qed.

(** Two times with the same offset at the same instant print alike. *)
Lemma same_offset_same_text d d' :
  Clock.utcoffset d = Clock.utcoffset d' -> Clock.instant d = Clock.instant d' ->
  Clock.strftime d = Clock.strftime d'.
Proof.
  unfold Clock.instant, Clock.strftime. intros Ho.
  rewrite Ho. destruct (Clock.utcoffset d'); intros Hi; f_equal; f_equal; lia.
Qed.

End RecordFacts.

(** The anchor is printed in the offset of the first of the latest
    records: two records at one instant, one at 10:00 +08:00 and one at
    02:00 +00:00, give the text of whichever comes first. *)
Lemma anchor_printed_as_first_latest_record :
  Dated.anchor_text_of [DatedSamples.east; DatedSamples.utc]
  = Analytics.Formatted 36000 /\
  Dated.anchor_text_of [DatedSamples.utc; DatedSamples.east]
  = Analytics.Formatted 7200.
Proof. split; reflexivity. Qed.

(** X5: the order of the records does not change what is counted.  Two
    collections with the same records in another order give every edge and
    every node of the graph the same weight; [find_rising_edges] raises
    for both or for neither, and returns the same counts and the same mode
    for both.  The text of the anchor is the same too when all the times
    carry the same offset, or none. *)
Theorem record_order_irrelevant (set_iter : list edge -> list edge)
    (records records' : list Dated.record) (recent_days historical_days top_n : Z) :
  Permutation records records' ->
  Analytics.set_iteration set_iter ->
  let items := map Dated.as_item records in
  let items' := map Dated.as_item records' in
  (forall a b,
     Builder.edge_weight (Builder.edges (Builder.build_graph items)) a b
     = Builder.edge_weight (Builder.edges (Builder.build_graph items')) a b) /\
  (forall t,
     Builder.node_weight (Builder.nodes (Builder.build_graph items)) t
     = Builder.node_weight (Builder.nodes (Builder.build_graph items')) t) /\
  (Dated.find_rising_edges set_iter records recent_days historical_days top_n
   = Clock.TypeError
   <-> Dated.find_rising_edges set_iter records' recent_days historical_days top_n
       = Clock.TypeError) /\
  (forall res res',
     Dated.find_rising_edges set_iter records recent_days historical_days top_n
     = Clock.Ok res ->
     Dated.find_rising_edges set_iter records' recent_days historical_days top_n
     = Clock.Ok res' ->
     Analytics.mode (snd res) = Analytics.mode (snd res') /\
     Analytics.recent_count (snd res) = Analytics.recent_count (snd res') /\
     Analytics.historical_count (snd res) = Analytics.historical_count (snd res') /\
     Analytics.total_count (snd res) = Analytics.total_count (snd res') /\
     Analytics.recent_edges_count (snd res) = Analytics.recent_edges_count (snd res') /\
     Analytics.historical_edges_count (snd res)
     = Analytics.historical_edges_count (snd res') /\
     ((forall d d',
         In d (map snd (Dated.items_with_time records)) ->
         In d' (map snd (Dated.items_with_time records)) ->
         Clock.utcoffset d = Clock.utcoffset d') ->
      snd res = snd res')).
Proof.
  intros Hp Hs items items'.
  assert (Hpi : Permutation items items') by (apply Permutation_map, Hp).
  split; [|split; [|split]].
  - intros a b. rewrite !build_graph_edge_weight. cbv zeta.
    now rewrite (occurrences_permutation edge_eqb (edge_key a b)
                   (flat_map_permutation paired_tags Hpi)).
  - intros t. rewrite !node_weight_counted. unfold tag_occurrences.
    now rewrite (occurrences_permutation String.eqb t
                   (flat_map_permutation counted_tags Hpi)).
  - rewrite !RecordFacts.raises_iff.
    now rewrite (RecordFacts.comparable_permutation Hp).
  - intros res res' E E'.
    destruct (DatedFacts.returns_inv _ _ _ _ _ E) as [Hc ->].
    destruct (DatedFacts.returns_inv _ _ _ _ _ E') as [Hc' ->].
    fold items items'. unfold Dated.printed. cbn [snd].
    pose proof (@RecordFacts.stats_permuted set_iter items items' recent_days
                  historical_days top_n Hpi Hs) as Hst.
    rewrite <- Hst.
    unfold Dated.set_anchor.
    cbn [Analytics.mode Analytics.recent_count Analytics.historical_count
         Analytics.total_count Analytics.recent_edges_count
         Analytics.historical_edges_count].
    repeat (split; [reflexivity|]).
    intros Hoff. f_equal.
    assert (P : Permutation (Dated.items_with_time records)
                            (Dated.items_with_time records'))
      by (apply flat_map_permutation, Hp).
    destruct (Dated.items_with_time records) as [|p l] eqn:Et.
    + apply Permutation_nil in P. unfold Dated.anchor_text_of. now rewrite Et, P.
    + assert (Hne : Dated.items_with_time records <> []) by (rewrite Et; discriminate).
      assert (Hne' : Dated.items_with_time records' <> []).
      { intros X. rewrite X in P. apply Permutation_sym, Permutation_nil in P.
        discriminate. }
      destruct (DatedFacts.anchor_comparable records Hc Hne)
        as [d [l1 [l2 [Ht [El [_ [_ Hi]]]]]]].
      destruct (DatedFacts.anchor_comparable records' Hc' Hne')
        as [d' [l1' [l2' [Ht' [El' [_ [_ Hi']]]]]]].
      rewrite Ht, Ht'. apply RecordFacts.same_offset_same_text.
      * rewrite Et in El. apply Hoff.
        -- rewrite El. apply in_or_app. right. now left.
        -- apply (Permutation_in _ (Permutation_sym (Permutation_map snd P))).
           rewrite El'. apply in_or_app. right. now left.
      * rewrite Hi, Hi'. fold items items'.
        now apply RecordFacts.anchor_permutation.
Qed.

Lemma record_order_irrelevant_witness :
  Permutation DatedSamples.boundary (rev DatedSamples.boundary) /\
  (Dated.find_rising_edges Analytics.first_seen DatedSamples.boundary 7 30 10
   = Clock.TypeError
   <-> Dated.find_rising_edges Analytics.first_seen (rev DatedSamples.boundary) 7 30 10
       = Clock.TypeError).
Proof.
  assert (Hp : Permutation DatedSamples.boundary (rev DatedSamples.boundary))
    by apply Permutation_rev.
  split; [exact Hp|].
  destruct (@record_order_irrelevant Analytics.first_seen DatedSamples.boundary
              (rev DatedSamples.boundary) 7 30 10 Hp first_seen_iteration)
    as [_ [_ [H _]]].
  exact H.
Defined.

(** X10: the anchor is the latest time in the data.  When the times are
    comparable and some record has a time, the method returns; the anchor
    is the time of a record, the first among the times that no other time
    exceeds; the reported [anchor_now] is the wall clock of that time, never
    N/A; and when [recent_days] is not negative, a record with two tags
    dated at the instant of the anchor is in the recent window. *)
Theorem anchor_is_latest (set_iter : list edge -> list edge)
    (records : list Dated.record) (recent_days historical_days top_n : Z)
    (r0 : Dated.record) (d0 : Clock.datetime) :
  Dated.comparable records = true ->
  In r0 records -> Dated.parsed_time r0 = Some d0 ->
  exists res anchor earlier later,
    Dated.find_rising_edges set_iter records recent_days historical_days top_n
    = Clock.Ok res /\
    map snd (Dated.items_with_time records) = earlier ++ anchor :: later /\
    Forall (fun d => Clock.instant d < Clock.instant anchor) earlier /\
    Forall (fun d => Clock.instant d <= Clock.instant anchor) later /\
    (exists r, In r records /\ Dated.parsed_time r = Some anchor) /\
    (forall r d, In r records -> Dated.parsed_time r = Some d ->
                 Clock.instant d <= Clock.instant anchor) /\
    Analytics.anchor_now (snd res) = Clock.strftime anchor /\
    (0 <= recent_days ->
     forall r d, In r records -> Dated.parsed_time r = Some d ->
       Clock.instant d = Clock.instant anchor -> 2 <= len (Dated.record_tags r) ->
       In (Dated.as_item r)
          (Analytics.recent_items
             (Analytics.windows_of (map Dated.as_item records)
                                   recent_days historical_days))).
Proof.
  intros Hc Hin0 Ht0.
  assert (Hne : Dated.items_with_time records <> []).
  { intros E. assert (H : In (r0, d0) (Dated.items_with_time records))
      by (apply DatedFacts.In_dated_items_with_time; tauto).
    rewrite E in H. exact H. }
  destruct (DatedFacts.anchor_comparable records Hc Hne)
    as [anchor [l1 [l2 [Ht [El [H1 [H2 Hi]]]]]]].
  rewrite (DatedFacts.find_rising_edges_comparable set_iter records recent_days
             historical_days top_n Hc).
  eexists. exists anchor, l1, l2. split; [reflexivity|].
  split; [exact El|]. split; [exact H1|]. split; [exact H2|].
  assert (Hmem : forall d, In d (map snd (Dated.items_with_time records)) <->
                           exists r, In r records /\ Dated.parsed_time r = Some d).
  { intros d. rewrite in_map_iff. split.
    - intros [[r d'] [E Hp]]. simpl in E. subst d'.
      apply DatedFacts.In_dated_items_with_time in Hp. eauto.
    - intros [r Hr]. exists (r, d). split; [reflexivity|].
      now apply DatedFacts.In_dated_items_with_time. }
  split; [|split; [|split]].
  - apply Hmem. rewrite El. apply in_or_app. right. now left.
  - intros r d Hr Hd.
    assert (Hd' : In d (map snd (Dated.items_with_time records)))
      by (apply Hmem; eauto).
    rewrite El in Hd'. apply in_app_or in Hd'.
    rewrite Forall_forall in H1, H2.
    destruct Hd' as [Hd'|[<-|Hd']]; [specialize (H1 d Hd'); lia | lia | now apply H2].
  - unfold Dated.printed, Dated.set_anchor. cbn [snd Analytics.anchor_now]. exact Ht.
  - intros Hrd r d Hr Hd Hsame H2t. rewrite windows_of_eq.
    cbn [Analytics.recent_items].
    apply In_timed_part. exists (Clock.instant d).
    split; [now apply in_map|]. split.
    + unfold Dated.as_item. cbn [time]. now rewrite Hd.
    + unfold Analytics.counted_recent, Analytics.recent_threshold. cbn [fst snd].
      change (tags (Dated.as_item r)) with (Dated.record_tags r).
      apply andb_true_iff. rewrite !Z.leb_le. rewrite <- Hi, Hsame.
      pose proof (timedelta_days_nonneg Hrd). lia.
Qed.

Lemma anchor_is_latest_witness :
  exists res,
    Dated.find_rising_edges Analytics.first_seen
      [DatedSamples.east; DatedSamples.utc] 7 30 10 = Clock.Ok res /\
    Analytics.anchor_now (snd res) = Analytics.Formatted 36000.
Proof.
  assert (Hc : Dated.comparable [DatedSamples.east; DatedSamples.utc] = true)
    by reflexivity.
  assert (Hin : In DatedSamples.utc [DatedSamples.east; DatedSamples.utc])
    by (right; now left).
  assert (Ht : Dated.parsed_time DatedSamples.utc
               = Some (Clock.mk_datetime (2 * DatedSamples.hour) (Some 0)))
    by reflexivity.
  destruct (@anchor_is_latest Analytics.first_seen [DatedSamples.east; DatedSamples.utc]
              7 30 10 DatedSamples.utc _ Hc Hin Ht)
    as [res [anchor [l1 [l2 [E _]]]]].
  exists res. split; [exact E|].
  pose proof E as E'. vm_compute in E'. inversion E'. reflexivity.
Defined.

(** X19: when [find_rising_edges] raises, and when it returns no edge.
    It raises [TypeError] exactly when the parsed times are not comparable:
    some are naive and some carry an offset.  Otherwise it returns, and with
    [top_n] at least 1 the list it returns is empty exactly when no record
    that it ranks has two tags: the records with a time, or all the
    records when none has a time.  So a pair of tags in a record without a
    time is lost as soon as another record has a time. *)
Theorem no_edges_iff (set_iter : list edge -> list edge)
    (records : list Dated.record) (recent_days historical_days top_n : Z) :
  1 <= top_n ->
  let items := map Dated.as_item records in
  (Dated.find_rising_edges set_iter records recent_days historical_days top_n
   = Clock.TypeError
   <-> Dated.comparable records = false) /\
  (Dated.comparable records = true ->
   exists res,
     Dated.find_rising_edges set_iter records recent_days historical_days top_n
     = Clock.Ok res /\
     (fst res = []
      <-> forall it, In it (Analytics.fallback_population items) -> len (tags it) < 2)).
Proof.
  intros Hn items. split; [apply RecordFacts.raises_iff|].
  intros Hc.
  rewrite (DatedFacts.find_rising_edges_comparable set_iter records recent_days
             historical_days top_n Hc).
  fold items. eexists. split; [reflexivity|].
  unfold Dated.printed. cbn [fst]. split.
  - intros Hempty it Hin.
    destruct (Z.ltb_spec (len (tags it)) 2) as [Hlt|Hge]; [exact Hlt|].
    exfalso.
    exact (@ranked_pair_yields_edges set_iter items recent_days historical_days
             top_n it Hin Hge Hn Hempty).
  - intros H.
    rewrite (@fallback_result set_iter items recent_days historical_days top_n
               (EmptyFacts.pairless_mode set_iter items recent_days historical_days
                  top_n H)).
    rewrite (EmptyFacts.pairless_global_edges items H).
    unfold most_common. destruct (top_n <=? 0); [reflexivity|].
    simpl. now rewrite firstn_nil.
Qed.

Lemma no_edges_iff_witness :
  Dated.find_rising_edges Analytics.first_seen DatedSamples.mixed 7 30 10
  = Clock.TypeError.
Proof.
  assert (Hn : 1 <= 10) by lia.
  assert (Hc : Dated.comparable DatedSamples.mixed = false) by reflexivity.
  destruct (@no_edges_iff Analytics.first_seen DatedSamples.mixed 7 30 10 Hn)
    as [H _].
  exact (proj2 H Hc).
Defined.

(** ** The order of the tags within a record *)
Module TagOrderFacts.
Import Analytics.

Lemma as_items_reordered records records' :
  Forall2 reordered_records records records' ->
  Forall2 reordered_tags (map Dated.as_item records) (map Dated.as_item records').
Proof.
  induction 1 as [|r r' l l' [Ht Hp] _ IH]; [constructor|].
  cbn [map]. constructor; [|exact IH].
  split; [|exact Hp]. unfold Dated.as_item. cbn [time]. now rewrite Ht.
Qed.

Lemma parsed_times_reordered records records' :
  Forall2 reordered_records records records' ->
  map snd (Dated.items_with_time records) = map snd (Dated.items_with_time records').
Proof.
  induction 1 as [|r r' l l' [Ht _] _ IH]; [reflexivity|].
  unfold Dated.items_with_time in *. cbn [flat_map]. rewrite !map_app, IH, <- Ht.
  now destruct (Dated.parsed_time r).
Qed.

(** Whether the times are comparable, and the text of the anchor, depend
    on the parsed times only. *)
Lemma comparable_times records :
  Dated.comparable records
  = match map snd (Dated.items_with_time records) with
    | [] => true
    | d :: l => forallb (fun x => Bool.eqb (Clock.aware x) (Clock.aware d)) l
    end.
Proof.
  unfold Dated.comparable.
  destruct (Dated.items_with_time records) as [|p l]; [reflexivity|].
  cbn [map]. now rewrite DatedFacts.forallb_snd.
Qed.

Lemma anchor_text_times records :
  Dated.anchor_text_of records
  = match map snd (Dated.items_with_time records) with
    | [] => NotAvailable
    | d :: l => match Clock.max_from d l with
                | Clock.Ok anchor_now => Clock.strftime anchor_now
                | Clock.TypeError => NotAvailable
                end
    end.
Proof.
  unfold Dated.anchor_text_of.
  now destruct (Dated.items_with_time records) as [|p l].
Qed.

Lemma find_rising_edges_reordered set_iter items items' rd hd n :
  Forall2 reordered_tags items items' ->
  find_rising_edges set_iter items rd hd n = find_rising_edges set_iter items' rd hd n.
Proof.
  intros H.
  destruct (windows_reordered rd hd H) as [Ea [Ere [Ehe [Eall [Eri [Ehi Et]]]]]].
  assert (Es : initial_stats items rd hd = initial_stats items' rd hd).
  { unfold initial_stats. now rewrite Ea, Ere, Ehe, Eri, Ehi, Et. }
  assert (Ec : recount items = recount items')
    by (rewrite !recount_counted; now rewrite (all_paired_tags_reordered H)).
  assert (El : len items = len items')
    by (unfold len; now rewrite (Forall2_length H)).
  unfold find_rising_edges, _fallback_top_edges.
  rewrite Es, Ere, Ehe, Eall, Ec, El.
  pose proof (items_with_time_reordered H) as F.
  destruct F; reflexivity.
Qed.

End TagOrderFacts.

(** X4: the order of the tags within a record changes nothing that is
    counted.  Two collections whose records differ in tag order only give
    every pair of tags the same edge weight and every tag the same node
    weight, and [find_rising_edges] has the same outcome on both: the same
    result, or [TypeError] for both. *)
Theorem tag_order_irrelevant (records records' : list Dated.record) :
  Forall2 reordered_records records records' ->
  let items := map Dated.as_item records in
  let items' := map Dated.as_item records' in
  (forall a b,
     Builder.edge_weight (Builder.edges (Builder.build_graph items)) a b
     = Builder.edge_weight (Builder.edges (Builder.build_graph items')) a b) /\
  (forall t,
     Builder.node_weight (Builder.nodes (Builder.build_graph items)) t
     = Builder.node_weight (Builder.nodes (Builder.build_graph items')) t) /\
  (forall set_iter recent_days historical_days top_n,
     Dated.find_rising_edges set_iter records recent_days historical_days top_n
     = Dated.find_rising_edges set_iter records' recent_days historical_days top_n).
Proof.
  intros Hr items items'.
  pose proof (TagOrderFacts.as_items_reordered Hr) as H. fold items items' in H.
  split; [|split].
  - intros a b. rewrite !build_graph_edge_weight. cbv zeta.
    now rewrite (all_paired_tags_reordered H).
  - intros t. rewrite !node_weight_counted. unfold tag_occurrences.
    now rewrite (occurrences_permutation String.eqb t (all_counted_tags_reordered H)).
  - intros set_iter rd hd n.
    pose proof (TagOrderFacts.parsed_times_reordered Hr) as Et.
    assert (Ec : Dated.comparable records = Dated.comparable records')
      by (rewrite !TagOrderFacts.comparable_times; now rewrite Et).
    assert (Ea : Dated.anchor_text_of records = Dated.anchor_text_of records')
      by (rewrite !TagOrderFacts.anchor_text_times; now rewrite Et).
    destruct (Dated.comparable records) eqn:Hc.
    + rewrite !DatedFacts.find_rising_edges_comparable by congruence.
      fold items items'. unfold Dated.printed.
      now rewrite Ea, (TagOrderFacts.find_rising_edges_reordered set_iter rd hd n H).
    + rewrite !DatedFacts.find_rising_edges_mixed by congruence. reflexivity.
Qed.

Lemma tag_order_irrelevant_witness :
  Forall2 reordered_records
    [Dated.mk_record (Some (Clock.mk_datetime 0 None)) ["b"; "a"; "c"]]
    [Dated.mk_record (Some (Clock.mk_datetime 0 None)) ["c"; "a"; "b"]] /\
  Builder.edge_weight
    (Builder.edges (Builder.build_graph [mk_item (Some 0) ["b"; "a"; "c"]])) "c" "a"
  = Builder.edge_weight
      (Builder.edges (Builder.build_graph [mk_item (Some 0) ["c"; "a"; "b"]])) "c" "a".
Proof.
  assert (H : Forall2 reordered_records
                [Dated.mk_record (Some (Clock.mk_datetime 0 None)) ["b"; "a"; "c"]]
                [Dated.mk_record (Some (Clock.mk_datetime 0 None)) ["c"; "a"; "b"]]).
  { constructor; [|constructor]. split; [reflexivity|]. simpl.
    apply (perm_trans (l':=["a"; "b"; "c"])).
    - apply perm_swap.
    - apply (perm_trans (l':=["a"; "c"; "b"])).
      + apply perm_skip, perm_swap.
      + apply perm_swap. }
  split; [exact H|].
  destruct (tag_order_irrelevant H) as [He _]. exact (He "c" "a").
Defined.
